(** * GameBoy runtime library (runtime/src/gbrt.c): memory bus, stack,
      ALU primitives, interrupt controller, HALT and cartridge loading.

    The C functions of gbrt.c are embedded as Rocq functions over a record
    for [GBContext].  Unsigned C integers are [Z] with the wrap-around of
    each conversion written out ([u8], [u16], [u32]); byte arrays are
    [list Z] read and written by index. *)

From Stdlib Require Import ZArith Lia Bool List.
From stdpp Require Import base option list.
Import ListNotations.

Local Open Scope Z_scope.

(** ** Fixed-width integers *)

Definition u8 (x : Z) : Z := x mod 256.
Definition u16 (x : Z) : Z := x mod 65536.
Definition u32 (x : Z) : Z := x mod 4294967296.

Definition is_u8 (x : Z) : Prop := 0 <= x < 256.
Definition is_u16 (x : Z) : Prop := 0 <= x < 65536.
Definition is_i8 (x : Z) : Prop := -128 <= x < 128.

(** C truth value of an integer expression. *)
Definition nonzero (x : Z) : bool := negb (x =? 0).

(** ** Memory map constants *)

Definition ROM_BANK0_END : Z := 0x3FFF.
Definition ROM_BANKN_START : Z := 0x4000.
Definition ROM_BANKN_END : Z := 0x7FFF.
Definition VRAM_START : Z := 0x8000.
Definition VRAM_END : Z := 0x9FFF.
Definition ERAM_START : Z := 0xA000.
Definition ERAM_END : Z := 0xBFFF.
Definition WRAM_BANK0_START : Z := 0xC000.
Definition WRAM_BANK0_END : Z := 0xCFFF.
Definition WRAM_BANKN_START : Z := 0xD000.
Definition WRAM_BANKN_END : Z := 0xDFFF.
Definition ECHO_END : Z := 0xFDFF.
Definition OAM_START : Z := 0xFE00.
Definition OAM_END : Z := 0xFE9F.
Definition UNUSABLE_END : Z := 0xFEFF.
Definition IO_START : Z := 0xFF00.
Definition IO_END : Z := 0xFF7F.
Definition HRAM_START : Z := 0xFF80.
Definition HRAM_END : Z := 0xFFFE.

Definition ROM_BANK_SIZE : Z := 0x4000.
Definition VRAM_SIZE : Z := 0x2000.
Definition ERAM_BANK_SIZE : Z := 0x2000.
Definition WRAM_BANK_SIZE : Z := 0x1000.
Definition OAM_SIZE : Z := 0xA0.
Definition IO_SIZE : Z := 0x80.
Definition HRAM_SIZE : Z := 0x7F.

(** ** Byte arrays

    [rd m i] is the C expression [m[i]] and [wr m i v] the assignment
    [m[i] = v].  An index outside the allocation is undefined behaviour in
    C; here such a read yields 0 and such a write changes nothing, and the
    theorems that depend on an access state that it is in range. *)

Definition rd (m : list Z) (i : Z) : Z := default 0 (m !! Z.to_nat i).
Definition wr (m : list Z) (i : Z) (v : Z) : list Z := <[Z.to_nat i := v]> m.

(** ** The runtime context *)

Section Context_.
Context {PPU : Type}.

(** Modelled from the spec: the declaration of [struct GBContext] is in
    gbrt.h, which is not among the sources.  The fields are those gbrt.c
    uses in the functions embedded below; the flags, [ime], [ime_pending],
    [halted], [stopped] and [ram_enabled] are booleans, the bank numbers and
    [a] bytes, [sp] and [pc] 16-bit, the cycle counters 32-bit.  [rom],
    [eram] and [ppu] are pointers the code tests against NULL. *)
Record GBContext : Type := {
  a : Z; sp : Z; pc : Z;
  f_z : bool; f_n : bool; f_h : bool; f_c : bool;
  ime : bool; ime_pending : bool; halted : bool; stopped : bool;
  rom_bank : Z; ram_bank : Z; wram_bank : Z; vram_bank : Z;
  ram_enabled : bool; mbc_type : Z;
  cycles : Z; frame_cycles : Z;
  rom : option (list Z); rom_size : Z;
  eram : option (list Z); eram_size : Z;
  wram : list Z; vram : list Z; oam : list Z; hram : list Z; io : list Z;
  ppu : option PPU
}.

(** Field assignments [ctx->x = v]. *)

Definition set_a (v : Z) (c : GBContext) : GBContext :=
  {| a := v; sp := sp c; pc := pc c; f_z := f_z c; f_n := f_n c; f_h := f_h c;
    f_c := f_c c; ime := ime c; ime_pending := ime_pending c;
    halted := halted c; stopped := stopped c; rom_bank := rom_bank c;
    ram_bank := ram_bank c; wram_bank := wram_bank c;
    vram_bank := vram_bank c; ram_enabled := ram_enabled c;
    mbc_type := mbc_type c; cycles := cycles c;
    frame_cycles := frame_cycles c; rom := rom c; rom_size := rom_size c;
    eram := eram c; eram_size := eram_size c; wram := wram c; vram := vram c;
    oam := oam c; hram := hram c; io := io c; ppu := ppu c |}.

Definition set_sp (v : Z) (c : GBContext) : GBContext :=
  {| a := a c; sp := v; pc := pc c; f_z := f_z c; f_n := f_n c; f_h := f_h c;
    f_c := f_c c; ime := ime c; ime_pending := ime_pending c;
    halted := halted c; stopped := stopped c; rom_bank := rom_bank c;
    ram_bank := ram_bank c; wram_bank := wram_bank c;
    vram_bank := vram_bank c; ram_enabled := ram_enabled c;
    mbc_type := mbc_type c; cycles := cycles c;
    frame_cycles := frame_cycles c; rom := rom c; rom_size := rom_size c;
    eram := eram c; eram_size := eram_size c; wram := wram c; vram := vram c;
    oam := oam c; hram := hram c; io := io c; ppu := ppu c |}.

Definition set_pc (v : Z) (c : GBContext) : GBContext :=
  {| a := a c; sp := sp c; pc := v; f_z := f_z c; f_n := f_n c; f_h := f_h c;
    f_c := f_c c; ime := ime c; ime_pending := ime_pending c;
    halted := halted c; stopped := stopped c; rom_bank := rom_bank c;
    ram_bank := ram_bank c; wram_bank := wram_bank c;
    vram_bank := vram_bank c; ram_enabled := ram_enabled c;
    mbc_type := mbc_type c; cycles := cycles c;
    frame_cycles := frame_cycles c; rom := rom c; rom_size := rom_size c;
    eram := eram c; eram_size := eram_size c; wram := wram c; vram := vram c;
    oam := oam c; hram := hram c; io := io c; ppu := ppu c |}.

Definition set_f_z (v : bool) (c : GBContext) : GBContext :=
  {| a := a c; sp := sp c; pc := pc c; f_z := v; f_n := f_n c; f_h := f_h c;
    f_c := f_c c; ime := ime c; ime_pending := ime_pending c;
    halted := halted c; stopped := stopped c; rom_bank := rom_bank c;
    ram_bank := ram_bank c; wram_bank := wram_bank c;
    vram_bank := vram_bank c; ram_enabled := ram_enabled c;
    mbc_type := mbc_type c; cycles := cycles c;
    frame_cycles := frame_cycles c; rom := rom c; rom_size := rom_size c;
    eram := eram c; eram_size := eram_size c; wram := wram c; vram := vram c;
    oam := oam c; hram := hram c; io := io c; ppu := ppu c |}.

Definition set_f_n (v : bool) (c : GBContext) : GBContext :=
  {| a := a c; sp := sp c; pc := pc c; f_z := f_z c; f_n := v; f_h := f_h c;
    f_c := f_c c; ime := ime c; ime_pending := ime_pending c;
    halted := halted c; stopped := stopped c; rom_bank := rom_bank c;
    ram_bank := ram_bank c; wram_bank := wram_bank c;
    vram_bank := vram_bank c; ram_enabled := ram_enabled c;
    mbc_type := mbc_type c; cycles := cycles c;
    frame_cycles := frame_cycles c; rom := rom c; rom_size := rom_size c;
    eram := eram c; eram_size := eram_size c; wram := wram c; vram := vram c;
    oam := oam c; hram := hram c; io := io c; ppu := ppu c |}.

Definition set_f_h (v : bool) (c : GBContext) : GBContext :=
  {| a := a c; sp := sp c; pc := pc c; f_z := f_z c; f_n := f_n c; f_h := v;
    f_c := f_c c; ime := ime c; ime_pending := ime_pending c;
    halted := halted c; stopped := stopped c; rom_bank := rom_bank c;
    ram_bank := ram_bank c; wram_bank := wram_bank c;
    vram_bank := vram_bank c; ram_enabled := ram_enabled c;
    mbc_type := mbc_type c; cycles := cycles c;
    frame_cycles := frame_cycles c; rom := rom c; rom_size := rom_size c;
    eram := eram c; eram_size := eram_size c; wram := wram c; vram := vram c;
    oam := oam c; hram := hram c; io := io c; ppu := ppu c |}.

Definition set_f_c (v : bool) (c : GBContext) : GBContext :=
  {| a := a c; sp := sp c; pc := pc c; f_z := f_z c; f_n := f_n c;
    f_h := f_h c; f_c := v; ime := ime c; ime_pending := ime_pending c;
    halted := halted c; stopped := stopped c; rom_bank := rom_bank c;
    ram_bank := ram_bank c; wram_bank := wram_bank c;
    vram_bank := vram_bank c; ram_enabled := ram_enabled c;
    mbc_type := mbc_type c; cycles := cycles c;
    frame_cycles := frame_cycles c; rom := rom c; rom_size := rom_size c;
    eram := eram c; eram_size := eram_size c; wram := wram c; vram := vram c;
    oam := oam c; hram := hram c; io := io c; ppu := ppu c |}.

Definition set_ime (v : bool) (c : GBContext) : GBContext :=
  {| a := a c; sp := sp c; pc := pc c; f_z := f_z c; f_n := f_n c;
    f_h := f_h c; f_c := f_c c; ime := v; ime_pending := ime_pending c;
    halted := halted c; stopped := stopped c; rom_bank := rom_bank c;
    ram_bank := ram_bank c; wram_bank := wram_bank c;
    vram_bank := vram_bank c; ram_enabled := ram_enabled c;
    mbc_type := mbc_type c; cycles := cycles c;
    frame_cycles := frame_cycles c; rom := rom c; rom_size := rom_size c;
    eram := eram c; eram_size := eram_size c; wram := wram c; vram := vram c;
    oam := oam c; hram := hram c; io := io c; ppu := ppu c |}.

Definition set_ime_pending (v : bool) (c : GBContext) : GBContext :=
  {| a := a c; sp := sp c; pc := pc c; f_z := f_z c; f_n := f_n c;
    f_h := f_h c; f_c := f_c c; ime := ime c; ime_pending := v;
    halted := halted c; stopped := stopped c; rom_bank := rom_bank c;
    ram_bank := ram_bank c; wram_bank := wram_bank c;
    vram_bank := vram_bank c; ram_enabled := ram_enabled c;
    mbc_type := mbc_type c; cycles := cycles c;
    frame_cycles := frame_cycles c; rom := rom c; rom_size := rom_size c;
    eram := eram c; eram_size := eram_size c; wram := wram c; vram := vram c;
    oam := oam c; hram := hram c; io := io c; ppu := ppu c |}.

Definition set_halted (v : bool) (c : GBContext) : GBContext :=
  {| a := a c; sp := sp c; pc := pc c; f_z := f_z c; f_n := f_n c;
    f_h := f_h c; f_c := f_c c; ime := ime c; ime_pending := ime_pending c;
    halted := v; stopped := stopped c; rom_bank := rom_bank c;
    ram_bank := ram_bank c; wram_bank := wram_bank c;
    vram_bank := vram_bank c; ram_enabled := ram_enabled c;
    mbc_type := mbc_type c; cycles := cycles c;
    frame_cycles := frame_cycles c; rom := rom c; rom_size := rom_size c;
    eram := eram c; eram_size := eram_size c; wram := wram c; vram := vram c;
    oam := oam c; hram := hram c; io := io c; ppu := ppu c |}.

Definition set_stopped (v : bool) (c : GBContext) : GBContext :=
  {| a := a c; sp := sp c; pc := pc c; f_z := f_z c; f_n := f_n c;
    f_h := f_h c; f_c := f_c c; ime := ime c; ime_pending := ime_pending c;
    halted := halted c; stopped := v; rom_bank := rom_bank c;
    ram_bank := ram_bank c; wram_bank := wram_bank c;
    vram_bank := vram_bank c; ram_enabled := ram_enabled c;
    mbc_type := mbc_type c; cycles := cycles c;
    frame_cycles := frame_cycles c; rom := rom c; rom_size := rom_size c;
    eram := eram c; eram_size := eram_size c; wram := wram c; vram := vram c;
    oam := oam c; hram := hram c; io := io c; ppu := ppu c |}.

Definition set_rom_bank (v : Z) (c : GBContext) : GBContext :=
  {| a := a c; sp := sp c; pc := pc c; f_z := f_z c; f_n := f_n c;
    f_h := f_h c; f_c := f_c c; ime := ime c; ime_pending := ime_pending c;
    halted := halted c; stopped := stopped c; rom_bank := v;
    ram_bank := ram_bank c; wram_bank := wram_bank c;
    vram_bank := vram_bank c; ram_enabled := ram_enabled c;
    mbc_type := mbc_type c; cycles := cycles c;
    frame_cycles := frame_cycles c; rom := rom c; rom_size := rom_size c;
    eram := eram c; eram_size := eram_size c; wram := wram c; vram := vram c;
    oam := oam c; hram := hram c; io := io c; ppu := ppu c |}.

Definition set_ram_bank (v : Z) (c : GBContext) : GBContext :=
  {| a := a c; sp := sp c; pc := pc c; f_z := f_z c; f_n := f_n c;
    f_h := f_h c; f_c := f_c c; ime := ime c; ime_pending := ime_pending c;
    halted := halted c; stopped := stopped c; rom_bank := rom_bank c;
    ram_bank := v; wram_bank := wram_bank c; vram_bank := vram_bank c;
    ram_enabled := ram_enabled c; mbc_type := mbc_type c; cycles := cycles c;
    frame_cycles := frame_cycles c; rom := rom c; rom_size := rom_size c;
    eram := eram c; eram_size := eram_size c; wram := wram c; vram := vram c;
    oam := oam c; hram := hram c; io := io c; ppu := ppu c |}.

Definition set_ram_enabled (v : bool) (c : GBContext) : GBContext :=
  {| a := a c; sp := sp c; pc := pc c; f_z := f_z c; f_n := f_n c;
    f_h := f_h c; f_c := f_c c; ime := ime c; ime_pending := ime_pending c;
    halted := halted c; stopped := stopped c; rom_bank := rom_bank c;
    ram_bank := ram_bank c; wram_bank := wram_bank c;
    vram_bank := vram_bank c; ram_enabled := v; mbc_type := mbc_type c;
    cycles := cycles c; frame_cycles := frame_cycles c; rom := rom c;
    rom_size := rom_size c; eram := eram c; eram_size := eram_size c;
    wram := wram c; vram := vram c; oam := oam c; hram := hram c; io := io c;
    ppu := ppu c |}.

Definition set_mbc_type (v : Z) (c : GBContext) : GBContext :=
  {| a := a c; sp := sp c; pc := pc c; f_z := f_z c; f_n := f_n c;
    f_h := f_h c; f_c := f_c c; ime := ime c; ime_pending := ime_pending c;
    halted := halted c; stopped := stopped c; rom_bank := rom_bank c;
    ram_bank := ram_bank c; wram_bank := wram_bank c;
    vram_bank := vram_bank c; ram_enabled := ram_enabled c; mbc_type := v;
    cycles := cycles c; frame_cycles := frame_cycles c; rom := rom c;
    rom_size := rom_size c; eram := eram c; eram_size := eram_size c;
    wram := wram c; vram := vram c; oam := oam c; hram := hram c; io := io c;
    ppu := ppu c |}.

Definition set_cycles (v : Z) (c : GBContext) : GBContext :=
  {| a := a c; sp := sp c; pc := pc c; f_z := f_z c; f_n := f_n c;
    f_h := f_h c; f_c := f_c c; ime := ime c; ime_pending := ime_pending c;
    halted := halted c; stopped := stopped c; rom_bank := rom_bank c;
    ram_bank := ram_bank c; wram_bank := wram_bank c;
    vram_bank := vram_bank c; ram_enabled := ram_enabled c;
    mbc_type := mbc_type c; cycles := v; frame_cycles := frame_cycles c;
    rom := rom c; rom_size := rom_size c; eram := eram c;
    eram_size := eram_size c; wram := wram c; vram := vram c; oam := oam c;
    hram := hram c; io := io c; ppu := ppu c |}.

Definition set_frame_cycles (v : Z) (c : GBContext) : GBContext :=
  {| a := a c; sp := sp c; pc := pc c; f_z := f_z c; f_n := f_n c;
    f_h := f_h c; f_c := f_c c; ime := ime c; ime_pending := ime_pending c;
    halted := halted c; stopped := stopped c; rom_bank := rom_bank c;
    ram_bank := ram_bank c; wram_bank := wram_bank c;
    vram_bank := vram_bank c; ram_enabled := ram_enabled c;
    mbc_type := mbc_type c; cycles := cycles c; frame_cycles := v;
    rom := rom c; rom_size := rom_size c; eram := eram c;
    eram_size := eram_size c; wram := wram c; vram := vram c; oam := oam c;
    hram := hram c; io := io c; ppu := ppu c |}.

Definition set_rom (v : option (list Z)) (c : GBContext) : GBContext :=
  {| a := a c; sp := sp c; pc := pc c; f_z := f_z c; f_n := f_n c;
    f_h := f_h c; f_c := f_c c; ime := ime c; ime_pending := ime_pending c;
    halted := halted c; stopped := stopped c; rom_bank := rom_bank c;
    ram_bank := ram_bank c; wram_bank := wram_bank c;
    vram_bank := vram_bank c; ram_enabled := ram_enabled c;
    mbc_type := mbc_type c; cycles := cycles c;
    frame_cycles := frame_cycles c; rom := v; rom_size := rom_size c;
    eram := eram c; eram_size := eram_size c; wram := wram c; vram := vram c;
    oam := oam c; hram := hram c; io := io c; ppu := ppu c |}.

Definition set_rom_size (v : Z) (c : GBContext) : GBContext :=
  {| a := a c; sp := sp c; pc := pc c; f_z := f_z c; f_n := f_n c;
    f_h := f_h c; f_c := f_c c; ime := ime c; ime_pending := ime_pending c;
    halted := halted c; stopped := stopped c; rom_bank := rom_bank c;
    ram_bank := ram_bank c; wram_bank := wram_bank c;
    vram_bank := vram_bank c; ram_enabled := ram_enabled c;
    mbc_type := mbc_type c; cycles := cycles c;
    frame_cycles := frame_cycles c; rom := rom c; rom_size := v;
    eram := eram c; eram_size := eram_size c; wram := wram c; vram := vram c;
    oam := oam c; hram := hram c; io := io c; ppu := ppu c |}.

Definition set_eram (v : option (list Z)) (c : GBContext) : GBContext :=
  {| a := a c; sp := sp c; pc := pc c; f_z := f_z c; f_n := f_n c;
    f_h := f_h c; f_c := f_c c; ime := ime c; ime_pending := ime_pending c;
    halted := halted c; stopped := stopped c; rom_bank := rom_bank c;
    ram_bank := ram_bank c; wram_bank := wram_bank c;
    vram_bank := vram_bank c; ram_enabled := ram_enabled c;
    mbc_type := mbc_type c; cycles := cycles c;
    frame_cycles := frame_cycles c; rom := rom c; rom_size := rom_size c;
    eram := v; eram_size := eram_size c; wram := wram c; vram := vram c;
    oam := oam c; hram := hram c; io := io c; ppu := ppu c |}.

Definition set_eram_size (v : Z) (c : GBContext) : GBContext :=
  {| a := a c; sp := sp c; pc := pc c; f_z := f_z c; f_n := f_n c;
    f_h := f_h c; f_c := f_c c; ime := ime c; ime_pending := ime_pending c;
    halted := halted c; stopped := stopped c; rom_bank := rom_bank c;
    ram_bank := ram_bank c; wram_bank := wram_bank c;
    vram_bank := vram_bank c; ram_enabled := ram_enabled c;
    mbc_type := mbc_type c; cycles := cycles c;
    frame_cycles := frame_cycles c; rom := rom c; rom_size := rom_size c;
    eram := eram c; eram_size := v; wram := wram c; vram := vram c;
    oam := oam c; hram := hram c; io := io c; ppu := ppu c |}.

Definition set_wram (v : list Z) (c : GBContext) : GBContext :=
  {| a := a c; sp := sp c; pc := pc c; f_z := f_z c; f_n := f_n c;
    f_h := f_h c; f_c := f_c c; ime := ime c; ime_pending := ime_pending c;
    halted := halted c; stopped := stopped c; rom_bank := rom_bank c;
    ram_bank := ram_bank c; wram_bank := wram_bank c;
    vram_bank := vram_bank c; ram_enabled := ram_enabled c;
    mbc_type := mbc_type c; cycles := cycles c;
    frame_cycles := frame_cycles c; rom := rom c; rom_size := rom_size c;
    eram := eram c; eram_size := eram_size c; wram := v; vram := vram c;
    oam := oam c; hram := hram c; io := io c; ppu := ppu c |}.

Definition set_vram (v : list Z) (c : GBContext) : GBContext :=
  {| a := a c; sp := sp c; pc := pc c; f_z := f_z c; f_n := f_n c;
    f_h := f_h c; f_c := f_c c; ime := ime c; ime_pending := ime_pending c;
    halted := halted c; stopped := stopped c; rom_bank := rom_bank c;
    ram_bank := ram_bank c; wram_bank := wram_bank c;
    vram_bank := vram_bank c; ram_enabled := ram_enabled c;
    mbc_type := mbc_type c; cycles := cycles c;
    frame_cycles := frame_cycles c; rom := rom c; rom_size := rom_size c;
    eram := eram c; eram_size := eram_size c; wram := wram c; vram := v;
    oam := oam c; hram := hram c; io := io c; ppu := ppu c |}.

Definition set_oam (v : list Z) (c : GBContext) : GBContext :=
  {| a := a c; sp := sp c; pc := pc c; f_z := f_z c; f_n := f_n c;
    f_h := f_h c; f_c := f_c c; ime := ime c; ime_pending := ime_pending c;
    halted := halted c; stopped := stopped c; rom_bank := rom_bank c;
    ram_bank := ram_bank c; wram_bank := wram_bank c;
    vram_bank := vram_bank c; ram_enabled := ram_enabled c;
    mbc_type := mbc_type c; cycles := cycles c;
    frame_cycles := frame_cycles c; rom := rom c; rom_size := rom_size c;
    eram := eram c; eram_size := eram_size c; wram := wram c; vram := vram c;
    oam := v; hram := hram c; io := io c; ppu := ppu c |}.

Definition set_hram (v : list Z) (c : GBContext) : GBContext :=
  {| a := a c; sp := sp c; pc := pc c; f_z := f_z c; f_n := f_n c;
    f_h := f_h c; f_c := f_c c; ime := ime c; ime_pending := ime_pending c;
    halted := halted c; stopped := stopped c; rom_bank := rom_bank c;
    ram_bank := ram_bank c; wram_bank := wram_bank c;
    vram_bank := vram_bank c; ram_enabled := ram_enabled c;
    mbc_type := mbc_type c; cycles := cycles c;
    frame_cycles := frame_cycles c; rom := rom c; rom_size := rom_size c;
    eram := eram c; eram_size := eram_size c; wram := wram c; vram := vram c;
    oam := oam c; hram := v; io := io c; ppu := ppu c |}.

Definition set_io (v : list Z) (c : GBContext) : GBContext :=
  {| a := a c; sp := sp c; pc := pc c; f_z := f_z c; f_n := f_n c;
    f_h := f_h c; f_c := f_c c; ime := ime c; ime_pending := ime_pending c;
    halted := halted c; stopped := stopped c; rom_bank := rom_bank c;
    ram_bank := ram_bank c; wram_bank := wram_bank c;
    vram_bank := vram_bank c; ram_enabled := ram_enabled c;
    mbc_type := mbc_type c; cycles := cycles c;
    frame_cycles := frame_cycles c; rom := rom c; rom_size := rom_size c;
    eram := eram c; eram_size := eram_size c; wram := wram c; vram := vram c;
    oam := oam c; hram := hram c; io := v; ppu := ppu c |}.

Definition set_ppu (v : option PPU) (c : GBContext) : GBContext :=
  {| a := a c; sp := sp c; pc := pc c; f_z := f_z c; f_n := f_n c;
    f_h := f_h c; f_c := f_c c; ime := ime c; ime_pending := ime_pending c;
    halted := halted c; stopped := stopped c; rom_bank := rom_bank c;
    ram_bank := ram_bank c; wram_bank := wram_bank c;
    vram_bank := vram_bank c; ram_enabled := ram_enabled c;
    mbc_type := mbc_type c; cycles := cycles c;
    frame_cycles := frame_cycles c; rom := rom c; rom_size := rom_size c;
    eram := eram c; eram_size := eram_size c; wram := wram c; vram := vram c;
    oam := oam c; hram := hram c; io := io c; ppu := v |}.

End Context_.
Arguments GBContext : clear implicits.

(** ** Collaborators

    The PPU (ppu.c), the SDL library behind platform_sdl.c and the
    allocator are outside gbrt.c.  They are taken as an interface: the
    theorems below hold for every implementation of it. *)

Class Env : Type := {
  PPU : Type;
  Framebuffer : Type;
  (** process state of the platform layer: SDL's event queue and window,
      and the two joypad bytes *)
  Platform : Type;
  (** whether the runtime is compiled with [GB_HAS_SDL2] *)
  GB_HAS_SDL2 : bool;
  ppu_read_register : PPU -> Z -> Z;
  ppu_write_register : PPU -> GBContext PPU -> Z -> Z -> GBContext PPU;
  ppu_tick : PPU -> GBContext PPU -> Z -> GBContext PPU;
  ppu_frame_ready : PPU -> bool;
  ppu_get_framebuffer : PPU -> option Framebuffer;
  ppu_clear_frame_ready : PPU -> PPU;
  g_joypad_dpad : Platform -> Z;
  g_joypad_buttons : Platform -> Z;
  gb_platform_poll_events : Platform -> Platform * bool;
  gb_platform_render_frame : Platform -> Framebuffer -> Platform;
  gb_platform_vsync : Platform -> Platform;
  (** whether [malloc]/[calloc] of the given number of bytes succeeds *)
  heap_alloc : Z -> bool
}.

Section Runtime.
Context {E : Env}.

Local Abbreviation Ctx := (GBContext PPU).

(** ** Memory access *)

(** [gb_read8] with its recursive call (echo RAM) taken as [self]. *)
Definition gb_read8_body (self : Platform -> Ctx -> Z -> Z)
    (plat : Platform) (ctx : Ctx) (addr : Z) : Z :=
  if addr <=? ROM_BANK0_END then
    match rom ctx with Some r => rd r addr | None => 0xFF end
  else if addr <=? ROM_BANKN_END then
    let offset := rom_bank ctx * ROM_BANK_SIZE + (addr - ROM_BANKN_START) in
    match rom ctx with
    | Some r => if offset <? rom_size ctx then rd r offset else 0xFF
    | None => 0xFF
    end
  else if addr <=? VRAM_END then
    rd (vram ctx) (addr - VRAM_START + vram_bank ctx * VRAM_SIZE)
  else if addr <=? ERAM_END then
    if ram_enabled ctx then
      match eram ctx with
      | Some er =>
          let offset := ram_bank ctx * ERAM_BANK_SIZE + (addr - ERAM_START) in
          if offset <? eram_size ctx then rd er offset else 0xFF
      | None => 0xFF
      end
    else 0xFF
  else if addr <=? WRAM_BANK0_END then
    rd (wram ctx) (addr - WRAM_BANK0_START)
  else if addr <=? WRAM_BANKN_END then
    rd (wram ctx) ((addr - WRAM_BANKN_START) + wram_bank ctx * WRAM_BANK_SIZE)
  else if addr <=? ECHO_END then
    self plat ctx (u16 (addr - 0x2000))
  else if addr <=? OAM_END then
    rd (oam ctx) (addr - OAM_START)
  else if addr <=? UNUSABLE_END then
    0xFF
  else if addr <=? IO_END then
    match (if (0xFF40 <=? addr) && (addr <=? 0xFF4B) then ppu ctx else None) with
    | Some p => ppu_read_register p addr
    | None =>
        if addr =? 0xFF00 then
          let joyp := rd (io ctx) 0x00 in
          let result := u8 (Z.lor joyp 0x0F) in
          if GB_HAS_SDL2 then
            let dpad := g_joypad_dpad plat in
            let buttons := g_joypad_buttons plat in
            let result :=
              if negb (nonzero (Z.land joyp 0x10))
              then u8 (Z.lor (Z.land result 0xF0) (Z.land dpad 0x0F))
              else result in
            let result :=
              if negb (nonzero (Z.land joyp 0x20))
              then u8 (Z.lor (Z.land result 0xF0) (Z.land buttons 0x0F))
              else result in
            result
          else result
        else rd (io ctx) (addr - IO_START)
    end
  else if addr <=? HRAM_END then
    rd (hram ctx) (addr - HRAM_START)
  else
    rd (io ctx) IO_SIZE.

(** The echo range 0xE000-0xFDFF forwards to 0xC000-0xDDFF, which is work
    RAM, so the recursion of [gb_read8] is one call deep. *)
Definition gb_read8 : Platform -> Ctx -> Z -> Z :=
  gb_read8_body (gb_read8_body (fun _ _ _ => 0xFF)).

Definition gb_write8_body (self : Ctx -> Z -> Z -> Ctx)
    (ctx : Ctx) (addr : Z) (value : Z) : Ctx :=
  if addr <=? ROM_BANKN_END then
    (* ROM area - MBC register writes *)
    if (0x2000 <=? addr) && (addr <=? 0x3FFF) then
      let ctx := set_rom_bank value ctx in
      if rom_bank ctx =? 0 then set_rom_bank 1 ctx else ctx
    else if addr <=? 0x1FFF then
      set_ram_enabled (Z.land value 0x0F =? 0x0A) ctx
    else if (0x4000 <=? addr) && (addr <=? 0x5FFF) then
      set_ram_bank (Z.land value 0x03) ctx
    else ctx
  else if addr <=? VRAM_END then
    let offset := u16 (addr - VRAM_START + vram_bank ctx * VRAM_SIZE) in
    set_vram (wr (vram ctx) offset value) ctx
  else if addr <=? ERAM_END then
    if ram_enabled ctx then
      match eram ctx with
      | Some er =>
          let offset := ram_bank ctx * ERAM_BANK_SIZE + (addr - ERAM_START) in
          if offset <? eram_size ctx
          then set_eram (Some (wr er offset value)) ctx
          else ctx
      | None => ctx
      end
    else ctx
  else if addr <=? WRAM_BANK0_END then
    set_wram (wr (wram ctx) (addr - WRAM_BANK0_START) value) ctx
  else if addr <=? WRAM_BANKN_END then
    set_wram (wr (wram ctx)
                ((addr - WRAM_BANKN_START) + wram_bank ctx * WRAM_BANK_SIZE)
                value) ctx
  else if addr <=? ECHO_END then
    self ctx (u16 (addr - 0x2000)) value
  else if addr <=? OAM_END then
    set_oam (wr (oam ctx) (addr - OAM_START) value) ctx
  else if addr <=? UNUSABLE_END then
    ctx
  else if addr <=? IO_END then
    match (if (0xFF40 <=? addr) && (addr <=? 0xFF4B) then ppu ctx else None) with
    | Some p => ppu_write_register p ctx addr value
    | None => set_io (wr (io ctx) (addr - IO_START) value) ctx
    end
  else if addr <=? HRAM_END then
    set_hram (wr (hram ctx) (addr - HRAM_START) value) ctx
  else
    set_io (wr (io ctx) IO_SIZE value) ctx.

Definition gb_write8 : Ctx -> Z -> Z -> Ctx :=
  gb_write8_body (gb_write8_body (fun ctx _ _ => ctx)).

Definition gb_read16 (plat : Platform) (ctx : Ctx) (addr : Z) : Z :=
  let lo := gb_read8 plat ctx addr in
  let hi := gb_read8 plat ctx (u16 (addr + 1)) in
  u16 (Z.lor lo (Z.shiftl hi 8)).

Definition gb_write16 (ctx : Ctx) (addr : Z) (value : Z) : Ctx :=
  let ctx := gb_write8 ctx addr (u8 (Z.land value 0xFF)) in
  gb_write8 ctx (u16 (addr + 1)) (u8 (Z.shiftr value 8)).

(** ** Stack operations *)

Definition gb_push16 (ctx : Ctx) (value : Z) : Ctx :=
  let ctx := set_sp (u16 (sp ctx - 2)) ctx in
  gb_write16 ctx (sp ctx) value.

Definition gb_pop16 (plat : Platform) (ctx : Ctx) : Z * Ctx :=
  let value := gb_read16 plat ctx (sp ctx) in
  (value, set_sp (u16 (sp ctx + 2)) ctx).


(** ** ALU operations *)

Definition gb_add8 (ctx : Ctx) (value : Z) : Ctx :=
  let result := u16 (a ctx + value) in
  let f_z' := Z.land result 0xFF =? 0 in
  let f_h' := Z.land (a ctx) 0x0F + Z.land value 0x0F >? 0x0F in
  let f_c' := result >? 0xFF in
  let ctx := set_f_z f_z' ctx in
  let ctx := set_f_n false ctx in
  let ctx := set_f_h f_h' ctx in
  let ctx := set_f_c f_c' ctx in
  set_a (u8 result) ctx.

(** [offset] is an [int8_t]: a [Z] between -128 and 127.  [&] acts on its
    two's complement representation, as [Z.land] does on a negative [Z]. *)
Definition gb_add_sp (ctx : Ctx) (offset : Z) : Ctx :=
  let result := u32 (sp ctx + offset) in
  let f_h' := Z.land (sp ctx) 0x0F + Z.land offset 0x0F >? 0x0F in
  let f_c' := Z.land (sp ctx) 0xFF + Z.land offset 0xFF >? 0xFF in
  let ctx := set_f_z false ctx in
  let ctx := set_f_n false ctx in
  let ctx := set_f_h f_h' ctx in
  let ctx := set_f_c f_c' ctx in
  set_sp (u16 result) ctx.

(** ** Control flow *)

Definition gb_ret (plat : Platform) (ctx : Ctx) : Ctx :=
  let (value, ctx) := gb_pop16 plat ctx in
  set_pc value ctx.

(** The HRAM trampoline recogniser reads [ctx->hram] directly.  The debug
    log and its counter are not part of the state. *)
Definition gb_interpret (plat : Platform) (ctx : Ctx) (addr : Z) : Ctx :=
  let ctx := set_pc addr ctx in
  if (0xFF80 <=? addr) && (addr <=? 0xFFFE) then
    let opcode := rd (hram ctx) (addr - 0xFF80) in
    if opcode =? 0xE0 then
      let operand := rd (hram ctx) (addr - 0xFF80 + 1) in
      if operand =? 0x46 then
        let ctx := gb_write8 ctx 0xFF46 (a ctx) in
        gb_ret plat ctx
      else ctx
    else if opcode =? 0x3E then
      let op2 := rd (hram ctx) (addr - 0xFF80 + 2) in
      let operand2 := rd (hram ctx) (addr - 0xFF80 + 3) in
      if (op2 =? 0xE0) && (operand2 =? 0x46) then
        let dma_src := rd (hram ctx) (addr - 0xFF80 + 1) in
        let ctx := set_a dma_src ctx in
        let ctx := gb_write8 ctx 0xFF46 (a ctx) in
        gb_ret plat ctx
      else ctx
    else ctx
  else ctx.

(** The weak [gb_dispatch] of gbrt.c: the one in force when the generated
    dispatch table has no entry for the address. *)
Definition gb_dispatch (plat : Platform) (ctx : Ctx) (addr : Z) : Ctx :=
  let ctx := set_pc addr ctx in
  gb_interpret plat ctx addr.

Definition gb_call (plat : Platform) (ctx : Ctx) (addr : Z) : Ctx :=
  let ctx := gb_push16 ctx (pc ctx) in
  gb_dispatch plat ctx addr.

(** ** Timing and interrupts *)

(** The context together with the process-wide state gbrt.c reaches: the
    platform layer and the static [poll_counter] of [gb_tick]. *)
Record World : Type := {
  w_ctx : Ctx;
  w_plat : Platform;
  poll_counter : Z
}.

Definition gb_add_cycles (ctx : Ctx) (cyc : Z) : Ctx :=
  let ctx := set_cycles (u32 (cycles ctx + cyc)) ctx in
  set_frame_cycles (u32 (frame_cycles ctx + cyc)) ctx.

(** "Handle pending IME enable (from EI instruction)". *)
Definition tick_ime_pending (ctx : Ctx) : Ctx :=
  if ime_pending ctx then
    let ctx := set_ime true ctx in
    set_ime_pending false ctx
  else ctx.

(** "Check and dispatch interrupts". *)
Definition tick_interrupts (plat : Platform) (ctx : Ctx) : Ctx :=
  if ime ctx then
    let if_reg := rd (io ctx) 0x0F in
    let ie_reg := rd (io ctx) 0x80 in
    let pending := u8 (Z.land (Z.land if_reg ie_reg) 0x1F) in
    if nonzero pending then
      let ctx := set_ime false ctx in
      let ctx := set_halted false ctx in
      let '(vector, bit) :=
        if nonzero (Z.land pending 0x01) then (0x0040, 0x01)
        else if nonzero (Z.land pending 0x02) then (0x0048, 0x02)
        else if nonzero (Z.land pending 0x04) then (0x0050, 0x04)
        else if nonzero (Z.land pending 0x08) then (0x0058, 0x08)
        else if nonzero (Z.land pending 0x10) then (0x0060, 0x10)
        else (0, 0) in
      if nonzero vector then
        let ctx :=
          set_io (wr (io ctx) 0x0F
                    (u8 (Z.land (rd (io ctx) 0x0F) (Z.lnot bit)))) ctx in
        gb_dispatch plat ctx vector
      else ctx
    else ctx
  else ctx.

(** "Update PPU".  [ctx->ppu] is read again after [ppu_tick]; should an
    implementation of the PPU have cleared it, the frame-ready test is
    skipped (the C code would dereference NULL). *)
Definition tick_ppu (w : World) (cyc : Z) : World :=
  match ppu (w_ctx w) with
  | Some p =>
      let ctx := ppu_tick p (w_ctx w) cyc in
      match ppu ctx with
      | Some p =>
          if ppu_frame_ready p then
            let plat :=
              if GB_HAS_SDL2 then
                let plat :=
                  match ppu_get_framebuffer p with
                  | Some fb => gb_platform_render_frame (w_plat w) fb
                  | None => w_plat w
                  end in
                gb_platform_vsync plat
              else w_plat w in
            let ctx := set_ppu (Some (ppu_clear_frame_ready p)) ctx in
            {| w_ctx := ctx; w_plat := plat; poll_counter := 0 |}
          else {| w_ctx := ctx; w_plat := w_plat w;
                  poll_counter := poll_counter w |}
      | None => {| w_ctx := ctx; w_plat := w_plat w;
                   poll_counter := poll_counter w |}
      end
  | None => w
  end.

(** "Poll events frequently to keep system responsive". *)
Definition tick_poll (w : World) (cyc : Z) : World :=
  if GB_HAS_SDL2 then
    let counter := u32 (poll_counter w + cyc) in
    if counter >=? 4096 then
      let (plat, running) := gb_platform_poll_events (w_plat w) in
      let ctx := if negb running then set_stopped true (w_ctx w)
                 else w_ctx w in
      {| w_ctx := ctx; w_plat := plat; poll_counter := 0 |}
    else {| w_ctx := w_ctx w; w_plat := w_plat w; poll_counter := counter |}
  else w.

Definition gb_tick (w : World) (cyc : Z) : World :=
  let ctx := gb_add_cycles (w_ctx w) cyc in
  let ctx := tick_ime_pending ctx in
  let ctx := tick_interrupts (w_plat w) ctx in
  let w := {| w_ctx := ctx; w_plat := w_plat w;
              poll_counter := poll_counter w |} in
  let w := tick_ppu w cyc in
  tick_poll w cyc.

(** ** CPU state *)

Definition with_ctx (w : World) (ctx : Ctx) : World :=
  {| w_ctx := ctx; w_plat := w_plat w; poll_counter := poll_counter w |}.

(** One turn of the body of the loop of [gb_halt]; the boolean tells
    whether the turn left the loop through [break]. *)
Definition gb_halt_iter (w : World) : World * bool :=
  let w := gb_tick w 4 in
  let ie := rd (io (w_ctx w)) IO_SIZE in
  let if_reg := rd (io (w_ctx w)) 0x0F in
  if nonzero (Z.land ie if_reg) then
    (with_ctx w (set_halted false (w_ctx w)), true)
  else
    match ppu (w_ctx w) with
    | Some p =>
        if ppu_frame_ready p then
          if GB_HAS_SDL2 then
            let (plat, running) := gb_platform_poll_events (w_plat w) in
            if negb running then
              let ctx := set_stopped true (w_ctx w) in
              let ctx := set_halted false ctx in
              ({| w_ctx := ctx; w_plat := plat;
                  poll_counter := poll_counter w |}, true)
            else
              let plat :=
                match ppu_get_framebuffer p with
                | Some fb => gb_platform_render_frame plat fb
                | None => plat
                end in
              let plat := gb_platform_vsync plat in
              ({| w_ctx := set_ppu (Some (ppu_clear_frame_ready p)) (w_ctx w);
                  w_plat := plat; poll_counter := poll_counter w |}, false)
          else
            (with_ctx w (set_ppu (Some (ppu_clear_frame_ready p)) (w_ctx w)),
             false)
        else (w, false)
    | None => (w, false)
    end.

(** [while (ctx->halted && max_cycles > 0)], with fuel for the number of
    turns: [None] when the fuel runs out before the loop ends. *)
Fixpoint gb_halt_loop (fuel : nat) (w : World) (max_cycles : Z)
    : option World :=
  if halted (w_ctx w) && (max_cycles >? 0) then
    match fuel with
    | O => None
    | S fuel =>
        let (w, brk) := gb_halt_iter w in
        let max_cycles := max_cycles - 4 in
        if brk then Some w else gb_halt_loop fuel w max_cycles
    end
  else Some w.

Definition gb_halt (fuel : nat) (w : World) : option World :=
  let w := with_ctx w (set_halted true (w_ctx w)) in
  gb_halt_loop fuel w 70224.

(** ** Execution *)

Definition gb_step (w : World) : Z * World :=
  let start := cycles (w_ctx w) in
  let ctx := gb_dispatch (w_plat w) (w_ctx w) (pc (w_ctx w)) in
  let ctx := if ime_pending ctx
             then set_ime_pending false (set_ime true ctx) else ctx in
  (u32 (cycles ctx - start), with_ctx w ctx).

(** ** Cartridge loading *)

(** [size] is the length of [data]. *)
Definition gb_context_load_rom (ctx : Ctx) (data : list Z) : Ctx * bool :=
  let size := Z.of_nat (length data) in
  if negb (heap_alloc size) then (set_rom None ctx, false)
  else
    let ctx := set_rom (Some data) ctx in
    let ctx := set_rom_size size ctx in
    let ctx :=
      if size >=? 0x148 then
        let ctx := set_mbc_type (rd data 0x147) ctx in
        let ram_size_code := rd data 0x149 in
        let ram_size :=
          if ram_size_code =? 0x00 then 0
          else if ram_size_code =? 0x01 then 2 * 1024
          else if ram_size_code =? 0x02 then 8 * 1024
          else if ram_size_code =? 0x03 then 32 * 1024
          else if ram_size_code =? 0x04 then 128 * 1024
          else if ram_size_code =? 0x05 then 64 * 1024
          else 0 in
        let ram_size :=
          if (mbc_type ctx =? 0x05) || (mbc_type ctx =? 0x06)
          then 512 else ram_size in
        if ram_size >? 0 then
          let ctx :=
            set_eram (if heap_alloc ram_size
                      then Some (replicate (Z.to_nat ram_size) 0)
                      else None) ctx in
          set_eram_size ram_size ctx
        else ctx
      else ctx in
    (ctx, true).

(** ** Instructions of translated code

    Modelled from the spec: the emitter and the code it generates are not
    among the sources.  An instruction ends with a [Tick] of its cycle
    count; EI ("enable_delayed") sets [ime_pending]; NOP does nothing. *)
Definition instr_EI (w : World) : World :=
  gb_tick (with_ctx w (set_ime_pending true (w_ctx w))) 4.

Definition instr_NOP (w : World) : World :=
  gb_tick w 4.

(** ** Generic interpretation of one instruction

    Modelled from the spec: section 4.6 describes the interpreter as
    reading the opcode at PC through the bus, executing the instruction
    with the shared bus operations, advancing PC by its length (or to the
    branch target) and emitting the tick of its cycle count.  This is that
    description for the four opcodes the trampolines are made of: NOP,
    LD A,n, LDH (n),A and RET.  Other opcodes are not covered: [None]. *)
Definition spec_interpret_one (w : World) (addr : Z) : option World :=
  let plat := w_plat w in
  let ctx := set_pc addr (w_ctx w) in
  let opcode := gb_read8 plat ctx (pc ctx) in
  if opcode =? 0x00 then
    Some (gb_tick (with_ctx w (set_pc (u16 (pc ctx + 1)) ctx)) 4)
  else if opcode =? 0x3E then
    let n := gb_read8 plat ctx (u16 (pc ctx + 1)) in
    let ctx := set_a n ctx in
    Some (gb_tick (with_ctx w (set_pc (u16 (pc ctx + 2)) ctx)) 8)
  else if opcode =? 0xE0 then
    let n := gb_read8 plat ctx (u16 (pc ctx + 1)) in
    let ctx := gb_write8 ctx (0xFF00 + n) (a ctx) in
    Some (gb_tick (with_ctx w (set_pc (u16 (pc ctx + 2)) ctx)) 12)
  else if opcode =? 0xC9 then
    Some (gb_tick (with_ctx w (gb_ret plat ctx)) 16)
  else None.

(** ** Cartridge header tables of the translator

    Modelled from the spec: the cartridge loader of the translation tool is
    not among the sources.  Section 4.1 gives the MBC codes it recognises
    and the ERAM size per header byte 0x149. *)
Definition spec_mbc_recognized (code : Z) : bool :=
  (code =? 0x00)
  || ((0x01 <=? code) && (code <=? 0x03))
  || ((0x05 <=? code) && (code <=? 0x06))
  || ((0x0F <=? code) && (code <=? 0x13))
  || ((0x19 <=? code) && (code <=? 0x1E)).

Definition spec_is_mbc2 (code : Z) : bool :=
  (0x05 <=? code) && (code <=? 0x06).

Definition spec_eram_size (mbc_code ram_code : Z) : Z :=
  if spec_is_mbc2 mbc_code then 512
  else if ram_code =? 1 then 2 * 1024
  else if ram_code =? 2 then 8 * 1024
  else if ram_code =? 3 then 32 * 1024
  else if ram_code =? 4 then 128 * 1024
  else if ram_code =? 5 then 64 * 1024
  else 0.

(** ** Further ALU operations of gbrt.c *)

Definition gb_adc8 (ctx : Ctx) (value : Z) : Ctx :=
  let carry := if f_c ctx then 1 else 0 in
  let result := u16 (a ctx + value + carry) in
  let f_z' := Z.land result 0xFF =? 0 in
  let f_h' := Z.land (a ctx) 0x0F + Z.land value 0x0F + carry >? 0x0F in
  let f_c' := result >? 0xFF in
  let ctx := set_f_z f_z' ctx in
  let ctx := set_f_n false ctx in
  let ctx := set_f_h f_h' ctx in
  let ctx := set_f_c f_c' ctx in
  set_a (u8 result) ctx.

Definition gb_sub8 (ctx : Ctx) (value : Z) : Ctx :=
  let result := u16 (a ctx - value) in
  let f_z' := Z.land result 0xFF =? 0 in
  let f_h' := Z.land (a ctx) 0x0F <? Z.land value 0x0F in
  let f_c' := a ctx <? value in
  let ctx := set_f_z f_z' ctx in
  let ctx := set_f_n true ctx in
  let ctx := set_f_h f_h' ctx in
  let ctx := set_f_c f_c' ctx in
  set_a (u8 result) ctx.

Definition gb_sbc8 (ctx : Ctx) (value : Z) : Ctx :=
  let carry := if f_c ctx then 1 else 0 in
  let result := u16 (a ctx - value - carry) in
  let f_z' := Z.land result 0xFF =? 0 in
  let f_h' := Z.land (a ctx) 0x0F <? Z.land value 0x0F + carry in
  let f_c' := a ctx <? value + carry in
  let ctx := set_f_z f_z' ctx in
  let ctx := set_f_n true ctx in
  let ctx := set_f_h f_h' ctx in
  let ctx := set_f_c f_c' ctx in
  set_a (u8 result) ctx.

Definition gb_and8 (ctx : Ctx) (value : Z) : Ctx :=
  let ctx := set_a (u8 (Z.land (a ctx) value)) ctx in
  let ctx := set_f_z (a ctx =? 0) ctx in
  let ctx := set_f_n false ctx in
  let ctx := set_f_h true ctx in
  set_f_c false ctx.

Definition gb_or8 (ctx : Ctx) (value : Z) : Ctx :=
  let ctx := set_a (u8 (Z.lor (a ctx) value)) ctx in
  let ctx := set_f_z (a ctx =? 0) ctx in
  let ctx := set_f_n false ctx in
  let ctx := set_f_h false ctx in
  set_f_c false ctx.

Definition gb_xor8 (ctx : Ctx) (value : Z) : Ctx :=
  let ctx := set_a (u8 (Z.lxor (a ctx) value)) ctx in
  let ctx := set_f_z (a ctx =? 0) ctx in
  let ctx := set_f_n false ctx in
  let ctx := set_f_h false ctx in
  set_f_c false ctx.

Definition gb_cp8 (ctx : Ctx) (value : Z) : Ctx :=
  let result := u16 (a ctx - value) in
  let f_z' := Z.land result 0xFF =? 0 in
  let f_h' := Z.land (a ctx) 0x0F <? Z.land value 0x0F in
  let f_c' := a ctx <? value in
  let ctx := set_f_z f_z' ctx in
  let ctx := set_f_n true ctx in
  let ctx := set_f_h f_h' ctx in
  set_f_c f_c' ctx.

(** The functions that return a byte give it with the updated context. *)
Definition gb_inc8 (ctx : Ctx) (value : Z) : Z * Ctx :=
  let result := u8 (value + 1) in
  let ctx := set_f_z (result =? 0) ctx in
  let ctx := set_f_n false ctx in
  let ctx := set_f_h (Z.land value 0x0F =? 0x0F) ctx in
  (result, ctx).

Definition gb_dec8 (ctx : Ctx) (value : Z) : Z * Ctx :=
  let result := u8 (value - 1) in
  let ctx := set_f_z (result =? 0) ctx in
  let ctx := set_f_n true ctx in
  let ctx := set_f_h (Z.land value 0x0F =? 0x00) ctx in
  (result, ctx).

(** ** Rotate and shift operations *)

Definition gb_rlc (ctx : Ctx) (value : Z) : Z * Ctx :=
  let carry := u8 (Z.land (Z.shiftr value 7) 1) in
  let result := u8 (Z.lor (Z.shiftl value 1) carry) in
  let ctx := set_f_z (result =? 0) ctx in
  let ctx := set_f_n false ctx in
  let ctx := set_f_h false ctx in
  let ctx := set_f_c (nonzero carry) ctx in
  (result, ctx).

Definition gb_rrc (ctx : Ctx) (value : Z) : Z * Ctx :=
  let carry := u8 (Z.land value 1) in
  let result := u8 (Z.lor (Z.shiftr value 1) (Z.shiftl carry 7)) in
  let ctx := set_f_z (result =? 0) ctx in
  let ctx := set_f_n false ctx in
  let ctx := set_f_h false ctx in
  let ctx := set_f_c (nonzero carry) ctx in
  (result, ctx).

Definition gb_rl (ctx : Ctx) (value : Z) : Z * Ctx :=
  let old_carry := if f_c ctx then 1 else 0 in
  let new_carry := u8 (Z.land (Z.shiftr value 7) 1) in
  let result := u8 (Z.lor (Z.shiftl value 1) old_carry) in
  let ctx := set_f_z (result =? 0) ctx in
  let ctx := set_f_n false ctx in
  let ctx := set_f_h false ctx in
  let ctx := set_f_c (nonzero new_carry) ctx in
  (result, ctx).

Definition gb_rr (ctx : Ctx) (value : Z) : Z * Ctx :=
  let old_carry := if f_c ctx then 1 else 0 in
  let new_carry := u8 (Z.land value 1) in
  let result := u8 (Z.lor (Z.shiftr value 1) (Z.shiftl old_carry 7)) in
  let ctx := set_f_z (result =? 0) ctx in
  let ctx := set_f_n false ctx in
  let ctx := set_f_h false ctx in
  let ctx := set_f_c (nonzero new_carry) ctx in
  (result, ctx).

Definition gb_sla (ctx : Ctx) (value : Z) : Z * Ctx :=
  let carry := u8 (Z.land (Z.shiftr value 7) 1) in
  let result := u8 (Z.shiftl value 1) in
  let ctx := set_f_z (result =? 0) ctx in
  let ctx := set_f_n false ctx in
  let ctx := set_f_h false ctx in
  let ctx := set_f_c (nonzero carry) ctx in
  (result, ctx).

Definition gb_sra (ctx : Ctx) (value : Z) : Z * Ctx :=
  let carry := u8 (Z.land value 1) in
  let result := u8 (Z.lor (Z.shiftr value 1) (Z.land value 0x80)) in
  let ctx := set_f_z (result =? 0) ctx in
  let ctx := set_f_n false ctx in
  let ctx := set_f_h false ctx in
  let ctx := set_f_c (nonzero carry) ctx in
  (result, ctx).

Definition gb_srl (ctx : Ctx) (value : Z) : Z * Ctx :=
  let carry := u8 (Z.land value 1) in
  let result := u8 (Z.shiftr value 1) in
  let ctx := set_f_z (result =? 0) ctx in
  let ctx := set_f_n false ctx in
  let ctx := set_f_h false ctx in
  let ctx := set_f_c (nonzero carry) ctx in
  (result, ctx).

Definition gb_swap (ctx : Ctx) (value : Z) : Z * Ctx :=
  let result :=
    u8 (Z.lor (Z.shiftl (Z.land value 0x0F) 4)
              (Z.shiftr (Z.land value 0xF0) 4)) in
  let ctx := set_f_z (result =? 0) ctx in
  let ctx := set_f_n false ctx in
  let ctx := set_f_h false ctx in
  let ctx := set_f_c false ctx in
  (result, ctx).

Definition gb_rlca (ctx : Ctx) : Ctx :=
  let carry := u8 (Z.land (Z.shiftr (a ctx) 7) 1) in
  let ctx := set_a (u8 (Z.lor (Z.shiftl (a ctx) 1) carry)) ctx in
  let ctx := set_f_z false ctx in
  let ctx := set_f_n false ctx in
  let ctx := set_f_h false ctx in
  set_f_c (nonzero carry) ctx.

Definition gb_rrca (ctx : Ctx) : Ctx :=
  let carry := u8 (Z.land (a ctx) 1) in
  let ctx := set_a (u8 (Z.lor (Z.shiftr (a ctx) 1) (Z.shiftl carry 7))) ctx in
  let ctx := set_f_z false ctx in
  let ctx := set_f_n false ctx in
  let ctx := set_f_h false ctx in
  set_f_c (nonzero carry) ctx.

Definition gb_rla (ctx : Ctx) : Ctx :=
  let old_carry := if f_c ctx then 1 else 0 in
  let new_carry := u8 (Z.land (Z.shiftr (a ctx) 7) 1) in
  let ctx := set_a (u8 (Z.lor (Z.shiftl (a ctx) 1) old_carry)) ctx in
  let ctx := set_f_z false ctx in
  let ctx := set_f_n false ctx in
  let ctx := set_f_h false ctx in
  set_f_c (nonzero new_carry) ctx.

Definition gb_rra (ctx : Ctx) : Ctx :=
  let old_carry := if f_c ctx then 1 else 0 in
  let new_carry := u8 (Z.land (a ctx) 1) in
  let ctx :=
    set_a (u8 (Z.lor (Z.shiftr (a ctx) 1) (Z.shiftl old_carry 7))) ctx in
  let ctx := set_f_z false ctx in
  let ctx := set_f_n false ctx in
  let ctx := set_f_h false ctx in
  set_f_c (nonzero new_carry) ctx.

(** ** Bit and miscellaneous operations *)

Definition gb_bit (ctx : Ctx) (bit : Z) (value : Z) : Ctx :=
  let ctx := set_f_z (Z.land (Z.shiftr value bit) 1 =? 0) ctx in
  let ctx := set_f_n false ctx in
  set_f_h true ctx.

Definition gb_daa (ctx : Ctx) : Ctx :=
  let result := a ctx in
  let result :=
    if f_n ctx then
      let result :=
        if f_h ctx then u16 (Z.land (result - 0x06) 0xFF) else result in
      if f_c ctx then u16 (result - 0x60) else result
    else
      let result :=
        if f_h ctx || (Z.land result 0x0F >? 9)
        then u16 (result + 0x06) else result in
      if f_c ctx || (result >? 0x9F) then u16 (result + 0x60) else result in
  let ctx := set_a (u8 (Z.land result 0xFF)) ctx in
  let ctx := set_f_z (a ctx =? 0) ctx in
  let ctx := set_f_h false ctx in
  if result >? 0xFF then set_f_c true ctx else ctx.

(** ** Further control flow and execution *)

Definition gb_rst (plat : Platform) (ctx : Ctx) (vector : Z) : Ctx :=
  let ctx := gb_push16 ctx (pc ctx) in
  gb_dispatch plat ctx vector.

(** The weak [gb_dispatch_call] of gbrt.c. *)
Definition gb_dispatch_call (plat : Platform) (ctx : Ctx) (addr : Z) : Ctx :=
  let ctx := gb_push16 ctx (pc ctx) in
  let ctx := set_pc addr ctx in
  gb_interpret plat ctx addr.

Definition gb_stop (ctx : Ctx) : Ctx :=
  set_stopped true ctx.

Definition gb_frame_complete (ctx : Ctx) : bool :=
  match ppu ctx with
  | Some p => ppu_frame_ready p
  | None => false
  end.

Definition gb_reset_frame (ctx : Ctx) : Ctx :=
  match ppu ctx with
  | Some p => set_ppu (Some (ppu_clear_frame_ready p)) ctx
  | None => ctx
  end.

(** [while (!gb_frame_complete(ctx))], with fuel for the number of turns:
    [None] when the fuel runs out before a frame is complete. *)
Fixpoint gb_run_frame_loop (fuel : nat) (w : World) : option World :=
  if gb_frame_complete (w_ctx w) then Some w
  else
    match fuel with
    | O => None
    | S fuel =>
        let w := if halted (w_ctx w) then gb_tick w 4 else snd (gb_step w) in
        gb_run_frame_loop fuel w
    end.

Definition gb_run_frame (fuel : nat) (w : World) : option (Z * World) :=
  let start_cycles := cycles (w_ctx w) in
  match gb_run_frame_loop fuel w with
  | Some w' => Some (u32 (cycles (w_ctx w') - start_cycles), w')
  | None => None
  end.

End Runtime.

(** ** A concrete environment and contexts

    [stub_env] is the build without SDL2 (the stub platform at the end of
    platform_sdl.c) with a PPU that never signals anything and an allocator
    that always succeeds. *)
Definition stub_env : Env :=
  {| PPU := unit;
     Framebuffer := unit;
     Platform := unit;
     GB_HAS_SDL2 := false;
     ppu_read_register := fun _ _ => 0xFF;
     ppu_write_register := fun _ ctx _ _ => ctx;
     ppu_tick := fun _ ctx _ => ctx;
     ppu_frame_ready := fun _ => false;
     ppu_get_framebuffer := fun _ => None;
     ppu_clear_frame_ready := fun p => p;
     g_joypad_dpad := fun _ => 0xFF;
     g_joypad_buttons := fun _ => 0xFF;
     gb_platform_poll_events := fun p => (p, true);
     gb_platform_render_frame := fun p _ => p;
     gb_platform_vsync := fun p => p;
     heap_alloc := fun _ => true |}.

(** The context as [gb_context_create] allocates it (zeroed buffers of the
    sizes it passes to [calloc]) with the registers and bank numbers of
    [gb_context_reset]; no ROM loaded and no PPU attached. *)
Definition blank_ctx : GBContext unit :=
  {| a := 0x01; sp := 0xFFFE; pc := 0x0100;
     f_z := true; f_n := false; f_h := true; f_c := true;
     ime := false; ime_pending := false; halted := false; stopped := false;
     rom_bank := 1; ram_bank := 0; wram_bank := 1; vram_bank := 0;
     ram_enabled := false; mbc_type := 0;
     cycles := 0; frame_cycles := 0;
     rom := None; rom_size := 0; eram := None; eram_size := 0;
     wram := replicate (Z.to_nat (WRAM_BANK_SIZE * 8)) 0;
     vram := replicate (Z.to_nat (VRAM_SIZE * 2)) 0;
     oam := replicate (Z.to_nat OAM_SIZE) 0;
     hram := replicate (Z.to_nat HRAM_SIZE) 0;
     io := replicate (Z.to_nat (IO_SIZE + 1)) 0;
     ppu := None |}.

Definition stub_world (ctx : GBContext unit) : @World stub_env :=
  @Build_World stub_env ctx tt 0.

(** The trampoline [LDH (FF46),A; RET] at 0xFF80, entered by a call from
    0x0150: the return address is on the stack in work RAM. *)
Definition trampoline_ctx : GBContext unit :=
  gb_push16 (E := stub_env)
    (set_sp 0xD000
       (set_hram (wr (wr (wr (hram blank_ctx) 0 0xE0) 1 0x46) 2 0xC9)
          blank_ctx))
    0x0150.

(** A context for an MBC1 cartridge (header code 0x01). *)
Definition mbc1_ctx : GBContext unit := set_mbc_type 0x01 blank_ctx.

(** Cartridge images: 256 zero bytes; a full header with the MBC code
    0xFF, which no table lists; and the header of the spec's scenario
    "Header parse" (MBC code 0x13, RAM size code 0x03). *)
Definition short_rom : list Z := replicate (Z.to_nat 0x100) 0.

Definition bad_mbc_rom : list Z := wr (replicate (Z.to_nat 0x150) 0) 0x147 0xFF.

Definition mbc3_rom : list Z :=
  wr (wr (replicate (Z.to_nat 0x150) 0) 0x147 0x13) 0x149 0x03.

(** VBlank requested and enabled (IF = IE = 0x01), PC = 0x1234,
    SP = 0xFFFE. *)
Definition vblank_ctx : GBContext unit :=
  set_io (wr (wr (io blank_ctx) 0x0F 0x01) IO_SIZE 0x01)
    (set_pc 0x1234 blank_ctx).

(** ** Notions used in the statements *)

(** The buffers have the sizes [gb_context_create] allocates and the work
    RAM bank number addresses one of the eight 4 KiB pages. *)
Definition buffers_allocated {PPU : Type} (ctx : GBContext PPU) : Prop :=
  Z.of_nat (length (wram ctx)) = WRAM_BANK_SIZE * 8
  /\ Z.of_nat (length (hram ctx)) = HRAM_SIZE
  /\ Z.of_nat (length (io ctx)) = IO_SIZE + 1
  /\ 0 <= wram_bank ctx < 8.

(** A loaded ROM has [rom_size] bytes and holds at least bank 0, which
    [gb_read8] indexes without a bounds test. *)
Definition rom_present {PPU : Type} (ctx : GBContext PPU) : Prop :=
  match rom ctx with
  | Some r => Z.of_nat (length r) = rom_size ctx /\ ROM_BANK_SIZE <= rom_size ctx
  | None => True
  end.

(** Addresses the bus backs with plain read-write memory whatever the MBC
    and PPU state: work RAM and its echo, high RAM and the IE byte. *)
Definition stack_ram (x : Z) : bool :=
  ((0xC000 <=? x) && (x <=? 0xFDFF)) || ((0xFF80 <=? x) && (x <=? 0xFFFF)).

(** The byte of the context such an address designates. *)
Inductive Cell : Type :=
  | CWram (i : Z)
  | CHram (i : Z)
  | CIo (i : Z).

Definition cell_of {PPU : Type} (ctx : GBContext PPU) (x : Z) : Cell :=
  if x <=? 0xFDFF then
    let y := if x <=? 0xDFFF then x else x - 0x2000 in
    if y <=? 0xCFFF then CWram (y - 0xC000)
    else CWram (y - 0xD000 + wram_bank ctx * 0x1000)
  else if x <=? 0xFFFE then CHram (x - 0xFF80)
  else CIo 0x80.

Definition cell_rd {PPU : Type} (ctx : GBContext PPU) (c : Cell) : Z :=
  match c with
  | CWram i => rd (wram ctx) i
  | CHram i => rd (hram ctx) i
  | CIo i => rd (io ctx) i
  end.

Definition cell_wr {PPU : Type} (ctx : GBContext PPU) (c : Cell) (v : Z)
    : GBContext PPU :=
  match c with
  | CWram i => set_wram (wr (wram ctx) i v) ctx
  | CHram i => set_hram (wr (hram ctx) i v) ctx
  | CIo i => set_io (wr (io ctx) i v) ctx
  end.

Definition cell_valid {PPU : Type} (ctx : GBContext PPU) (c : Cell) : Prop :=
  match c with
  | CWram i => 0 <= i < Z.of_nat (length (wram ctx))
  | CHram i => 0 <= i < Z.of_nat (length (hram ctx))
  | CIo i => 0 <= i < Z.of_nat (length (io ctx))
  end.

Definition cell_index (c : Cell) : Z :=
  match c with CWram i | CHram i | CIo i => i end.

(** Modelled from the spec: the two DMA trampoline patterns of section
    4.6, as bytes seen through the bus at a high RAM address:
    [LDH (FF46),A] (E0 46) and [LD A,n; LDH (FF46),A] (3E n E0 46). *)
Inductive Trampoline : Type :=
  | NoTrampoline
  | DmaGeneric
  | DmaTetris (src : Z).

Definition trampoline_at {E : Env} (plat : Platform) (ctx : GBContext PPU)
    (addr : Z) : Trampoline :=
  if (0xFF80 <=? addr) && (addr <=? 0xFFFE) then
    if gb_read8 plat ctx addr =? 0xE0 then
      if gb_read8 plat ctx (addr + 1) =? 0x46 then DmaGeneric
      else NoTrampoline
    else if gb_read8 plat ctx addr =? 0x3E then
      if (gb_read8 plat ctx (addr + 2) =? 0xE0)
         && (gb_read8 plat ctx (addr + 3) =? 0x46)
      then DmaTetris (gb_read8 plat ctx (addr + 1))
      else NoTrampoline
    else NoTrampoline
  else NoTrampoline.

(** All byte values, for properties settled by enumeration. *)
Definition bytes : list Z := map Z.of_nat (seq 0 256).

(** Packed BCD: two decimal digits in a byte. *)
Definition bcd_valid (b : Z) : bool :=
  (Z.land b 0x0F <=? 9) && (Z.shiftr b 4 <=? 9).

Definition bcd_value (b : Z) : Z := 10 * Z.shiftr b 4 + Z.land b 0x0F.

Definition bcd_of (n : Z) : Z := 16 * (n / 10) + n mod 10.

Definition bcd_bytes : list Z := List.filter bcd_valid bytes.

(** A byte read as a two's complement number. *)
Definition s8 (b : Z) : Z := if b <? 128 then b else b - 256.

Definition carry_in (c : bool) : Z := if c then 1 else 0.

(** Video RAM and OAM have the sizes [gb_context_create] allocates and the
    VRAM bank number addresses one of the two 8 KiB banks. *)
Definition video_allocated {PPU : Type} (ctx : GBContext PPU) : Prop :=
  Z.of_nat (length (vram ctx)) = VRAM_SIZE * 2
  /\ Z.of_nat (length (oam ctx)) = OAM_SIZE
  /\ 0 <= vram_bank ctx < 2.

(** I/O addresses backed by the [io] array alone: not the joypad register
    and not the LCD registers handed to the PPU. *)
Definition plain_io (x : Z) : bool :=
  ((0xFF01 <=? x) && (x <=? 0xFF3F)) || ((0xFF4C <=? x) && (x <=? 0xFF7F)).

(** The fields a bus write never reaches: the CPU registers and flags, the
    interrupt and halt state, the cycle counters and the ROM image. *)
Definition cpu_and_rom {PPU : Type} (ctx : GBContext PPU)
    : Z * Z * Z * (bool * bool * bool * bool) * (bool * bool * bool * bool)
      * (Z * Z) * option (list Z) * Z :=
  (a ctx, sp ctx, pc ctx, (f_z ctx, f_n ctx, f_h ctx, f_c ctx),
   (ime ctx, ime_pending ctx, halted ctx, stopped ctx),
   (cycles ctx, frame_cycles ctx), rom ctx, rom_size ctx).

Definition is_Some_b {A : Type} (o : option A) : bool :=
  match o with Some _ => true | None => false end.

(** Addresses whose reads the bus answers with 0xFF for want of anything
    mapped there: the unusable range, the ROM range with no ROM loaded,
    and the ERAM range with the latch off or no ERAM allocated. *)
Definition unmapped {PPU : Type} (ctx : GBContext PPU) (x : Z) : bool :=
  ((0xFEA0 <=? x) && (x <=? 0xFEFF))
  || ((x <=? 0x7FFF) && negb (is_Some_b (rom ctx)))
  || ((0xA000 <=? x) && (x <=? 0xBFFF)
      && (negb (ram_enabled ctx) || negb (is_Some_b (eram ctx)))).

(** Timer and joypad requested (IF = 0x14), all five sources enabled
    (IE = 0x1F), IME set. *)
Definition irq_ctx : GBContext unit :=
  set_io (wr (wr (io blank_ctx) 0x0F 0x14) IO_SIZE 0x1F)
    (set_ime true blank_ctx).

(** A ROM image of three banks filled with 0x00, 0x11 and 0x22, and a
    context holding it; a context with 8 KiB of external RAM. *)
Definition three_bank_rom : list Z :=
  replicate (Z.to_nat 0x4000) 0x00 ++ replicate (Z.to_nat 0x4000) 0x11
  ++ replicate (Z.to_nat 0x4000) 0x22.

Definition rom_ctx : GBContext unit :=
  set_rom_size 0xC000 (set_rom (Some three_bank_rom) blank_ctx).

Definition eram_ctx : GBContext unit :=
  set_eram_size 0x2000
    (set_eram (Some (replicate (Z.to_nat 0x2000) 0)) blank_ctx).

(** [ie & if_reg] as [gb_halt] tests it after each tick: an interrupt
    both requested in IF and enabled in IE. *)
Definition interrupt_pending {PPU : Type} (ctx : GBContext PPU) : bool :=
  nonzero (Z.land (rd (io ctx) IO_SIZE) (rd (io ctx) 0x0F)).

(** The state after the given number of turns of the loop of [gb_halt],
    each turn being one [gb_tick] of four cycles and the checks that
    follow it. *)
Fixpoint halt_turns {E : Env} (n : nat) (w : World) : World :=
  match n with
  | O => w
  | S n => halt_turns n (fst (gb_halt_iter w))
  end.

(** A run of the loop of [gb_halt] of [n + 1] turns from the state [w]
    with a budget of [4 * j] cycles: every turn starts halted, no turn but
    the last ends with an interrupt pending, a pending interrupt at the
    end has cleared [halted], the run ends halted only with the budget
    spent, and [halted] cleared with nothing pending is the doing of the
    last tick itself or of the platform asking to quit. *)
Definition halt_run {E : Env} (w : World) (j : Z) (n : nat) : Prop :=
  Z.of_nat (S n) <= j
  /\ (forall i, (i <= n)%nat -> halted (w_ctx (halt_turns i w)) = true)
  /\ (forall i, (i < n)%nat ->
        interrupt_pending (w_ctx (halt_turns (S i) w)) = false)
  /\ (interrupt_pending (w_ctx (halt_turns (S n) w)) = true ->
        halted (w_ctx (halt_turns (S n) w)) = false)
  /\ (halted (w_ctx (halt_turns (S n) w)) = true -> Z.of_nat (S n) = j)
  /\ (halted (w_ctx (halt_turns (S n) w)) = false ->
      interrupt_pending (w_ctx (halt_turns (S n) w)) = false ->
      halted (w_ctx (gb_tick (halt_turns n w) 4)) = false
      \/ (GB_HAS_SDL2 = true
          /\ stopped (w_ctx (halt_turns (S n) w)) = true)).

(** * Proofs *)

Ltac unfold_map :=
  cbv [ROM_BANK0_END ROM_BANKN_START ROM_BANKN_END VRAM_START VRAM_END
       ERAM_START ERAM_END WRAM_BANK0_START WRAM_BANK0_END WRAM_BANKN_START
       WRAM_BANKN_END ECHO_END OAM_START OAM_END UNUSABLE_END IO_START IO_END
       HRAM_START HRAM_END ROM_BANK_SIZE VRAM_SIZE ERAM_BANK_SIZE
       WRAM_BANK_SIZE OAM_SIZE IO_SIZE HRAM_SIZE] in *.

(** Case analysis on the integer comparisons of the goal. *)
Ltac zcmp :=
  repeat match goal with
  | |- context [?x <=? ?y] => destruct (Z.leb_spec x y); try lia
  | |- context [?x <? ?y] => destruct (Z.ltb_spec x y); try lia
  | |- context [?x =? ?y] => destruct (Z.eqb_spec x y); try lia
  end.

(** ** Arrays and fixed-width integers *)

Lemma u8_small x : 0 <= x < 256 -> u8 x = x.
Proof. intros. unfold u8. apply Z.mod_small. lia. Qed.

Lemma u16_small x : 0 <= x < 65536 -> u16 x = x.
Proof. intros. unfold u16. apply Z.mod_small. lia. Qed.

Lemma rd_wr_same m i v :
  0 <= i < Z.of_nat (length m) -> rd (wr m i v) i = v.
Proof.
  intros Hi. unfold rd, wr.
  rewrite list_lookup_insert_eq by lia. reflexivity.
Qed.

Lemma rd_wr_other m i j v :
  0 <= i -> 0 <= j -> i <> j -> rd (wr m i v) j = rd m j.
Proof.
  intros Hi Hj Hij. unfold rd, wr.
  rewrite list_lookup_insert_ne by lia. reflexivity.
Qed.

Lemma length_wr m i v : length (wr m i v) = length m.
Proof. unfold wr. apply length_insert. Qed.

(** ** The bus *)

Section BusFacts.
Context {E : Env}.

Lemma gb_read8_body_ext f g plat ctx addr :
  (0xE000 <= addr <= 0xFDFF ->
   f plat ctx (addr - 0x2000) = g plat ctx (addr - 0x2000)) ->
  gb_read8_body f plat ctx addr = gb_read8_body g plat ctx addr.
Proof.
  intros Hfg. unfold gb_read8_body. unfold_map.
  zcmp; try reflexivity.
  rewrite u16_small by lia. apply Hfg. lia.
Qed.

(** [gb_read8] satisfies the recursive equation of the C function. *)
Lemma gb_read8_fix plat ctx addr :
  gb_read8 plat ctx addr = gb_read8_body gb_read8 plat ctx addr.
Proof.
  unfold gb_read8. apply gb_read8_body_ext. intros Hecho.
  apply gb_read8_body_ext. lia.
Qed.

Lemma gb_write8_body_ext f g ctx addr v :
  (0xE000 <= addr <= 0xFDFF ->
   f ctx (addr - 0x2000) v = g ctx (addr - 0x2000) v) ->
  gb_write8_body f ctx addr v = gb_write8_body g ctx addr v.
Proof.
  intros Hfg. unfold gb_write8_body. unfold_map.
  zcmp; try reflexivity.
  rewrite u16_small by lia. apply Hfg. lia.
Qed.

Lemma gb_write8_fix ctx addr v :
  gb_write8 ctx addr v = gb_write8_body gb_write8 ctx addr v.
Proof.
  unfold gb_write8. apply gb_write8_body_ext. intros Hecho.
  apply gb_write8_body_ext. lia.
Qed.

Lemma stack_ram_range x :
  stack_ram x = true ->
  0xC000 <= x <= 0xFDFF \/ 0xFF80 <= x <= 0xFFFF.
Proof. unfold stack_ram. zcmp; simpl; intros; try discriminate; lia. Qed.

Lemma gb_read8_cell plat ctx x :
  stack_ram x = true -> gb_read8 plat ctx x = cell_rd ctx (cell_of ctx x).
Proof.
  intros Hx. apply stack_ram_range in Hx.
  rewrite gb_read8_fix. unfold gb_read8_body, cell_of, cell_rd. unfold_map.
  zcmp; try reflexivity.
  all: rewrite u16_small by lia.
  all: unfold gb_read8, gb_read8_body; unfold_map; zcmp; reflexivity.
Qed.

Lemma gb_write8_cell ctx x v :
  stack_ram x = true -> gb_write8 ctx x v = cell_wr ctx (cell_of ctx x) v.
Proof.
  intros Hx. apply stack_ram_range in Hx.
  rewrite gb_write8_fix. unfold gb_write8_body, cell_of, cell_wr. unfold_map.
  zcmp; try reflexivity.
  all: rewrite u16_small by lia.
  all: unfold gb_write8, gb_write8_body; unfold_map; zcmp; reflexivity.
Qed.

Lemma cell_of_valid (ctx : GBContext PPU) x :
  buffers_allocated ctx -> stack_ram x = true ->
  cell_valid ctx (cell_of ctx x).
Proof.
  intros (Hw & Hh & Hi & Hb) Hx. apply stack_ram_range in Hx.
  unfold cell_of, cell_valid. unfold_map.
  zcmp; lia.
Qed.

Lemma cell_of_wr (ctx : GBContext PPU) c v x : cell_of (cell_wr ctx c v) x = cell_of ctx x.
Proof. destruct c; reflexivity. Qed.

Lemma cell_rd_wr_same (ctx : GBContext PPU) c v :
  cell_valid ctx c -> cell_rd (cell_wr ctx c v) c = v.
Proof. destruct c; simpl; intros; apply rd_wr_same; assumption. Qed.

Lemma cell_rd_wr_other (ctx : GBContext PPU) c c' v :
  0 <= cell_index c -> 0 <= cell_index c' -> c <> c' ->
  cell_rd (cell_wr ctx c v) c' = cell_rd ctx c'.
Proof.
  destruct c, c'; simpl; intros Hc Hc' Hne; try reflexivity.
  all: apply rd_wr_other; try assumption; congruence.
Qed.

End BusFacts.

(** ** Bytes and words *)

Lemma land_FF x : Z.land x 0xFF = x mod 256.
Proof. change 0xFF with (Z.ones 8). rewrite Z.land_ones by lia. reflexivity. Qed.

Lemma land_0F x : Z.land x 0x0F = x mod 16.
Proof. change 0x0F with (Z.ones 4). rewrite Z.land_ones by lia. reflexivity. Qed.

Lemma lor_shiftl_bytes lo hi :
  0 <= lo < 256 -> 0 <= hi -> Z.lor lo (Z.shiftl hi 8) = lo + 256 * hi.
Proof.
  intros Hlo Hhi.
  rewrite <- Z.add_nocarry_lor.
  - rewrite Z.shiftl_mul_pow2 by lia. change (2 ^ 8) with 256. lia.
  - apply Z.bits_inj'. intros n Hn.
    rewrite Z.land_spec, Z.bits_0.
    destruct (Z.ltb_spec n 8) as [Hlt | Hge].
    + rewrite (Z.shiftl_spec_low hi 8 n) by lia. apply andb_false_r.
    + rewrite <- (Z.mod_small lo (2 ^ 8)) by (change (2 ^ 8) with 256; lia).
      rewrite Z.mod_pow2_bits_high by lia. reflexivity.
Qed.

Lemma word_of_bytes v :
  is_u16 v ->
  u16 (Z.lor (u8 (Z.land v 0xFF)) (Z.shiftl (u8 (Z.shiftr v 8)) 8)) = v.
Proof.
  unfold is_u16, u16, u8. intros Hv.
  rewrite land_FF, Z.shiftr_div_pow2 by lia. change (2 ^ 8) with 256.
  rewrite Z.mod_mod by lia.
  assert (0 <= v / 256 < 256)
    by (split; [apply Z.div_pos; lia | apply Z.div_lt_upper_bound; lia]).
  rewrite (Z.mod_small (v / 256)) by lia.
  rewrite lor_shiftl_bytes by (try apply Z.mod_pos_bound; lia).
  rewrite Z.mod_small; pose proof (Z.div_mod v 256 ltac:(lia));
    pose proof (Z.mod_pos_bound v 256 ltac:(lia)); lia.
Qed.

Lemma u16_succ_pred2 s : u16 (u16 (s - 2) + 1) = u16 (s - 1).
Proof.
  unfold u16. rewrite Z.add_mod_idemp_l by lia. f_equal. lia.
Qed.

Lemma u16_add2_sub2 s : is_u16 s -> u16 (u16 (s - 2) + 2) = s.
Proof.
  unfold is_u16, u16. intros Hs. rewrite Z.add_mod_idemp_l by lia.
  replace (s - 2 + 2) with s by lia. apply Z.mod_small. lia.
Qed.

(** ** The stack *)

Section StackFacts.
Context {E : Env}.

Lemma cell_valid_wr (ctx : GBContext PPU) c v c' :
  cell_valid ctx c' -> cell_valid (cell_wr ctx c v) c'.
Proof.
  destruct c, c'; simpl; try (intros; assumption).
  all: rewrite length_wr; intros; assumption.
Qed.

Lemma cell_valid_nonneg (ctx : GBContext PPU) c :
  cell_valid ctx c -> 0 <= cell_index c.
Proof. destruct c; simpl; lia. Qed.

Lemma sp_cell_wr (ctx : GBContext PPU) c v : sp (cell_wr ctx c v) = sp ctx.
Proof. destruct c; reflexivity. Qed.

(** Two consecutive stack addresses never designate the same byte. *)
Lemma cell_of_consecutive (ctx : GBContext PPU) x :
  0 <= wram_bank ctx < 8 ->
  stack_ram x = true -> stack_ram (u16 (x + 1)) = true ->
  cell_of ctx x <> cell_of ctx (u16 (x + 1)).
Proof.
  intros Hb Hx Hx1.
  apply stack_ram_range in Hx.
  destruct (Z.eq_dec x 0xFFFF) as [-> | Hne].
  - vm_compute in Hx1. discriminate.
  - rewrite u16_small by lia.
    unfold cell_of. zcmp; intros Heq; inversion Heq; lia.
Qed.

(** The two writes of a push land in RAM cells and are read back. *)
Lemma write16_read16_ram plat (ctx : GBContext PPU) x v :
  is_u16 v -> buffers_allocated ctx ->
  stack_ram x = true -> stack_ram (u16 (x + 1)) = true ->
  gb_read16 plat (gb_write16 ctx x v) x = v.
Proof.
  intros Hv Hal Hx Hx1.
  assert (Hbank : 0 <= wram_bank ctx < 8) by apply Hal.
  pose proof (cell_of_valid ctx x Hal Hx) as Hv0.
  pose proof (cell_of_valid ctx _ Hal Hx1) as Hv1.
  pose proof (cell_of_consecutive ctx x Hbank Hx Hx1) as Hne.
  unfold gb_read16, gb_write16.
  rewrite (gb_write8_cell ctx x) by assumption.
  rewrite (gb_write8_cell _ (u16 (x + 1))) by assumption.
  rewrite !gb_read8_cell by assumption.
  rewrite !cell_of_wr.
  pose proof (cell_valid_nonneg ctx _ Hv0) as Hn0.
  pose proof (cell_valid_nonneg ctx _ Hv1) as Hn1.
  rewrite cell_rd_wr_other by (assumption || congruence).
  rewrite cell_rd_wr_same by assumption.
  rewrite cell_rd_wr_same by (apply cell_valid_wr; assumption).
  apply word_of_bytes. assumption.
Qed.

Lemma sp_gb_write16_ram (ctx : GBContext PPU) x v :
  stack_ram x = true -> stack_ram (u16 (x + 1)) = true ->
  sp (gb_write16 ctx x v) = sp ctx.
Proof.
  intros Hx Hx1. unfold gb_write16.
  rewrite (gb_write8_cell ctx x) by assumption.
  rewrite (gb_write8_cell _ (u16 (x + 1))) by assumption.
  rewrite !sp_cell_wr. reflexivity.
Qed.

(** C7, as the code has it.  For every 16-bit value and every context
    whose buffers are allocated and whose two stack bytes, at SP-2 and
    SP-1, lie in work RAM, its echo, high RAM or the IE byte, [gb_push16]
    followed by [gb_pop16] returns the value and restores SP. *)
Theorem push16_pop16_ram plat (ctx : GBContext PPU) v :
  is_u16 v -> is_u16 (sp ctx) -> buffers_allocated ctx ->
  stack_ram (u16 (sp ctx - 2)) = true ->
  stack_ram (u16 (sp ctx - 1)) = true ->
  fst (gb_pop16 plat (gb_push16 ctx v)) = v
  /\ sp (snd (gb_pop16 plat (gb_push16 ctx v))) = sp ctx.
Proof.
  intros Hv Hsp Hal Hlo Hhi.
  rewrite <- u16_succ_pred2 in Hhi.
  unfold gb_pop16, gb_push16. cbn [fst snd].
  set (ctx1 := set_sp (u16 (sp ctx - 2)) ctx).
  assert (Hsp1 : sp ctx1 = u16 (sp ctx - 2)) by reflexivity.
  rewrite Hsp1.
  assert (Hsp2 : sp (gb_write16 ctx1 (u16 (sp ctx - 2)) v) = u16 (sp ctx - 2)).
  { rewrite sp_gb_write16_ram by assumption. exact Hsp1. }
  rewrite Hsp2. split.
  - apply write16_read16_ram; assumption.
  - cbn [sp set_sp]. apply u16_add2_sub2. assumption.
Qed.

End StackFacts.

(** The stack at the top of high RAM, as after reset. *)
Lemma push16_pop16_ram_witness :
  fst (gb_pop16 (E := stub_env) tt (gb_push16 (E := stub_env) blank_ctx 0x1234)) = 0x1234
  /\ sp (snd (gb_pop16 (E := stub_env) tt (gb_push16 (E := stub_env) blank_ctx 0x1234)))
     = sp blank_ctx.
Proof.
  apply (push16_pop16_ram (E := stub_env) tt blank_ctx 0x1234).
  - unfold is_u16. lia.
  - unfold is_u16. simpl. lia.
  - unfold buffers_allocated. vm_compute. intuition discriminate.
  - vm_compute. reflexivity.
  - vm_compute. reflexivity.
Defined.

(** C7 as stated fails: with SP = 0x4000 the two bytes are written to
    0x3FFE and 0x3FFF, which are bank registers, and read back from ROM. *)
Lemma push16_pop16_rom_counterexample :
  fst (gb_pop16 (E := stub_env) tt
         (gb_push16 (E := stub_env) (set_sp 0x4000 blank_ctx) 0x1234))
  <> 0x1234.
Proof. vm_compute. discriminate. Qed.

(** ** 16-bit accesses across the end of the address space *)

Section WrapFacts.
Context {E : Env}.

Lemma gb_read8_ie plat (ctx : GBContext PPU) :
  gb_read8 plat ctx 0xFFFF = rd (io ctx) IO_SIZE.
Proof. reflexivity. Qed.

Lemma gb_read8_zero plat (ctx : GBContext PPU) :
  gb_read8 plat ctx 0x0000
  = match rom ctx with Some r => rd r 0 | None => 0xFF end.
Proof. reflexivity. Qed.

Lemma gb_write8_ie (ctx : GBContext PPU) v :
  gb_write8 ctx 0xFFFF v = set_io (wr (io ctx) IO_SIZE v) ctx.
Proof. reflexivity. Qed.

Lemma gb_write8_zero (ctx : GBContext PPU) v :
  gb_write8 ctx 0x0000 v = set_ram_enabled (Z.land v 0x0F =? 0x0A) ctx.
Proof. reflexivity. Qed.

(** C10.  A 16-bit access at 0xFFFF takes its second byte at 0x0000:
    [gb_read16] returns the IE byte as low byte and the first byte of ROM
    bank 0 as high byte; [gb_write16] stores the low byte of the value in
    IE and hands the high byte to the RAM-enable register, so that nothing
    but [io[0x80]] and the latch changes; [gb_push16] with SP = 0x0001
    does this write with SP left at 0xFFFF. *)
Theorem bus16_wraps_at_FFFF plat (ctx : GBContext PPU) v :
  is_u16 v ->
  buffers_allocated ctx -> rom_present ctx ->
  is_u8 (rd (io ctx) IO_SIZE) ->
  is_u8 (gb_read8 plat ctx 0x0000) ->
  gb_read8 plat ctx 0x0000
    = match rom ctx with Some r => rd r 0 | None => 0xFF end
  /\ gb_read16 plat ctx 0xFFFF
     = rd (io ctx) IO_SIZE + 256 * gb_read8 plat ctx 0x0000
  /\ gb_write16 ctx 0xFFFF v
     = set_ram_enabled (Z.land (v / 256) 0x0F =? 0x0A)
         (set_io (wr (io ctx) IO_SIZE (v mod 256)) ctx)
  /\ (sp ctx = 0x0001 ->
      gb_push16 ctx v
      = set_ram_enabled (Z.land (v / 256) 0x0F =? 0x0A)
          (set_io (wr (io ctx) IO_SIZE (v mod 256))
             (set_sp 0xFFFF ctx))).
Proof.
  intros Hv _ _ Hie Hrom.
  assert (Hw : forall c : GBContext PPU,
             gb_write16 c 0xFFFF v
             = set_ram_enabled (Z.land (v / 256) 0x0F =? 0x0A)
                 (set_io (wr (io c) IO_SIZE (v mod 256)) c)).
  { intros c. unfold gb_write16.
    change (u16 (0xFFFF + 1)) with 0.
    rewrite gb_write8_ie, gb_write8_zero.
    rewrite land_FF, Z.shiftr_div_pow2 by lia. change (2 ^ 8) with 256.
    unfold is_u16 in Hv.
    assert (0 <= v / 256 < 256)
      by (split; [apply Z.div_pos; lia | apply Z.div_lt_upper_bound; lia]).
    rewrite (u8_small (v / 256)) by assumption.
    rewrite u8_small by (apply Z.mod_pos_bound; lia).
    reflexivity. }
  split; [apply gb_read8_zero | ].
  split; [ | split].
  - unfold gb_read16. change (u16 (0xFFFF + 1)) with 0.
    rewrite gb_read8_ie.
    unfold is_u8 in *.
    rewrite lor_shiftl_bytes by lia.
    apply u16_small. lia.
  - apply Hw.
  - intros Hsp. unfold gb_push16. rewrite Hsp.
    change (u16 (1 - 2)) with 0xFFFF.
    change (sp (set_sp 0xFFFF ctx)) with 0xFFFF.
    exact (Hw (set_sp 0xFFFF ctx)).
Qed.

End WrapFacts.

Lemma bus16_wraps_at_FFFF_witness :
  gb_read16 (E := stub_env) tt (set_sp 0x0001 blank_ctx) 0xFFFF = 0xFF00
  /\ io (gb_push16 (E := stub_env) (set_sp 0x0001 blank_ctx) 0x0A55)
     = wr (io blank_ctx) 0x80 0x55
  /\ ram_enabled (gb_push16 (E := stub_env) (set_sp 0x0001 blank_ctx) 0x0A55)
     = true
  /\ sp (gb_push16 (E := stub_env) (set_sp 0x0001 blank_ctx) 0x0A55)
     = 0xFFFF.
Proof.
  destruct (bus16_wraps_at_FFFF (E := stub_env) tt
              (set_sp 0x0001 blank_ctx) 0x0A55)
    as (_ & Hr & _ & Hp).
  - unfold is_u16. lia.
  - unfold buffers_allocated. vm_compute. intuition discriminate.
  - exact I.
  - vm_compute. intuition discriminate.
  - vm_compute. intuition discriminate.
  - rewrite Hr, (Hp eq_refl). vm_compute. auto.
Defined.

(** ** MBC register writes *)

Section MbcFacts.
Context {E : Env}.

(** C4, as the code has it.  A write of [v] to 0x2000-0x3FFF selects ROM
    bank [v] itself, all eight bits, with 0 promoted to 1; a write to
    0x0000-0x1FFF enables ERAM exactly when the low nibble of [v] is 0xA;
    and no write below 0x8000 stores into any memory region. *)
Theorem mbc_register_write (ctx : GBContext PPU) addr v :
  is_u8 v -> 0 <= addr <= 0x7FFF ->
  rom_bank (gb_write8 ctx addr v)
    = (if (0x2000 <=? addr) && (addr <=? 0x3FFF)
       then (if v =? 0 then 1 else v) else rom_bank ctx)
  /\ ram_enabled (gb_write8 ctx addr v)
     = (if addr <=? 0x1FFF then Z.land v 0x0F =? 0x0A else ram_enabled ctx)
  /\ rom (gb_write8 ctx addr v) = rom ctx
  /\ eram (gb_write8 ctx addr v) = eram ctx
  /\ vram (gb_write8 ctx addr v) = vram ctx
  /\ wram (gb_write8 ctx addr v) = wram ctx
  /\ oam (gb_write8 ctx addr v) = oam ctx
  /\ hram (gb_write8 ctx addr v) = hram ctx
  /\ io (gb_write8 ctx addr v) = io ctx.
Proof.
  intros Hv Haddr.
  unfold gb_write8, gb_write8_body. unfold_map.
  destruct (Z.leb_spec addr 32767); [ | lia].
  destruct (Z.leb_spec 8192 addr), (Z.leb_spec addr 16383),
    (Z.leb_spec addr 8191), (Z.leb_spec 16384 addr), (Z.leb_spec addr 24575);
    try lia; cbn [andb rom_bank set_rom_bank].
  all: destruct (Z.eqb_spec v 0); repeat split; reflexivity.
Qed.

End MbcFacts.

Lemma mbc_register_write_witness :
  rom_bank (gb_write8 (E := stub_env) mbc1_ctx 0x2000 0x25) = 0x25
  /\ wram (gb_write8 (E := stub_env) mbc1_ctx 0x2000 0x25) = wram mbc1_ctx.
Proof.
  destruct (mbc_register_write (E := stub_env) mbc1_ctx 0x2000 0x25)
    as (Hb & _ & _ & _ & _ & Hw & _).
  - unfold is_u8. lia.
  - lia.
  - split; [exact Hb | exact Hw].
Defined.

(** C4 as stated fails: on an MBC1 cartridge the bank number written is
    not reduced to five bits, 0x25 selects bank 0x25 and not bank 0x05. *)
Lemma mbc1_bank_mask_counterexample :
  mbc_type mbc1_ctx = 0x01
  /\ rom_bank (gb_write8 (E := stub_env) mbc1_ctx 0x2000 0x25)
     <> (if Z.land 0x25 0x1F =? 0 then 1 else Z.land 0x25 0x1F).
Proof. split; [reflexivity | vm_compute; discriminate]. Qed.

(** ** ALU primitives *)

Section AluFacts.
Context {E : Env}.

(** C5.  [gb_add8] leaves (A + v) mod 256 in A and sets Z when that is
    zero, clears N, sets H on a carry out of bit 3 and C on a carry out of
    bit 7; with A = 0x3A and v = 0xC6 this gives A = 0x00 and Z, H, C set. *)
Theorem gb_add8_flags (ctx : GBContext PPU) v :
  is_u8 (a ctx) -> is_u8 v ->
  (a (gb_add8 ctx v) = (a ctx + v) mod 256
   /\ f_z (gb_add8 ctx v) = ((a ctx + v) mod 256 =? 0)
   /\ f_n (gb_add8 ctx v) = false
   /\ f_h (gb_add8 ctx v) = (Z.land (a ctx) 0xF + Z.land v 0xF >? 0xF)
   /\ f_c (gb_add8 ctx v) = (a ctx + v >? 0xFF))
  /\ (a ctx = 0x3A -> v = 0xC6 ->
      a (gb_add8 ctx v) = 0x00
      /\ f_z (gb_add8 ctx v) = true
      /\ f_n (gb_add8 ctx v) = false
      /\ f_h (gb_add8 ctx v) = true
      /\ f_c (gb_add8 ctx v) = true).
Proof.
  unfold is_u8. intros Ha Hv.
  assert (Hres : u16 (a ctx + v) = a ctx + v) by (apply u16_small; lia).
  unfold gb_add8. cbn [a f_z f_n f_h f_c set_a set_f_z set_f_n set_f_h set_f_c].
  rewrite Hres, land_FF. unfold u8.
  split.
  - repeat split; reflexivity.
  - intros -> ->. repeat split; reflexivity.
Qed.

(** C6.  [gb_add_sp] leaves (SP + offset) mod 2^16 in SP, clears Z and N,
    and takes H and C from the addition of the low byte of SP and the
    unsigned byte of the offset: H is its carry out of bit 3, C its carry
    out of bit 7. *)
Theorem gb_add_sp_flags (ctx : GBContext PPU) offset :
  is_u16 (sp ctx) -> is_i8 offset ->
  let lo := sp ctx mod 256 in
  let ub := offset mod 256 in
  sp (gb_add_sp ctx offset) = (sp ctx + offset) mod 65536
  /\ f_z (gb_add_sp ctx offset) = false
  /\ f_n (gb_add_sp ctx offset) = false
  /\ f_h (gb_add_sp ctx offset) = (lo mod 16 + ub mod 16 >? 0xF)
  /\ f_c (gb_add_sp ctx offset) = (lo + ub >? 0xFF).
Proof.
  intros Hsp Hoff lo ub. subst lo ub.
  unfold gb_add_sp.
  cbn [sp f_z f_n f_h f_c set_sp set_f_z set_f_n set_f_h set_f_c].
  rewrite !land_FF, !land_0F.
  repeat split.
  - unfold u16, u32. apply Z.mod_mod_divide. exists 65536. reflexivity.
  - rewrite !(Z.mod_mod_divide _ 256 16) by (exists 16; reflexivity).
    reflexivity.
Qed.

End AluFacts.

(** Scenario "Half-carry on ADD". *)
Lemma gb_add8_flags_witness :
  a (gb_add8 (E := stub_env) (set_a 0x3A blank_ctx) 0xC6) = 0x00
  /\ f_z (gb_add8 (E := stub_env) (set_a 0x3A blank_ctx) 0xC6) = true
  /\ f_n (gb_add8 (E := stub_env) (set_a 0x3A blank_ctx) 0xC6) = false
  /\ f_h (gb_add8 (E := stub_env) (set_a 0x3A blank_ctx) 0xC6) = true
  /\ f_c (gb_add8 (E := stub_env) (set_a 0x3A blank_ctx) 0xC6) = true.
Proof.
  apply (gb_add8_flags (E := stub_env) (set_a 0x3A blank_ctx) 0xC6).
  - unfold is_u8. simpl. lia.
  - unfold is_u8. lia.
  - reflexivity.
  - reflexivity.
Defined.

(** SP = 0x00FF and offset -1: the low-byte addition 0xFF + 0xFF carries
    out of bit 3 and of bit 7 although SP decreases. *)
Lemma gb_add_sp_flags_witness :
  sp (gb_add_sp (E := stub_env) (set_sp 0x00FF blank_ctx) (-1)) = 0x00FE
  /\ f_z (gb_add_sp (E := stub_env) (set_sp 0x00FF blank_ctx) (-1)) = false
  /\ f_n (gb_add_sp (E := stub_env) (set_sp 0x00FF blank_ctx) (-1)) = false
  /\ f_h (gb_add_sp (E := stub_env) (set_sp 0x00FF blank_ctx) (-1)) = true
  /\ f_c (gb_add_sp (E := stub_env) (set_sp 0x00FF blank_ctx) (-1)) = true.
Proof.
  apply (gb_add_sp_flags (E := stub_env) (set_sp 0x00FF blank_ctx) (-1)).
  - unfold is_u16. simpl. lia.
  - unfold is_i8. lia.
Defined.

(** ** Interrupt dispatch *)

Section InterruptFacts.
Context {E : Env}.

(** Below high RAM the interpreter of gbrt.c only stores the address in PC. *)
Lemma gb_dispatch_below_hram plat (ctx : GBContext PPU) addr :
  addr < 0xFF80 -> gb_dispatch plat ctx addr = set_pc addr ctx.
Proof.
  intros Haddr. unfold gb_dispatch, gb_interpret.
  destruct (Z.leb_spec 0xFF80 addr); [lia | reflexivity].
Qed.

(** The interrupt block ends in a dispatch to one of the five vectors or
    leaves the context as it is. *)
Lemma tick_interrupts_cases plat (ctx : GBContext PPU) :
  tick_interrupts plat ctx = ctx
  \/ tick_interrupts plat ctx = set_halted false (set_ime false ctx)
  \/ exists vector bit,
       In (vector, bit)
          [(0x40, 0x01); (0x48, 0x02); (0x50, 0x04); (0x58, 0x08);
           (0x60, 0x10)]
       /\ ime ctx = true
       /\ nonzero (Z.land (Z.land (Z.land (rd (io ctx) 0x0F)
                                      (rd (io ctx) 0x80)) 0x1F) bit) = true
       /\ tick_interrupts plat ctx
          = set_pc vector
              (set_io (wr (io ctx) 0x0F
                         (u8 (Z.land (rd (io ctx) 0x0F) (Z.lnot bit))))
                 (set_halted false (set_ime false ctx))).
Proof.
  unfold tick_interrupts.
  destruct (ime ctx) eqn:Hime; [ | left; reflexivity].
  assert (Hp : u8 (Z.land (Z.land (rd (io ctx) 0x0F) (rd (io ctx) 0x80)) 0x1F)
               = Z.land (Z.land (rd (io ctx) 0x0F) (rd (io ctx) 0x80)) 0x1F).
  { apply u8_small.
    change 0x1F with (Z.ones 5). rewrite Z.land_ones by lia.
    pose proof (Z.mod_pos_bound
                  (Z.land (rd (io ctx) 0x0F) (rd (io ctx) 0x80)) (2 ^ 5)
                  ltac:(lia)).
    change (2 ^ 5) with 32 in *. lia. }
  rewrite Hp.
  set (pending := Z.land (Z.land (rd (io ctx) 0x0F) (rd (io ctx) 0x80)) 0x1F).
  destruct (nonzero pending); [ | left; reflexivity].
  destruct (nonzero (Z.land pending 0x01)) eqn:H1;
    [ right; right; exists 0x40, 0x01; cbn [In]; repeat split; auto | ].
  destruct (nonzero (Z.land pending 0x02)) eqn:H2;
    [ right; right; exists 0x48, 0x02; cbn [In]; repeat split; auto | ].
  destruct (nonzero (Z.land pending 0x04)) eqn:H4;
    [ right; right; exists 0x50, 0x04; cbn [In]; repeat split; auto | ].
  destruct (nonzero (Z.land pending 0x08)) eqn:H8;
    [ right; right; exists 0x58, 0x08; cbn [In]; repeat split; auto 6 | ].
  destruct (nonzero (Z.land pending 0x10)) eqn:H16;
    [ right; right; exists 0x60, 0x10; cbn [In]; repeat split; auto 7 | ].
  right; left; reflexivity.
Qed.

(** The interrupt block never moves SP and never writes a memory region
    other than the IF byte. *)
Lemma tick_interrupts_frame plat (ctx : GBContext PPU) :
  sp (tick_interrupts plat ctx) = sp ctx
  /\ wram (tick_interrupts plat ctx) = wram ctx
  /\ hram (tick_interrupts plat ctx) = hram ctx
  /\ cycles (tick_interrupts plat ctx) = cycles ctx.
Proof.
  destruct (tick_interrupts_cases plat ctx)
    as [-> | [-> | (vector & bit & _ & _ & _ & ->)]];
    repeat split; reflexivity.
Qed.

(** A tick entered with [ime_pending] set and VBlank requested and
    enabled dispatches to 0x40 in that same tick, whatever IME was. *)
Lemma tick_promotes_then_dispatches plat (ctx : GBContext PPU) :
  ime_pending ctx = true ->
  nonzero (Z.land (Z.land (Z.land (rd (io ctx) 0x0F) (rd (io ctx) 0x80)) 0x1F)
             0x01) = true ->
  tick_interrupts plat (tick_ime_pending ctx)
  = set_pc 0x0040
      (set_io (wr (io ctx) 0x0F
                 (u8 (Z.land (rd (io ctx) 0x0F) (Z.lnot 0x01))))
         (set_halted false
            (set_ime false (set_ime_pending false (set_ime true ctx))))).
Proof.
  intros Hpend Hbit.
  unfold tick_ime_pending. rewrite Hpend.
  unfold tick_interrupts. cbn [ime io set_ime set_ime_pending].
  set (pending := Z.land (Z.land (rd (io ctx) 0x0F) (rd (io ctx) 0x80)) 0x1F)
    in *.
  assert (Hp : u8 pending = pending).
  { apply u8_small. subst pending.
    change 0x1F with (Z.ones 5). rewrite Z.land_ones by lia.
    pose proof (Z.mod_pos_bound
                  (Z.land (rd (io ctx) 0x0F) (rd (io ctx) 0x80)) (2 ^ 5)
                  ltac:(lia)).
    change (2 ^ 5) with 32 in *. lia. }
  rewrite Hp, Hbit.
  assert (Hnz : nonzero pending = true).
  { unfold nonzero in *. destruct (Z.eqb_spec pending 0) as [Hz | ];
      [ | reflexivity].
    rewrite Hz in Hbit. discriminate. }
  rewrite Hnz. cbv beta iota zeta. change (nonzero 64) with true.
  cbv beta iota. rewrite gb_dispatch_below_hram by lia. reflexivity.
Qed.

(** [gb_step] promotes a pending EI after the dispatch, without looking
    at the interrupt requests. *)
Lemma gb_step_promotes (w : World) :
  ime_pending (w_ctx (snd (gb_step w))) = false.
Proof.
  unfold gb_step. cbn [snd with_ctx w_ctx].
  destruct (ime_pending (gb_dispatch _ _ _)) eqn:Hp; [reflexivity | exact Hp].
Qed.

End InterruptFacts.

(** C1, at a state with IME set and VBlank pending.  [gb_tick] clears IME
    and the IF bit and sets PC to the vector 0x40, but SP and the stack
    bytes below it are as before: the interrupted PC, 0x1234, is not
    pushed.
    [gb_call] from the same state moves SP to 0xFFFC and leaves 0x1234
    there. *)
Theorem interrupt_dispatch_does_not_push :
  let w := stub_world (set_ime true vblank_ctx) in
  let ctx' := w_ctx (gb_tick w 4) in
  (pc ctx' = 0x0040 /\ ime ctx' = false /\ halted ctx' = false
   /\ rd (io ctx') 0x0F = 0x00)
  /\ (sp (w_ctx w) = 0xFFFE /\ sp ctx' = 0xFFFE
      /\ gb_read16 (E := stub_env) tt (w_ctx w) 0xFFFC = 0x0000
      /\ gb_read16 (E := stub_env) tt ctx' 0xFFFC = 0x0000)
  /\ (let called := gb_call (E := stub_env) tt (w_ctx w) 0x0040 in
      pc called = 0x0040 /\ sp called = 0xFFFC
      /\ gb_read16 (E := stub_env) tt called (sp called) = 0x1234).
Proof. vm_compute. repeat split; reflexivity. Qed.

(** C2, at a state with IME = 0, [ime_pending] = 0 and VBlank pending.
    The tick that ends EI promotes [ime_pending] and dispatches at once:
    after EI alone PC is the vector 0x40 and the IF bit is gone, so the
    interrupt is taken between EI and NOP. *)
Theorem ei_interrupt_taken_before_nop :
  let w := stub_world vblank_ctx in
  ime (w_ctx w) = false /\ ime_pending (w_ctx w) = false
  /\ nonzero (Z.land (rd (io (w_ctx w)) 0x0F) (rd (io (w_ctx w)) IO_SIZE))
     = true
  /\ pc (w_ctx (instr_EI w)) = 0x0040
  /\ rd (io (w_ctx (instr_EI w))) 0x0F = 0x00
  /\ ime (w_ctx (instr_EI w)) = false
  /\ cycles (w_ctx (instr_EI w)) = 4.
Proof. vm_compute. repeat split; reflexivity. Qed.

(** ** HALT *)

Lemma u32_add_idemp x y : u32 (u32 x + y) = u32 (x + y).
Proof. unfold u32. apply Z.add_mod_idemp_l. lia. Qed.

Section HaltCycles.
Context {E : Env}.

(** The PPU does not touch the cycle counter of the context. *)
Hypothesis ppu_tick_cycles :
  forall p (ctx : GBContext PPU) n, cycles (ppu_tick p ctx n) = cycles ctx.

Lemma tick_ppu_cycles (w : World) n :
  cycles (w_ctx (tick_ppu w n)) = cycles (w_ctx w).
Proof.
  unfold tick_ppu.
  destruct (ppu (w_ctx w)) as [p | ]; [ | reflexivity].
  pose proof (ppu_tick_cycles p (w_ctx w) n) as Hc.
  destruct (ppu (ppu_tick p (w_ctx w) n)) as [p' | ]; [ | exact Hc].
  destruct (ppu_frame_ready p'); exact Hc.
Qed.

Lemma tick_poll_cycles (w : World) n :
  cycles (w_ctx (tick_poll w n)) = cycles (w_ctx w).
Proof.
  unfold tick_poll.
  destruct GB_HAS_SDL2; [ | reflexivity].
  destruct (u32 (poll_counter w + n) >=? 4096); [ | reflexivity].
  destruct (gb_platform_poll_events (w_plat w)) as [plat running].
  destruct running; reflexivity.
Qed.

(** A tick adds its cycle count to the counter, modulo 2^32. *)
Lemma gb_tick_cycles (w : World) n :
  cycles (w_ctx (gb_tick w n)) = u32 (cycles (w_ctx w) + n).
Proof.
  unfold gb_tick.
  rewrite tick_poll_cycles, tick_ppu_cycles. cbn [w_ctx].
  destruct (tick_interrupts_frame (w_plat w)
              (tick_ime_pending (gb_add_cycles (w_ctx w) n)))
    as (_ & _ & _ & ->).
  unfold tick_ime_pending.
  destruct (ime_pending (gb_add_cycles (w_ctx w) n)); reflexivity.
Qed.

End HaltCycles.

Section HaltFacts.
Context {E : Env}.

Lemma halt_turns_succ (n : nat) :
  forall w : World,
    halt_turns (S n) w = fst (gb_halt_iter (halt_turns n w)).
Proof.
  induction n as [ | n IH]; intros w; [reflexivity | ].
  change (halt_turns (S (S n)) w)
    with (halt_turns (S n) (fst (gb_halt_iter w))).
  rewrite IH. reflexivity.
Qed.

(** One turn of the loop is a tick of four cycles and then one of three
    ways on: woken by a pending interrupt, stopped by the platform, or
    round again with whatever [halted] the tick left. *)
Lemma gb_halt_iter_cases (w : World) :
  let t := w_ctx (gb_tick w 4) in
  let r := gb_halt_iter w in
  io (w_ctx (fst r)) = io t
  /\ cycles (w_ctx (fst r)) = cycles t
  /\ ((interrupt_pending t = true /\ snd r = true
       /\ halted (w_ctx (fst r)) = false)
      \/ (interrupt_pending t = false /\ snd r = true
          /\ halted (w_ctx (fst r)) = false
          /\ GB_HAS_SDL2 = true /\ stopped (w_ctx (fst r)) = true)
      \/ (interrupt_pending t = false /\ snd r = false
          /\ halted (w_ctx (fst r)) = halted t)).
Proof.
  cbv zeta. unfold gb_halt_iter, interrupt_pending.
  destruct (nonzero (Z.land (rd (io (w_ctx (gb_tick w 4))) IO_SIZE) _)).
  { cbn. repeat split. left. repeat split. }
  destruct (ppu (w_ctx (gb_tick w 4))) as [p | ];
    [ | cbn; repeat split; right; right; repeat split].
  destruct (ppu_frame_ready p);
    [ | cbn; repeat split; right; right; repeat split].
  destruct GB_HAS_SDL2;
    [ | cbn; repeat split; right; right; repeat split].
  destruct (gb_platform_poll_events _) as [plat running].
  destruct running; cbn; repeat split;
    [right; right | right; left]; repeat split.
Qed.

Lemma gb_halt_loop_done (fuel : nat) (w : World) (m : Z) :
  halted (w_ctx w) && (m >? 0) = false ->
  gb_halt_loop fuel w m = Some w.
Proof. intros H. destruct fuel; cbn [gb_halt_loop]; rewrite H; reflexivity. Qed.

Lemma gb_halt_loop_turns (fuel : nat) :
  forall (w : World) (j : Z),
    1 <= j <= Z.of_nat fuel ->
    halted (w_ctx w) = true ->
    exists n : nat,
      gb_halt_loop fuel w (4 * j) = Some (halt_turns (S n) w)
      /\ halt_run w j n.
Proof.
  induction fuel as [ | fuel IH]; intros w j Hj Hh; [lia | ].
  cbn [gb_halt_loop]. rewrite Hh.
  replace (4 * j >? 0) with true by (symmetry; apply Z.gtb_lt; lia).
  cbn [andb].
  destruct (gb_halt_iter_cases w) as (Hio & _ & Hcase). cbv zeta in Hio, Hcase.
  assert (Hp1 : interrupt_pending (w_ctx (fst (gb_halt_iter w)))
                = interrupt_pending (w_ctx (gb_tick w 4))).
  { unfold interrupt_pending. rewrite Hio. reflexivity. }
  rewrite <- Hp1 in Hcase.
  destruct (gb_halt_iter w) as [w1 brk] eqn:Hiter.
  cbn [fst snd] in *.
  assert (Hw1 : forall i, halt_turns (S i) w = halt_turns i w1).
  { intros i. cbn [halt_turns]. rewrite Hiter. reflexivity. }
  assert (Hone : halted (w_ctx w1) = false \/ j = 1 \/ brk = true ->
                 (interrupt_pending (w_ctx w1) = true ->
                  halted (w_ctx w1) = false) ->
                 (halted (w_ctx w1) = false ->
                  interrupt_pending (w_ctx w1) = false ->
                  halted (w_ctx (gb_tick w 4)) = false
                  \/ (GB_HAS_SDL2 = true /\ stopped (w_ctx w1) = true)) ->
                 halt_run w j 0).
  { intros Hend Hwake Hwhy. unfold halt_run. rewrite !Hw1. cbn [halt_turns].
    split; [lia | ].
    split; [intros i Hi; assert (i = 0)%nat as -> by lia; exact Hh | ].
    split; [intros i Hi; lia | ].
    split; [exact Hwake | ].
    split; [ | exact Hwhy].
    intros Hh1. destruct Hend as [Hend | [Hend | Hend]]; [congruence | lia | ].
    subst brk.
    destruct Hcase as [(_ & _ & Hc) | [(_ & _ & Hc & _) | (_ & Hc & _)]];
      congruence. }
  destruct brk.
  - (* left through [break] *)
    exists 0%nat. split; [rewrite Hw1; reflexivity | ].
    apply Hone; [auto | | ].
    + destruct Hcase as [(_ & _ & Hc) | [(_ & _ & Hc & _) | (_ & Hc & _)]];
        [auto | auto | discriminate].
    + intros _ Hnp.
      destruct Hcase as [(Hc & _) | [(_ & _ & _ & Hs) | (_ & Hc & _)]];
        [congruence | right; exact Hs | discriminate].
  - destruct Hcase as [(_ & Hc & _) | [(_ & Hc & _) | (Hnp & _ & Hh1)]];
      [discriminate | discriminate | ].
    destruct (halted (w_ctx w1)) eqn:Hh1'; cycle 1.
    { (* the tick cleared [halted] *)
      exists 0%nat. rewrite gb_halt_loop_done by (rewrite Hh1'; reflexivity).
      split; [rewrite Hw1; reflexivity | ].
      apply Hone; [left; reflexivity | auto | ].
      intros _ _. left. symmetry. exact Hh1. }
    destruct (Z.eq_dec j 1) as [-> | Hj1].
    { (* the budget is spent *)
      exists 0%nat.
      rewrite gb_halt_loop_done
        by (rewrite Hh1'; cbn [andb]; reflexivity).
      split; [rewrite Hw1; reflexivity | ].
      apply Hone; [right; left; reflexivity | congruence | congruence]. }
    replace (4 * j - 4) with (4 * (j - 1)) by lia.
    destruct (IH w1 (j - 1) ltac:(lia) Hh1') as (n & Hloop & Hrun).
    exists (S n). split; [rewrite Hw1; exact Hloop | ].
    destruct Hrun as (Hn & Hhs & Hnps & Hwake & Hfuse & Hwhy).
    unfold halt_run. rewrite !Hw1.
    split; [lia | ].
    split.
    { intros [ | i] Hi; [exact Hh | ]. rewrite Hw1. apply Hhs. lia. }
    split.
    { intros [ | i] Hi; rewrite Hw1; [exact Hnp | ].
      apply Hnps. lia. }
    split; [exact Hwake | ].
    split; [intros Hh2; specialize (Hfuse Hh2); lia | exact Hwhy].
Qed.


Lemma halt_turns_cycles
    (Hppu : forall p (ctx : GBContext PPU) c,
        cycles (ppu_tick p ctx c) = cycles ctx) (n : nat) (w : World) :
  u32 (cycles (w_ctx (halt_turns n w)))
  = u32 (cycles (w_ctx w) + 4 * Z.of_nat n).
Proof.
  induction n as [ | n IH]; [rewrite Z.add_0_r; reflexivity | ].
  rewrite halt_turns_succ.
  destruct (gb_halt_iter_cases (halt_turns n w)) as (_ & -> & _).
  rewrite (gb_tick_cycles Hppu).
  replace (u32 (u32 (cycles (w_ctx (halt_turns n w)) + 4)))
    with (u32 (cycles (w_ctx (halt_turns n w)) + 4))
    by (unfold u32; rewrite Z.mod_mod by lia; reflexivity).
  rewrite <- u32_add_idemp, IH, u32_add_idemp. f_equal. lia.
Qed.

(** C8.  HALT, for every state and every PPU and platform.  [gb_halt]
    sets [halted] and, given fuel for 17556 turns, returns after n + 1
    turns of its loop, at least one and at most 17556, so after ticks of
    4 (n + 1) <= 70224 cycles in all.  Every turn starts with the CPU
    halted and is one [gb_tick] of four cycles: IF, IE and the cycle
    counter after the turn are those the tick left.  The loop goes round
    again only while no interrupt is pending: after every turn but the
    last IE & IF is zero, and if IE & IF is non-zero after the last tick
    the routine returns with [halted] cleared.  It returns with [halted]
    still set only once the whole budget of 70224 cycles is spent, which
    is what happens when IE & IF stays zero and nothing else wakes the CPU.
    A return with [halted] cleared and IE & IF zero has one of two causes:
    the last tick cleared [halted] itself (it dispatched the interrupt and
    cleared its IF bit, or the PPU did it), or the SDL platform asked to
    quit and [stopped] is set.  Where the PPU leaves the cycle counter of
    the context alone, the counter has advanced by exactly 4 (n + 1). *)
Theorem gb_halt_bounded (fuel : nat) (w : World) :
  17556 <= Z.of_nat fuel ->
  let w0 := with_ctx w (set_halted true (w_ctx w)) in
  exists n : nat,
    let w' := halt_turns (S n) w0 in
    gb_halt fuel w = Some w'
    /\ 4 * Z.of_nat (S n) <= 70224
    /\ (forall i, (i <= n)%nat ->
          halted (w_ctx (halt_turns i w0)) = true
          /\ io (w_ctx (halt_turns (S i) w0))
             = io (w_ctx (gb_tick (halt_turns i w0) 4))
          /\ cycles (w_ctx (halt_turns (S i) w0))
             = cycles (w_ctx (gb_tick (halt_turns i w0) 4)))
    /\ (forall i, (i < n)%nat ->
          interrupt_pending (w_ctx (halt_turns (S i) w0)) = false)
    /\ (interrupt_pending (w_ctx w') = true -> halted (w_ctx w') = false)
    /\ (halted (w_ctx w') = true -> 4 * Z.of_nat (S n) = 70224)
    /\ (halted (w_ctx w') = false ->
        interrupt_pending (w_ctx w') = false ->
        halted (w_ctx (gb_tick (halt_turns n w0) 4)) = false
        \/ (GB_HAS_SDL2 = true /\ stopped (w_ctx w') = true))
    /\ ((forall p (ctx : GBContext PPU) c,
           cycles (ppu_tick p ctx c) = cycles ctx) ->
        u32 (cycles (w_ctx w') - cycles (w_ctx w)) = 4 * Z.of_nat (S n)).
Proof.
  intros Hfuel w0.
  destruct (gb_halt_loop_turns fuel w0 17556 ltac:(lia) eq_refl)
    as (n & Hloop & Hn & Hhs & Hnps & Hwake & Hfuse & Hwhy).
  change (4 * 17556) with 70224 in Hloop.
  exists n. cbv zeta.
  split; [exact Hloop | ].
  split; [lia | ].
  split.
  { intros i Hi. split; [apply Hhs; exact Hi | ].
    rewrite halt_turns_succ.
    destruct (gb_halt_iter_cases (halt_turns i w0)) as (Hio & Hc & _).
    split; assumption. }
  split; [exact Hnps | ].
  split; [exact Hwake | ].
  split; [intros Hh; specialize (Hfuse Hh); lia | ].
  split; [exact Hwhy | ].
  intros Hppu.
  pose proof (halt_turns_cycles Hppu (S n) w0) as Hc.
  change (cycles (w_ctx w0)) with (cycles (w_ctx w)) in Hc.
  unfold u32 in *.
  rewrite <- Zminus_mod_idemp_l, Hc, Zminus_mod_idemp_l.
  replace (cycles (w_ctx w) + 4 * Z.of_nat (S n) - cycles (w_ctx w))
    with (4 * Z.of_nat (S n)) by lia.
  apply Z.mod_small. lia.
Qed.

End HaltFacts.

(** HALT with nothing pending and no PPU: the loop spends its whole budget
    and returns with [halted] still set. *)
Lemma gb_halt_bounded_witness :
  let w := stub_world blank_ctx in
  let w0 := with_ctx w (set_halted true (w_ctx w)) in
  exists n : nat,
    let w' := halt_turns (S n) w0 in
    gb_halt (Z.to_nat 17556) w = Some w'
    /\ 4 * Z.of_nat (S n) <= 70224
    /\ (forall i, (i <= n)%nat ->
          halted (w_ctx (halt_turns i w0)) = true
          /\ io (w_ctx (halt_turns (S i) w0))
             = io (w_ctx (gb_tick (halt_turns i w0) 4))
          /\ cycles (w_ctx (halt_turns (S i) w0))
             = cycles (w_ctx (gb_tick (halt_turns i w0) 4)))
    /\ (forall i, (i < n)%nat ->
          interrupt_pending (w_ctx (halt_turns (S i) w0)) = false)
    /\ (interrupt_pending (w_ctx w') = true -> halted (w_ctx w') = false)
    /\ (halted (w_ctx w') = true -> 4 * Z.of_nat (S n) = 70224)
    /\ (halted (w_ctx w') = false ->
        interrupt_pending (w_ctx w') = false ->
        halted (w_ctx (gb_tick (halt_turns n w0) 4)) = false
        \/ (GB_HAS_SDL2 (Env := stub_env) = true
            /\ stopped (w_ctx w') = true))
    /\ ((forall p (ctx : GBContext (PPU (Env := stub_env))) c,
           cycles (ppu_tick p ctx c) = cycles ctx) ->
        u32 (cycles (w_ctx w') - cycles (w_ctx w)) = 4 * Z.of_nat (S n)).
Proof.
  apply (gb_halt_bounded (E := stub_env) (Z.to_nat 17556)
           (stub_world blank_ctx)).
  lia.
Defined.

(** ** The interpreter of gbrt.c *)

Section InterpretFacts.
Context {E : Env}.

Lemma gb_read8_hram plat (ctx : GBContext PPU) x :
  0xFF80 <= x <= 0xFFFE -> gb_read8 plat ctx x = rd (hram ctx) (x - 0xFF80).
Proof.
  intros Hx. unfold gb_read8, gb_read8_body. unfold_map.
  zcmp; reflexivity.
Qed.

(** C3, as the code has it.  For an address without translated function
    the dispatcher stores the address in PC and calls the interpreter of
    gbrt.c, which decodes nothing.  Unless the bytes at a high RAM address
    are a DMA trampoline, it returns with only PC changed.  On [E0 46] it
    writes A to 0xFF46 through the bus and then returns from the routine:
    PC is popped from the stack.  On [3E n E0 46] it loads n into A first.
    Addresses above 0xFFFB, where the recogniser looks past the end of
    high RAM, are left out. *)
Theorem gb_dispatch_interpreter_stub plat (ctx : GBContext PPU) addr :
  buffers_allocated ctx -> addr <= 0xFFFB ->
  match trampoline_at plat ctx addr with
  | NoTrampoline => gb_dispatch plat ctx addr = set_pc addr ctx
  | DmaGeneric =>
      gb_dispatch plat ctx addr
      = gb_ret plat (gb_write8 (set_pc addr ctx) 0xFF46 (a ctx))
  | DmaTetris n =>
      gb_dispatch plat ctx addr
      = gb_ret plat (gb_write8 (set_a n (set_pc addr ctx)) 0xFF46 n)
  end.
Proof.
  intros _ Haddr. unfold trampoline_at, gb_dispatch, gb_interpret.
  destruct (Z.leb_spec 0xFF80 addr) as [Hlo | Hlo]; [ | reflexivity].
  destruct (Z.leb_spec addr 0xFFFE) as [Hhi | Hhi]; [ | lia].
  cbn [andb].
  rewrite !gb_read8_hram by lia.
  cbn [hram set_pc set_a a].
  replace (addr + 1 - 0xFF80) with (addr - 0xFF80 + 1) by lia.
  replace (addr + 2 - 0xFF80) with (addr - 0xFF80 + 2) by lia.
  replace (addr + 3 - 0xFF80) with (addr - 0xFF80 + 3) by lia.
  destruct (rd (hram ctx) (addr - 0xFF80) =? 0xE0).
  - destruct (rd (hram ctx) (addr - 0xFF80 + 1) =? 0x46); reflexivity.
  - destruct (rd (hram ctx) (addr - 0xFF80) =? 0x3E); [ | reflexivity].
    destruct ((rd (hram ctx) (addr - 0xFF80 + 2) =? 0xE0)
              && (rd (hram ctx) (addr - 0xFF80 + 3) =? 0x46)); reflexivity.
Qed.

End InterpretFacts.

(** A NOP in work RAM is not executed, and the trampoline returns to its
    caller with A written to 0xFF46. *)
Lemma gb_dispatch_interpreter_stub_witness :
  pc (gb_dispatch (E := stub_env) tt blank_ctx 0xC000) = 0xC000
  /\ pc (gb_dispatch (E := stub_env) tt trampoline_ctx 0xFF80) = 0x0150
  /\ sp (gb_dispatch (E := stub_env) tt trampoline_ctx 0xFF80) = 0xD000
  /\ rd (io (gb_dispatch (E := stub_env) tt trampoline_ctx 0xFF80)) 0x46
     = a trampoline_ctx.
Proof.
  assert (Hblank : buffers_allocated blank_ctx)
    by (unfold buffers_allocated; vm_compute; intuition discriminate).
  assert (Htramp : buffers_allocated trampoline_ctx)
    by (unfold buffers_allocated; vm_compute; intuition discriminate).
  pose proof (gb_dispatch_interpreter_stub (E := stub_env) tt blank_ctx 0xC000
                Hblank ltac:(lia)) as Hnop.
  pose proof (gb_dispatch_interpreter_stub (E := stub_env) tt trampoline_ctx
                0xFF80 Htramp ltac:(lia)) as Hdma.
  change (trampoline_at (E := stub_env) tt blank_ctx 0xC000)
    with NoTrampoline in Hnop.
  change (trampoline_at (E := stub_env) tt trampoline_ctx 0xFF80)
    with DmaGeneric in Hdma.
  rewrite Hnop, Hdma. vm_compute. auto.
Defined.

(** C3 as stated fails.  At 0xC000, where work RAM holds a NOP, generic
    interpretation of one instruction ends with PC = 0xC001, while
    [gb_dispatch] leaves PC at 0xC000.  At the trampoline, generic
    interpretation of one instruction ends after [LDH (FF46),A] with
    PC = 0xFF82 and SP untouched, while the short circuit has returned to
    0x0150 and popped the stack. *)
Lemma interpreter_not_generic_counterexample :
  (option_map (fun w => pc (w_ctx w))
     (spec_interpret_one (stub_world blank_ctx) 0xC000) = Some 0xC001
   /\ pc (gb_dispatch (E := stub_env) tt blank_ctx 0xC000) = 0xC000)
  /\ (option_map (fun w => (pc (w_ctx w), sp (w_ctx w)))
        (spec_interpret_one (stub_world trampoline_ctx) 0xFF80)
      = Some (0xFF82, 0xCFFE)
      /\ pc (gb_dispatch (E := stub_env) tt trampoline_ctx 0xFF80) = 0x0150
      /\ sp (gb_dispatch (E := stub_env) tt trampoline_ctx 0xFF80) = 0xD000).
Proof. vm_compute. auto. Qed.

(** ** Cartridge loading *)

Section LoadFacts.
Context {E : Env}.

(** C9, as the code has it.  [gb_context_load_rom] rejects no input for
    its length or its MBC code: it returns false only when the buffer for
    the copy cannot be allocated, and otherwise keeps the copy and returns
    true.  With at least 0x14A bytes of input it takes the MBC code from
    byte 0x147 and, on a context without ERAM yet, the ERAM size from byte
    0x149 by the table of the spec, 512 for the MBC codes 0x05 and 0x06;
    with fewer than 0x148 bytes it leaves both as they were. *)
Theorem gb_context_load_rom_accepts (ctx : GBContext PPU) (data : list Z) :
  eram_size ctx = 0 ->
  let size := Z.of_nat (length data) in
  let ctx' := fst (gb_context_load_rom ctx data) in
  snd (gb_context_load_rom ctx data) = heap_alloc size
  /\ (if heap_alloc size then
        rom ctx' = Some data /\ rom_size ctx' = size
        /\ (if 0x14A <=? size then
              mbc_type ctx' = rd data 0x147
              /\ eram_size ctx'
                 = spec_eram_size (rd data 0x147) (rd data 0x149)
            else if size <? 0x148 then
              mbc_type ctx' = mbc_type ctx /\ eram_size ctx' = 0
            else True)
      else True).
Proof.
  intros Heram size ctx'. subst ctx'.
  unfold gb_context_load_rom. fold size.
  destruct (heap_alloc size); cbn [negb fst snd]; [ | auto].
  split; [reflexivity | ].
  destruct (Z.leb_spec 0x14A size) as [Hbig | Hsmall].
  - destruct (Z.geb_spec size 0x148) as [_ | Hlt]; [ | lia].
    cbn [mbc_type set_mbc_type].
    set (code := rd data 0x149). set (mbc := rd data 0x147).
    unfold spec_eram_size, spec_is_mbc2.
    destruct (Z.eqb_spec mbc 5) as [Hm5 | Hm5];
      [ | destruct (Z.eqb_spec mbc 6) as [Hm6 | Hm6] ].
    + rewrite Hm5. repeat split; reflexivity.
    + rewrite Hm6. repeat split; reflexivity.
    + assert ((5 <=? mbc) && (mbc <=? 6) = false) as ->.
      { destruct (Z.leb_spec 5 mbc), (Z.leb_spec mbc 6); try reflexivity. lia. }
      cbn [orb].
      destruct (Z.eqb_spec code 0) as [H0 | H0].
      { rewrite H0. repeat split; try reflexivity. exact Heram. }
      destruct (Z.eqb_spec code 1); [repeat split; reflexivity | ].
      destruct (Z.eqb_spec code 2); [repeat split; reflexivity | ].
      destruct (Z.eqb_spec code 3); [repeat split; reflexivity | ].
      destruct (Z.eqb_spec code 4); [repeat split; reflexivity | ].
      destruct (Z.eqb_spec code 5); [repeat split; reflexivity | ].
      repeat split; try reflexivity. exact Heram.
  - destruct (Z.ltb_spec size 0x148) as [Hlt | Hge].
    2: { destruct (size >=? 0x148); [ | repeat split; reflexivity].
         match goal with
         | |- context [if ?b >? 0 then _ else _] => destruct (b >? 0)
         end; repeat split; reflexivity. }
    destruct (Z.geb_spec size 0x148) as [Hge | _]; [lia | ].
    repeat split; try reflexivity. exact Heram.
Qed.

End LoadFacts.

(** Scenario "Header parse": MBC code 0x13 and RAM size code 0x03 give
    32 KiB of ERAM. *)
Lemma gb_context_load_rom_accepts_witness :
  snd (gb_context_load_rom (E := stub_env) blank_ctx mbc3_rom) = true
  /\ mbc_type (fst (gb_context_load_rom (E := stub_env) blank_ctx mbc3_rom))
     = 0x13
  /\ eram_size (fst (gb_context_load_rom (E := stub_env) blank_ctx mbc3_rom))
     = 32 * 1024.
Proof.
  destruct (gb_context_load_rom_accepts (E := stub_env) blank_ctx mbc3_rom
              eq_refl) as (Hok & _ & _ & Hmbc & Hsize).
  rewrite Hok, Hmbc, Hsize. vm_compute. auto.
Defined.

(** C9 as stated fails: an input of 256 bytes and an input with the
    unlisted MBC code 0xFF are both loaded, and the copy is kept. *)
Lemma load_rom_never_invalid_counterexample :
  (Z.of_nat (length short_rom) < 0x150
   /\ snd (gb_context_load_rom (E := stub_env) blank_ctx short_rom) = true
   /\ rom_size (fst (gb_context_load_rom (E := stub_env) blank_ctx short_rom))
      = 0x100)
  /\ (spec_mbc_recognized (rd bad_mbc_rom 0x147) = false
      /\ snd (gb_context_load_rom (E := stub_env) blank_ctx bad_mbc_rom)
         = true
      /\ mbc_type
           (fst (gb_context_load_rom (E := stub_env) blank_ctx bad_mbc_rom))
         = 0xFF).
Proof. vm_compute. auto 10. Qed.

(** * Further properties of gbrt.c *)

(** ** Enumeration over bytes *)

Lemma in_bytes v : is_u8 v -> In v bytes.
Proof.
  unfold is_u8, bytes. intros Hv.
  apply in_map_iff. exists (Z.to_nat v). split; [lia | ].
  apply in_seq. lia.
Qed.

Lemma forall_bytes (f : Z -> bool) :
  forallb f bytes = true -> forall v, is_u8 v -> f v = true.
Proof.
  intros Hall v Hv. rewrite forallb_forall in Hall.
  apply Hall, in_bytes, Hv.
Qed.

Lemma forall_bytes2 (f : Z -> Z -> bool) :
  forallb (fun x => forallb (f x) bytes) bytes = true ->
  forall x y, is_u8 x -> is_u8 y -> f x y = true.
Proof.
  intros Hall x y Hx Hy.
  apply (forall_bytes (f x)); [ | exact Hy].
  apply (forall_bytes (fun x => forallb (f x) bytes)); assumption.
Qed.

Lemma apply_if {A B : Type} (f : A -> B) (b : bool) (x y : A) :
  f (if b then x else y) = if b then f x else f y.
Proof. destruct b; reflexivity. Qed.

(** Settle a decidable goal [forall x, is_u8 x -> G x] by running it on
    the 256 bytes, and likewise for two bytes. *)
Ltac by_bytes :=
  lazymatch goal with
  | |- forall x : Z, is_u8 x -> @?G x =>
      let f := fresh "f" in
      let Hall := fresh "Hall" in
      pose (f := fun x => bool_decide (G x));
      assert (Hall : forallb f bytes = true) by (vm_compute; reflexivity);
      intros x Hx; apply (bool_decide_eq_true_1 (G x));
      exact (forall_bytes f Hall x Hx)
  end.

Ltac by_bytes2 :=
  lazymatch goal with
  | |- forall x y : Z, is_u8 x -> is_u8 y -> @?G x y =>
      let f := fresh "f" in
      let Hall := fresh "Hall" in
      pose (f := fun x y => bool_decide (G x y));
      assert (Hall : forallb (fun x => forallb (f x) bytes) bytes = true)
        by (vm_compute; reflexivity);
      intros x y Hx Hy; apply (bool_decide_eq_true_1 (G x y));
      exact (forall_bytes2 f Hall x y Hx Hy)
  end.

Ltac alu_unfold :=
  cbv beta delta
    [gb_add8 gb_adc8 gb_sub8 gb_sbc8 gb_and8 gb_or8 gb_xor8 gb_cp8 gb_inc8
     gb_dec8 gb_rlc gb_rrc gb_rl gb_rr gb_sla gb_sra gb_srl gb_swap gb_rlca
     gb_rrca gb_rla gb_rra gb_bit gb_daa];
  cbv zeta;
  repeat (rewrite ?(apply_if a), ?(apply_if f_z), ?(apply_if f_n),
            ?(apply_if f_h), ?(apply_if f_c);
          cbn [a f_z f_n f_h f_c fst snd set_a set_f_z set_f_n set_f_h
               set_f_c]).

Section AluMore.
Context {E : Env}.

(** X3.  Subtracting what was just added gives A back; the flags are
    those of the subtraction, so Z is set exactly when A is zero. *)
Theorem add8_sub8_restores (ctx : GBContext PPU) v :
  is_u8 (a ctx) -> is_u8 v ->
  a (gb_sub8 (gb_add8 ctx v) v) = a ctx
  /\ f_z (gb_sub8 (gb_add8 ctx v) v) = (a ctx =? 0)
  /\ f_n (gb_sub8 (gb_add8 ctx v) v) = true.
Proof.
  alu_unfold. revert v. generalize (a ctx). clear ctx.
  by_bytes2.
Qed.

(** X4.  [gb_cp8] is a comparison: it leaves A alone, sets Z exactly when
    A equals the operand and C exactly when A is below it.  [gb_sub8] sets
    the same flags and leaves (A - v) mod 256 in A. *)
Theorem cp8_compares (ctx : GBContext PPU) v :
  is_u8 (a ctx) -> is_u8 v ->
  (a (gb_cp8 ctx v) = a ctx
   /\ f_z (gb_cp8 ctx v) = (a ctx =? v)
   /\ f_c (gb_cp8 ctx v) = (a ctx <? v)
   /\ f_n (gb_cp8 ctx v) = true)
  /\ (a (gb_sub8 ctx v) = (a ctx - v) mod 256
      /\ f_z (gb_sub8 ctx v) = f_z (gb_cp8 ctx v)
      /\ f_n (gb_sub8 ctx v) = f_n (gb_cp8 ctx v)
      /\ f_h (gb_sub8 ctx v) = f_h (gb_cp8 ctx v)
      /\ f_c (gb_sub8 ctx v) = f_c (gb_cp8 ctx v)).
Proof.
  alu_unfold. revert v. generalize (a ctx). clear ctx.
  by_bytes2.
Qed.

(** X7.  [gb_inc8] and [gb_dec8] undo each other on every byte, wrapping
    at 0xFF and 0x00, and neither touches the carry flag; Z reports the
    wrapped result. *)
Theorem inc8_dec8_inverse (ctx ctx' : GBContext PPU) v :
  is_u8 v ->
  fst (gb_dec8 ctx' (fst (gb_inc8 ctx v))) = v
  /\ fst (gb_inc8 ctx' (fst (gb_dec8 ctx v))) = v
  /\ f_z (snd (gb_inc8 ctx v)) = (v =? 0xFF)
  /\ f_z (snd (gb_dec8 ctx v)) = (v =? 0x01)
  /\ f_c (snd (gb_inc8 ctx v)) = f_c ctx
  /\ f_c (snd (gb_dec8 ctx v)) = f_c ctx.
Proof.
  alu_unfold. intros Hv.
  assert (Hpure : u8 (u8 (v + 1) - 1) = v /\ u8 (u8 (v - 1) + 1) = v
                  /\ (u8 (v + 1) =? 0) = (v =? 0xFF)
                  /\ (u8 (v - 1) =? 0) = (v =? 0x01)).
  { revert v Hv. by_bytes. }
  destruct Hpure as (H1 & H2 & H3 & H4).
  repeat split; auto.
Qed.

(** X8.  [gb_swap] is an involution on bytes; it sets Z exactly when the
    byte is zero and clears N, H and C. *)
Theorem swap_involution (ctx ctx' : GBContext PPU) v :
  is_u8 v ->
  fst (gb_swap ctx' (fst (gb_swap ctx v))) = v
  /\ f_z (snd (gb_swap ctx v)) = (v =? 0)
  /\ f_n (snd (gb_swap ctx v)) = false
  /\ f_h (snd (gb_swap ctx v)) = false
  /\ f_c (snd (gb_swap ctx v)) = false.
Proof.
  alu_unfold. revert v. by_bytes.
Qed.

(** X9.  [gb_rlc] and [gb_rrc] undo each other on every byte; the carry
    of [gb_rlc] is bit 7 of its operand and that of [gb_rrc] bit 0. *)
Theorem rlc_rrc_inverse (ctx ctx' : GBContext PPU) v :
  is_u8 v ->
  fst (gb_rrc ctx' (fst (gb_rlc ctx v))) = v
  /\ fst (gb_rlc ctx' (fst (gb_rrc ctx v))) = v
  /\ f_c (snd (gb_rlc ctx v)) = (0x80 <=? v)
  /\ f_c (snd (gb_rrc ctx v)) = Z.odd v.
Proof.
  alu_unfold. revert v. by_bytes.
Qed.

(** X10.  The rotations through carry undo each other: [gb_rr] after
    [gb_rl], and [gb_rl] after [gb_rr], give back both the byte and the
    carry flag. *)
Theorem rl_rr_inverse (ctx : GBContext PPU) v :
  is_u8 v ->
  fst (gb_rr (snd (gb_rl ctx v)) (fst (gb_rl ctx v))) = v
  /\ f_c (snd (gb_rr (snd (gb_rl ctx v)) (fst (gb_rl ctx v)))) = f_c ctx
  /\ fst (gb_rl (snd (gb_rr ctx v)) (fst (gb_rr ctx v))) = v
  /\ f_c (snd (gb_rl (snd (gb_rr ctx v)) (fst (gb_rr ctx v)))) = f_c ctx.
Proof.
  alu_unfold. destruct (f_c ctx); revert v; by_bytes.
Qed.

(** X11.  The accumulator rotations undo each other like the CB-prefixed
    ones ([gb_rla]/[gb_rra] also give back the carry), but they clear Z
    even when A is zero. *)
Theorem accumulator_rotations (ctx : GBContext PPU) :
  is_u8 (a ctx) ->
  a (gb_rrca (gb_rlca ctx)) = a ctx
  /\ a (gb_rlca (gb_rrca ctx)) = a ctx
  /\ (a (gb_rra (gb_rla ctx)) = a ctx
      /\ f_c (gb_rra (gb_rla ctx)) = f_c ctx)
  /\ (a (gb_rla (gb_rra ctx)) = a ctx
      /\ f_c (gb_rla (gb_rra ctx)) = f_c ctx)
  /\ f_z (gb_rlca ctx) = false /\ f_z (gb_rrca ctx) = false
  /\ f_z (gb_rla ctx) = false /\ f_z (gb_rra ctx) = false.
Proof.
  alu_unfold. destruct (f_c ctx); generalize (a ctx); by_bytes.
Qed.

(** X12.  The shifts as arithmetic: [gb_sla] doubles modulo 256 and
    carries out bit 7; [gb_srl] halves and carries out bit 0; [gb_sra]
    halves the byte read as a signed number, rounding down. *)
Theorem shifts_arithmetic (ctx : GBContext PPU) v :
  is_u8 v ->
  (fst (gb_sla ctx v) = (2 * v) mod 256
   /\ f_c (snd (gb_sla ctx v)) = (0x80 <=? v))
  /\ (fst (gb_srl ctx v) = v / 2
      /\ f_c (snd (gb_srl ctx v)) = Z.odd v)
  /\ (s8 (fst (gb_sra ctx v)) = s8 v / 2
      /\ f_c (snd (gb_sra ctx v)) = Z.odd v).
Proof.
  alu_unfold. revert v. by_bytes.
Qed.

(** X13.  [gb_bit] sets Z exactly when the tested bit is clear, sets H,
    clears N and leaves the carry flag alone. *)
Theorem bit_tests (ctx : GBContext PPU) bit v :
  0 <= bit ->
  f_z (gb_bit ctx bit v) = negb (Z.testbit v bit)
  /\ f_n (gb_bit ctx bit v) = false
  /\ f_h (gb_bit ctx bit v) = true
  /\ f_c (gb_bit ctx bit v) = f_c ctx.
Proof.
  intros Hbit. alu_unfold. repeat split.
  change 1 with (Z.ones 1). rewrite Z.land_ones by lia.
  change (2 ^ 1) with 2.
  rewrite <- Z.bit0_mod, Z.shiftr_spec by lia. rewrite Z.add_0_l.
  destruct (Z.testbit v bit); reflexivity.
Qed.

(** X14.  The idioms on A itself: [AND A] and [OR A] leave A unchanged,
    set Z exactly when A is zero and clear the carry; [XOR A] clears A
    and sets Z. *)
Theorem logic_on_self (ctx : GBContext PPU) :
  is_u8 (a ctx) ->
  (a (gb_and8 ctx (a ctx)) = a ctx
   /\ f_z (gb_and8 ctx (a ctx)) = (a ctx =? 0)
   /\ f_c (gb_and8 ctx (a ctx)) = false)
  /\ (a (gb_or8 ctx (a ctx)) = a ctx
      /\ f_z (gb_or8 ctx (a ctx)) = (a ctx =? 0)
      /\ f_c (gb_or8 ctx (a ctx)) = false)
  /\ (a (gb_xor8 ctx (a ctx)) = 0
      /\ f_z (gb_xor8 ctx (a ctx)) = true
      /\ f_c (gb_xor8 ctx (a ctx)) = false).
Proof.
  intros Ha. alu_unfold.
  rewrite Z.land_diag, Z.lor_diag, Z.lxor_nilpotent.
  rewrite (u8_small (a ctx)) by exact Ha.
  repeat split; reflexivity.
Qed.

End AluMore.

(** ** Decimal adjustment *)

Lemma forall_bcd2 (f : Z -> Z -> bool) :
  forallb (fun x => forallb (f x) bcd_bytes) bcd_bytes = true ->
  forall x y,
    is_u8 x -> is_u8 y -> bcd_valid x = true -> bcd_valid y = true ->
    f x y = true.
Proof.
  intros Hall x y Hx Hy Hbx Hby.
  assert (Hin : forall z, is_u8 z -> bcd_valid z = true -> In z bcd_bytes).
  { intros z Hz Hbz. unfold bcd_bytes. apply filter_In.
    split; [apply in_bytes, Hz | exact Hbz]. }
  rewrite forallb_forall in Hall.
  specialize (Hall x (Hin x Hx Hbx)).
  rewrite forallb_forall in Hall.
  exact (Hall y (Hin y Hy Hby)).
Qed.

Ltac by_bcd2 :=
  lazymatch goal with
  | |- forall x y : Z, is_u8 x -> is_u8 y ->
                       bcd_valid x = true -> bcd_valid y = true -> @?G x y =>
      let f := fresh "f" in
      let Hall := fresh "Hall" in
      pose (f := fun x y => bool_decide (G x y));
      assert (Hall : forallb (fun x => forallb (f x) bcd_bytes) bcd_bytes
                     = true)
        by (vm_compute; reflexivity);
      intros x y Hx Hy Hbx Hby; apply (bool_decide_eq_true_1 (G x y));
      exact (forall_bcd2 f Hall x y Hx Hy Hbx Hby)
  end.

Section DaaFacts.
Context {E : Env}.

(** X5.  Decimal addition.  When A and the operand hold two decimal
    digits each, [gb_daa] after [gb_add8] or [gb_adc8] leaves in A the two
    low decimal digits of the sum (with the carry-in for [gb_adc8]) and in
    C whether the sum reached 100. *)
Theorem daa_after_addition (ctx : GBContext PPU) v :
  is_u8 (a ctx) -> is_u8 v ->
  bcd_valid (a ctx) = true -> bcd_valid v = true ->
  (a (gb_daa (gb_add8 ctx v))
   = bcd_of ((bcd_value (a ctx) + bcd_value v) mod 100)
   /\ f_c (gb_daa (gb_add8 ctx v))
      = (100 <=? bcd_value (a ctx) + bcd_value v))
  /\ (a (gb_daa (gb_adc8 ctx v))
      = bcd_of ((bcd_value (a ctx) + bcd_value v + carry_in (f_c ctx))
                mod 100)
      /\ f_c (gb_daa (gb_adc8 ctx v))
         = (100 <=? bcd_value (a ctx) + bcd_value v + carry_in (f_c ctx))).
Proof.
  alu_unfold. destruct (f_c ctx); revert v; generalize (a ctx); by_bcd2.
Qed.

(** X6.  Decimal subtraction.  When A and the operand hold two decimal
    digits each, [gb_daa] after [gb_sub8] or [gb_sbc8] leaves in A the two
    low decimal digits of the difference (less the borrow-in for
    [gb_sbc8]) and in C whether it went below zero. *)
Theorem daa_after_subtraction (ctx : GBContext PPU) v :
  is_u8 (a ctx) -> is_u8 v ->
  bcd_valid (a ctx) = true -> bcd_valid v = true ->
  (a (gb_daa (gb_sub8 ctx v))
   = bcd_of ((bcd_value (a ctx) - bcd_value v) mod 100)
   /\ f_c (gb_daa (gb_sub8 ctx v))
      = (bcd_value (a ctx) <? bcd_value v))
  /\ (a (gb_daa (gb_sbc8 ctx v))
      = bcd_of ((bcd_value (a ctx) - bcd_value v - carry_in (f_c ctx))
                mod 100)
      /\ f_c (gb_daa (gb_sbc8 ctx v))
         = (bcd_value (a ctx) - bcd_value v - carry_in (f_c ctx) <? 0)).
Proof.
  alu_unfold. destruct (f_c ctx); revert v; generalize (a ctx); by_bcd2.
Qed.

End DaaFacts.

(** ** Multi-byte arithmetic *)

Lemma mod_wrap s m :
  0 < m -> - m <= s < 2 * m ->
  s mod m = if s <? 0 then s + m else if s <? m then s else s - m.
Proof.
  intros Hm Hs.
  destruct (Z.ltb_spec s 0); [ | destruct (Z.ltb_spec s m)].
  - rewrite <- (Z_mod_plus_full s 1 m). rewrite Z.mul_1_l.
    apply Z.mod_small. lia.
  - apply Z.mod_small. lia.
  - rewrite <- (Z_mod_plus_full s (-1) m).
    replace (s + -1 * m) with (s - m) by lia. apply Z.mod_small. lia.
Qed.

Lemma u8_u16 z : u8 (u16 z) = z mod 256.
Proof. unfold u8, u16. apply Z.mod_mod_divide. exists 256. reflexivity. Qed.

Section WordArith.
Context {E : Env}.

(** X1.  A 16-bit addition done bytewise, [gb_add8] on the low bytes and
    [gb_adc8] on the high bytes, gives the sum modulo 2^16 and the carry
    out of bit 15. *)
Theorem add8_adc8_word (ctx : GBContext PPU) xl xh yl yh :
  is_u8 xl -> is_u8 xh -> is_u8 yl -> is_u8 yh ->
  let c1 := gb_add8 (set_a xl ctx) yl in
  let c2 := gb_adc8 (set_a xh c1) yh in
  a c1 + 256 * a c2 = (xl + 256 * xh + (yl + 256 * yh)) mod 65536
  /\ f_c c2 = (xl + 256 * xh + (yl + 256 * yh) >? 0xFFFF).
Proof.
  intros Hxl Hxh Hyl Hyh. cbv zeta. unfold is_u8 in *.
  alu_unfold. rewrite !u8_u16.
  rewrite (u16_small (xl + yl)) by lia.
  assert (Hc : 0 <= (if xl + yl >? 255 then 1 else 0) <= 1)
    by (destruct (xl + yl >? 255); lia).
  rewrite (u16_small (xh + yh + _)) by lia.
  rewrite (mod_wrap (xl + yl) 256), (mod_wrap (xh + yh + _) 256),
    (mod_wrap _ 65536) by lia.
  destruct (Z.gtb_spec (xl + yl) 255);
    repeat match goal with
           | |- context [?x <? ?y] => destruct (Z.ltb_spec x y); try lia
           | |- context [?x >? ?y] => destruct (Z.gtb_spec x y); try lia
           end; split; (lia || reflexivity).
Qed.

(** X2.  A 16-bit subtraction done bytewise, [gb_sub8] on the low bytes
    and [gb_sbc8] on the high bytes, gives the difference modulo 2^16 and
    the borrow. *)
Theorem sub8_sbc8_word (ctx : GBContext PPU) xl xh yl yh :
  is_u8 xl -> is_u8 xh -> is_u8 yl -> is_u8 yh ->
  let c1 := gb_sub8 (set_a xl ctx) yl in
  let c2 := gb_sbc8 (set_a xh c1) yh in
  a c1 + 256 * a c2 = (xl + 256 * xh - (yl + 256 * yh)) mod 65536
  /\ f_c c2 = (xl + 256 * xh <? yl + 256 * yh).
Proof.
  intros Hxl Hxh Hyl Hyh. cbv zeta. unfold is_u8 in *.
  alu_unfold. rewrite !u8_u16.
  assert (Hc : 0 <= (if xl <? yl then 1 else 0) <= 1)
    by (destruct (xl <? yl); lia).
  rewrite (mod_wrap (xl - yl) 256), (mod_wrap (xh - yh - _) 256),
    (mod_wrap _ 65536) by lia.
  destruct (Z.ltb_spec xl yl);
    repeat match goal with
           | |- context [?x <? ?y] => destruct (Z.ltb_spec x y); try lia
           end; split; (lia || reflexivity).
Qed.

End WordArith.

(** ** More on the bus *)

Section BusMore.
Context {E : Env}.

Lemma gb_write8_body_frame f (ctx : GBContext PPU) addr v :
  (0xE000 <= addr <= 0xFDFF ->
   cpu_and_rom (f ctx (addr - 0x2000) v) = cpu_and_rom ctx) ->
  ppu ctx = None \/ ~ (0xFF40 <= addr <= 0xFF4B) ->
  cpu_and_rom (gb_write8_body f ctx addr v) = cpu_and_rom ctx.
Proof.
  intros Hf Hppu. unfold gb_write8_body. unfold_map.
  assert (Hsel : (if (0xFF40 <=? addr) && (addr <=? 0xFF4B)
                  then ppu ctx else None) = None).
  { destruct Hppu as [-> | Hout].
    - destruct ((0xFF40 <=? addr) && (addr <=? 0xFF4B)); reflexivity.
    - destruct (Z.leb_spec 0xFF40 addr), (Z.leb_spec addr 0xFF4B);
        try reflexivity. lia. }
  rewrite Hsel.
  destruct (Z.leb_spec addr 57343); [ | destruct (Z.leb_spec addr 65023)].
  - repeat match goal with
           | |- context [if ?b then _ else _] => destruct b
           | |- context [match eram ctx with _ => _ end] =>
               destruct (eram ctx)
           end; reflexivity.
  - assert (Hbelow : forall k, k <= 57343 -> (addr <=? k) = false)
      by (intros k Hk; apply Z.leb_gt; lia).
    rewrite !Hbelow by lia.
    rewrite u16_small by lia. apply Hf. lia.
  - assert (Hbelow : forall k, k <= 65023 -> (addr <=? k) = false)
      by (intros k Hk; apply Z.leb_gt; lia).
    rewrite !Hbelow by lia.
    repeat match goal with
           | |- context [if ?b then _ else _] => destruct b
           end; reflexivity.
Qed.

(** X15.  A bus write that is not handed to the PPU changes memory and
    MBC registers only: the CPU registers and flags, the interrupt and
    halt state, the cycle counters and the ROM image are as before, and a
    read of ROM bank 0 returns the same byte after it. *)
Theorem gb_write8_frame plat (ctx : GBContext PPU) addr v y :
  ppu ctx = None \/ ~ (0xFF40 <= addr <= 0xFF4B) ->
  y <= 0x3FFF ->
  cpu_and_rom (gb_write8 ctx addr v) = cpu_and_rom ctx
  /\ gb_read8 plat (gb_write8 ctx addr v) y = gb_read8 plat ctx y.
Proof.
  intros Hppu Hy.
  assert (Hframe : cpu_and_rom (gb_write8 ctx addr v) = cpu_and_rom ctx).
  { unfold gb_write8. apply gb_write8_body_frame; [ | exact Hppu].
    intros Hecho. apply gb_write8_body_frame; [lia | right; lia]. }
  split; [exact Hframe | ].
  unfold gb_read8, gb_read8_body. unfold_map.
  destruct (Z.leb_spec y 16383); [ | lia].
  unfold cpu_and_rom in Hframe.
  assert (Hrom : rom (gb_write8 ctx addr v) = rom ctx) by congruence.
  rewrite Hrom. reflexivity.
Qed.

(** X16.  Bank switching.  After a write of [v] to 0x2000-0x3FFF, a read
    of 0x4000-0x7FFF returns the byte of the ROM image at bank [v] (bank 1
    for [v] = 0), and 0xFF when that lies beyond the image or no ROM is
    loaded. *)
Theorem rom_bank_select plat (ctx : GBContext PPU) addr v y :
  0x2000 <= addr <= 0x3FFF -> is_u8 v -> 0x4000 <= y <= 0x7FFF ->
  gb_read8 plat (gb_write8 ctx addr v) y
  = match rom ctx with
    | Some r =>
        let bank := if v =? 0 then 1 else v in
        let offset := bank * 0x4000 + (y - 0x4000) in
        if offset <? rom_size ctx then rd r offset else 0xFF
    | None => 0xFF
    end.
Proof.
  intros Haddr Hv Hy.
  unfold gb_read8, gb_read8_body, gb_write8, gb_write8_body. unfold_map.
  destruct (Z.leb_spec addr 32767); [ | lia].
  destruct (Z.leb_spec 8192 addr); [ | lia].
  destruct (Z.leb_spec addr 16383); [ | lia].
  destruct (Z.leb_spec y 16383); [lia | ].
  destruct (Z.leb_spec y 32767); [ | lia].
  cbn [andb rom_bank set_rom_bank].
  destruct (Z.eqb_spec v 0); reflexivity.
Qed.

(** X17.  External RAM behind its enable latch.  With the latch off a
    write is dropped and a read gives 0xFF.  After the latch has been set
    by writing 0x0A to 0x0000, a byte written inside the allocated ERAM
    is read back; it reads as 0xFF while the latch is cleared again, and
    is still there once the latch is set anew. *)
Theorem eram_latch plat (ctx : GBContext PPU) er x v :
  eram ctx = Some er ->
  Z.of_nat (length er) = eram_size ctx ->
  0xA000 <= x <= 0xBFFF -> 0 <= ram_bank ctx ->
  ram_bank ctx * 0x2000 + (x - 0xA000) < eram_size ctx ->
  let on c := gb_write8 c 0x0000 0x0A in
  let off c := gb_write8 c 0x0000 0x00 in
  gb_write8 (off ctx) x v = off ctx
  /\ gb_read8 plat (off ctx) x = 0xFF
  /\ gb_read8 plat (gb_write8 (on ctx) x v) x = v
  /\ gb_read8 plat (off (gb_write8 (on ctx) x v)) x = 0xFF
  /\ gb_read8 plat (on (off (gb_write8 (on ctx) x v))) x = v.
Proof.
  intros Her Hlen Hx Hbank Hoff. cbv beta zeta.
  assert (Hrw : forall c : GBContext PPU,
             gb_write8 c x v
             = if ram_enabled c then
                 match eram c with
                 | Some e =>
                     if ram_bank c * 0x2000 + (x - 0xA000) <? eram_size c
                     then set_eram
                            (Some (wr e (ram_bank c * 0x2000 + (x - 0xA000)) v))
                            c
                     else c
                 | None => c
                 end
               else c).
  { intros c. unfold gb_write8, gb_write8_body. unfold_map.
    zcmp; reflexivity. }
  assert (Hrd : forall c : GBContext PPU,
             gb_read8 plat c x
             = if ram_enabled c then
                 match eram c with
                 | Some e =>
                     if ram_bank c * 0x2000 + (x - 0xA000) <? eram_size c
                     then rd e (ram_bank c * 0x2000 + (x - 0xA000))
                     else 0xFF
                 | None => 0xFF
                 end
               else 0xFF).
  { intros c. unfold gb_read8, gb_read8_body. unfold_map.
    zcmp; reflexivity. }
  assert (Hlt : (ram_bank ctx * 0x2000 + (x - 0xA000) <? eram_size ctx)
                = true) by (apply Z.ltb_lt; lia).
  assert (Hon : forall c : GBContext PPU,
             gb_write8 c 0 10 = set_ram_enabled true c) by reflexivity.
  assert (Hoff' : forall c : GBContext PPU,
             gb_write8 c 0 0 = set_ram_enabled false c) by reflexivity.
  rewrite !Hon, !Hoff'.
  assert (Hc1 : gb_write8 (set_ram_enabled true ctx) x v
                = set_eram
                    (Some (wr er (ram_bank ctx * 0x2000 + (x - 0xA000)) v))
                    (set_ram_enabled true ctx)).
  { rewrite Hrw. cbn [ram_enabled set_ram_enabled eram ram_bank eram_size].
    rewrite Her, Hlt. reflexivity. }
  rewrite Hc1, !Hrw, !Hrd.
  cbn [ram_enabled set_ram_enabled set_eram eram ram_bank eram_size].
  rewrite Hlt, rd_wr_same by lia.
  repeat split; reflexivity.
Qed.

(** X18.  Nothing on the bus fails: a read of the unusable range, of the
    ROM range with no ROM loaded, or of the ERAM range with the latch off
    or no ERAM allocated gives 0xFF, and a write to the unusable range or
    to such ERAM leaves the context as it is. *)
Theorem unmapped_access plat (ctx : GBContext PPU) x v :
  unmapped ctx x = true ->
  gb_read8 plat ctx x = 0xFF
  /\ (gb_write8 ctx x v = ctx \/ x <= 0x7FFF).
Proof.
  unfold unmapped. intros Hun.
  rewrite gb_read8_fix, gb_write8_fix.
  unfold gb_read8_body, gb_write8_body. unfold_map.
  destruct (Z.leb_spec x 0x7FFF) as [Hrom | Hrom].
  - destruct (rom ctx) as [r | ].
    + exfalso. revert Hun. cbn [is_Some_b negb]. rewrite andb_false_r.
      zcmp; cbn; try discriminate.
    + split; [ | right; exact Hrom].
      zcmp; reflexivity.
  - revert Hun.
    destruct (ram_enabled ctx), (eram ctx) as [er | ];
      cbn [is_Some_b negb orb andb]; rewrite ?andb_false_r, ?andb_true_r;
      zcmp; cbn; intros; try discriminate; split; auto.
Qed.

(** X19.  Video RAM, OAM and the I/O bytes that are neither the joypad
    register nor an LCD register are plain memory: a byte written is the
    byte read back. *)
Theorem video_io_read_after_write plat (ctx : GBContext PPU) x v :
  video_allocated ctx -> buffers_allocated ctx ->
  0x8000 <= x <= 0x9FFF \/ 0xFE00 <= x <= 0xFE9F \/ plain_io x = true ->
  gb_read8 plat (gb_write8 ctx x v) x = v.
Proof.
  intros (Hvram & Hoam & Hvb) (_ & _ & Hio & _) Hx.
  unfold_map.
  assert (Hx' : 0x8000 <= x <= 0x9FFF \/ 0xFE00 <= x <= 0xFE9F
                \/ 0xFF01 <= x <= 0xFF3F \/ 0xFF4C <= x <= 0xFF7F).
  { destruct Hx as [Hx | [Hx | Hx]]; [lia | lia | ].
    revert Hx. unfold plain_io. zcmp; cbn; intros; try discriminate; lia. }
  clear Hx.
  rewrite gb_write8_fix. unfold gb_write8_body. unfold_map.
  destruct Hx' as [Hx | [Hx | [Hx | Hx]]]; zcmp; cbn [andb];
    rewrite gb_read8_fix; unfold gb_read8_body; unfold_map; zcmp;
    cbn [andb vram set_vram vram_bank oam set_oam io set_io ppu];
    rewrite ?u16_small by lia; apply rd_wr_same; lia.
Qed.

(** X20.  Echo RAM mirrors work RAM in both directions: an access at
    0xE000-0xFDFF is the access 0x2000 below, so a byte written through
    either address is read back through the other. *)
Theorem echo_mirrors plat (ctx : GBContext PPU) x v :
  0xE000 <= x <= 0xFDFF -> buffers_allocated ctx ->
  gb_read8 plat ctx x = gb_read8 plat ctx (x - 0x2000)
  /\ gb_write8 ctx x v = gb_write8 ctx (x - 0x2000) v
  /\ gb_read8 plat (gb_write8 ctx x v) (x - 0x2000) = v
  /\ gb_read8 plat (gb_write8 ctx (x - 0x2000) v) x = v.
Proof.
  intros Hx Hal.
  assert (Hs : stack_ram x = true) by (unfold stack_ram; zcmp; reflexivity).
  assert (Hs' : stack_ram (x - 0x2000) = true)
    by (unfold stack_ram; zcmp; reflexivity).
  assert (Hcell : forall c : GBContext PPU,
             cell_of c x = cell_of c (x - 0x2000))
    by (intros c; unfold cell_of; zcmp; reflexivity).
  pose proof (cell_of_valid ctx x Hal Hs) as Hvalid.
  rewrite !gb_write8_cell, !gb_read8_cell by assumption.
  rewrite !cell_of_wr, <- !Hcell.
  rewrite cell_rd_wr_same by assumption.
  repeat split; reflexivity.
Qed.

End BusMore.

(** ** The joypad register *)

Section JoypadFacts.
Context {E : Env}.

Lemma joypad_select_bytes (j y : Z) :
  is_u8 j -> is_u8 y ->
  let result := u8 (Z.lor j 0x0F) in
  let result :=
    if negb (nonzero (Z.land j 0x10))
    then u8 (Z.lor (Z.land result 0xF0) (y / 16)) else result in
  let result :=
    if negb (nonzero (Z.land j 0x20))
    then u8 (Z.lor (Z.land result 0xF0) (y mod 16)) else result in
  result / 16 = j / 16
  /\ result mod 16
     = (if Z.testbit j 5 then (if Z.testbit j 4 then 0xF else y / 16)
        else y mod 16).
Proof.
  revert j y. by_bytes2.
Qed.

Lemma joypad_select (j d b : Z) :
  is_u8 j -> 0 <= d < 16 -> 0 <= b < 16 ->
  let result := u8 (Z.lor j 0x0F) in
  let result :=
    if negb (nonzero (Z.land j 0x10))
    then u8 (Z.lor (Z.land result 0xF0) d) else result in
  let result :=
    if negb (nonzero (Z.land j 0x20))
    then u8 (Z.lor (Z.land result 0xF0) b) else result in
  result / 16 = j / 16
  /\ result mod 16
     = (if Z.testbit j 5 then (if Z.testbit j 4 then 0xF else d) else b).
Proof.
  intros Hj Hd Hb.
  assert (Hy : is_u8 (16 * d + b)) by (unfold is_u8; lia).
  pose proof (joypad_select_bytes j (16 * d + b) Hj Hy) as Hsel.
  replace ((16 * d + b) / 16) with d in Hsel
    by (apply Z.div_unique with b; lia).
  replace ((16 * d + b) mod 16) with b in Hsel
    by (apply Z.mod_unique with d; lia).
  exact Hsel.
Qed.

(** X21.  A read of 0xFF00 returns the upper nibble of the stored select
    byte.  Without SDL the low nibble reads 0xF, no key pressed.  With
    SDL it is the button state when bit 5 of the select byte is clear,
    also when bit 4 is clear as well; the d-pad state when only bit 4 is
    clear; and 0xF when neither group is selected. *)
Theorem joypad_read plat (ctx : GBContext PPU) :
  is_u8 (rd (io ctx) 0) ->
  gb_read8 plat ctx 0xFF00 / 16 = rd (io ctx) 0 / 16
  /\ gb_read8 plat ctx 0xFF00 mod 16
     = (if GB_HAS_SDL2 then
          if Z.testbit (rd (io ctx) 0) 5 then
            if Z.testbit (rd (io ctx) 0) 4 then 0xF
            else g_joypad_dpad plat mod 16
          else g_joypad_buttons plat mod 16
        else 0xF).
Proof.
  intros Hj.
  change (gb_read8 plat ctx 0xFF00)
    with (let joyp := rd (io ctx) 0x00 in
          let result := u8 (Z.lor joyp 0x0F) in
          if GB_HAS_SDL2 then
            let dpad := g_joypad_dpad plat in
            let buttons := g_joypad_buttons plat in
            let result :=
              if negb (nonzero (Z.land joyp 0x10))
              then u8 (Z.lor (Z.land result 0xF0) (Z.land dpad 0x0F))
              else result in
            let result :=
              if negb (nonzero (Z.land joyp 0x20))
              then u8 (Z.lor (Z.land result 0xF0) (Z.land buttons 0x0F))
              else result in
            result
          else result).
  cbv zeta. destruct GB_HAS_SDL2.
  - rewrite !land_0F.
    apply (joypad_select (rd (io ctx) 0) (g_joypad_dpad plat mod 16)
             (g_joypad_buttons plat mod 16) Hj);
      apply Z.mod_pos_bound; lia.
  - revert Hj. generalize (rd (io ctx) 0). by_bytes.
Qed.

End JoypadFacts.

(** ** Calls and returns *)

Section CallFacts.
Context {E : Env}.

Lemma gb_read16_set_pc plat (ctx : GBContext PPU) x s :
  gb_read16 plat (set_pc x ctx) s = gb_read16 plat ctx s.
Proof. reflexivity. Qed.

(** [gb_ret] after a push of [v] and a jump, on a stack in RAM. *)
Lemma gb_ret_after_push plat (ctx : GBContext PPU) v addr :
  is_u16 v -> is_u16 (sp ctx) -> buffers_allocated ctx ->
  stack_ram (u16 (sp ctx - 2)) = true ->
  stack_ram (u16 (sp ctx - 1)) = true ->
  sp (set_pc addr (gb_push16 ctx v)) = u16 (sp ctx - 2)
  /\ pc (gb_ret plat (set_pc addr (gb_push16 ctx v))) = v
  /\ sp (gb_ret plat (set_pc addr (gb_push16 ctx v))) = sp ctx.
Proof.
  intros Hv Hsp Hal Hlo Hhi.
  rewrite <- u16_succ_pred2 in Hhi.
  assert (Hsp' : sp (gb_push16 ctx v) = u16 (sp ctx - 2)).
  { unfold gb_push16. cbn [sp set_sp].
    rewrite sp_gb_write16_ram by assumption. reflexivity. }
  split; [exact Hsp' | ].
  unfold gb_ret, gb_pop16. cbn [pc sp set_pc set_sp].
  rewrite gb_read16_set_pc, Hsp'.
  split; [ | apply u16_add2_sub2; assumption].
  unfold gb_push16. cbn [sp set_sp].
  apply write16_read16_ram; assumption.
Qed.

(** X22.  Call and return.  For a target below high RAM and a stack in
    RAM, [gb_call], [gb_rst] and [gb_dispatch_call] move SP down by two
    and set PC to the target, and a [gb_ret] then brings back the PC and
    the SP of before the call. *)
Theorem call_then_ret (plat : Platform) (ctx : GBContext PPU) addr :
  addr < 0xFF80 ->
  is_u16 (pc ctx) -> is_u16 (sp ctx) -> buffers_allocated ctx ->
  stack_ram (u16 (sp ctx - 2)) = true ->
  stack_ram (u16 (sp ctx - 1)) = true ->
  (pc (gb_call plat ctx addr) = addr
   /\ sp (gb_call plat ctx addr) = u16 (sp ctx - 2)
   /\ pc (gb_ret plat (gb_call plat ctx addr)) = pc ctx
   /\ sp (gb_ret plat (gb_call plat ctx addr)) = sp ctx)
  /\ (pc (gb_rst plat ctx addr) = addr
      /\ sp (gb_rst plat ctx addr) = u16 (sp ctx - 2)
      /\ pc (gb_ret plat (gb_rst plat ctx addr)) = pc ctx
      /\ sp (gb_ret plat (gb_rst plat ctx addr)) = sp ctx)
  /\ (pc (gb_dispatch_call plat ctx addr) = addr
      /\ sp (gb_dispatch_call plat ctx addr) = u16 (sp ctx - 2)
      /\ pc (gb_ret plat (gb_dispatch_call plat ctx addr)) = pc ctx
      /\ sp (gb_ret plat (gb_dispatch_call plat ctx addr)) = sp ctx).
Proof.
  intros Haddr Hpc Hsp Hal Hlo Hhi.
  destruct (gb_ret_after_push plat ctx (pc ctx) addr Hpc Hsp Hal Hlo Hhi)
    as (Hs & Hp & Hs').
  assert (Hcall : gb_call plat ctx addr
                  = set_pc addr (gb_push16 ctx (pc ctx))).
  { unfold gb_call. apply gb_dispatch_below_hram. exact Haddr. }
  assert (Hrst : gb_rst plat ctx addr = set_pc addr (gb_push16 ctx (pc ctx))).
  { unfold gb_rst. apply gb_dispatch_below_hram. exact Haddr. }
  assert (Hdc : gb_dispatch_call plat ctx addr
                = set_pc addr (gb_push16 ctx (pc ctx))).
  { unfold gb_dispatch_call.
    exact (gb_dispatch_below_hram plat (gb_push16 ctx (pc ctx)) addr Haddr). }
  rewrite Hcall, Hrst, Hdc.
  repeat split; (reflexivity || assumption).
Qed.

End CallFacts.

(** ** Interrupt priority *)

Lemma nonzero_land_pow2 p k :
  0 <= k -> nonzero (Z.land p (2 ^ k)) = Z.testbit p k.
Proof.
  intros Hk. unfold nonzero.
  destruct (Z.testbit p k) eqn:Hbit.
  - destruct (Z.eqb_spec (Z.land p (2 ^ k)) 0) as [Hz | ]; [ | reflexivity].
    assert (Hb : Z.testbit (Z.land p (2 ^ k)) k = true)
      by (rewrite Z.land_spec, Hbit, Z.pow2_bits_true by lia; reflexivity).
    rewrite Hz, Z.bits_0 in Hb. discriminate.
  - assert (Hz : Z.land p (2 ^ k) = 0).
    { apply Z.bits_inj'. intros n Hn.
      rewrite Z.land_spec, Z.bits_0, Z.pow2_bits_eqb by lia.
      destruct (Z.eqb_spec k n) as [<- | ];
        [rewrite Hbit; reflexivity | apply andb_false_r]. }
    rewrite Hz. reflexivity.
Qed.

Section PriorityFacts.
Context {E : Env}.

(** X23.  Interrupt priority.  With IME set, the interrupt block takes
    the lowest-numbered of the five sources that is both requested and
    enabled: it sets PC to 0x40 + 8 i, clears IME and [halted], and clears
    bit i of IF and no other bit. *)
Theorem tick_interrupts_priority plat (ctx : GBContext PPU) i :
  ime ctx = true ->
  buffers_allocated ctx ->
  is_u8 (rd (io ctx) 0x0F) ->
  0 <= i <= 4 ->
  Z.testbit (Z.land (rd (io ctx) 0x0F) (rd (io ctx) 0x80)) i = true ->
  (forall j, 0 <= j < i ->
     Z.testbit (Z.land (rd (io ctx) 0x0F) (rd (io ctx) 0x80)) j = false) ->
  pc (tick_interrupts plat ctx) = 0x40 + 8 * i
  /\ ime (tick_interrupts plat ctx) = false
  /\ halted (tick_interrupts plat ctx) = false
  /\ rd (io (tick_interrupts plat ctx)) 0x0F
     = Z.clearbit (rd (io ctx) 0x0F) i
  /\ rd (io (tick_interrupts plat ctx)) 0x80 = rd (io ctx) 0x80.
Proof.
  intros Hime (_ & _ & Hio & _) Hif Hi Hbit Hlow.
  unfold_map.
  assert (Hclr : forall k, 0 <= k <= 4 ->
            u8 (Z.land (rd (io ctx) 0x0F) (Z.lnot (2 ^ k)))
            = Z.clearbit (rd (io ctx) 0x0F) k).
  { intros k Hk. revert Hif. generalize (rd (io ctx) 0x0F).
    assert (Hcases : k = 0 \/ k = 1 \/ k = 2 \/ k = 3 \/ k = 4) by lia.
    destruct Hcases as [-> | [-> | [-> | [-> | ->]]]]; by_bytes. }
  set (IF := rd (io ctx) 0x0F) in *. set (IE := rd (io ctx) 0x80) in *.
  set (P := Z.land (Z.land IF IE) 0x1F).
  assert (Hpend : forall k, 0 <= k <= 4 ->
            nonzero (Z.land P (2 ^ k)) = Z.testbit (Z.land IF IE) k).
  { intros k Hk. rewrite nonzero_land_pow2 by lia. unfold P.
    rewrite Z.land_spec. change 0x1F with (Z.ones 5).
    rewrite (Z.ones_spec_low 5 k) by lia. apply andb_true_r. }
  assert (HP : u8 P = P).
  { apply u8_small. unfold P. change 0x1F with (Z.ones 5).
    rewrite Z.land_ones by lia.
    pose proof (Z.mod_pos_bound (Z.land IF IE) (2 ^ 5) ltac:(lia)).
    change (2 ^ 5) with 32 in *. lia. }
  assert (Hnz : nonzero P = true).
  { unfold nonzero. destruct (Z.eqb_spec P 0) as [Hz | ]; [ | reflexivity].
    pose proof (Hpend i Hi) as Hpi.
    rewrite Hz, Z.land_0_l, Hbit in Hpi. discriminate. }
  pose proof (Hpend 0 ltac:(lia)) as Hp0. change (2 ^ 0) with 1 in Hp0.
  pose proof (Hpend 1 ltac:(lia)) as Hp1. change (2 ^ 1) with 2 in Hp1.
  pose proof (Hpend 2 ltac:(lia)) as Hp2. change (2 ^ 2) with 4 in Hp2.
  pose proof (Hpend 3 ltac:(lia)) as Hp3. change (2 ^ 3) with 8 in Hp3.
  pose proof (Hpend 4 ltac:(lia)) as Hp4. change (2 ^ 4) with 16 in Hp4.
  unfold tick_interrupts. rewrite Hime. fold IF IE. fold P.
  rewrite HP, Hnz, Hp0, Hp1, Hp2, Hp3, Hp4.
  assert (Hcases : i = 0 \/ i = 1 \/ i = 2 \/ i = 3 \/ i = 4) by lia.
  destruct Hcases as [-> | [-> | [-> | [-> | ->]]]];
    rewrite ?(Hlow 0), ?(Hlow 1), ?(Hlow 2), ?(Hlow 3) by lia;
    rewrite Hbit; cbv beta iota zeta;
    match goal with
    | |- context [nonzero ?n] => change (nonzero n) with true
    end; cbv beta iota;
    rewrite gb_dispatch_below_hram by lia;
    cbn [pc ime halted io set_pc set_io set_ime set_halted];
    rewrite rd_wr_same, rd_wr_other by lia;
    fold IF; fold IE;
    [ rewrite <- (Hclr 0) | rewrite <- (Hclr 1) | rewrite <- (Hclr 2)
    | rewrite <- (Hclr 3) | rewrite <- (Hclr 4) ]; try lia;
    repeat split; reflexivity.
Qed.

End PriorityFacts.

(** ** Running without a PPU *)

Section NoPpuFacts.
Context {E : Env}.

Lemma tick_interrupts_ppu plat (ctx : GBContext PPU) :
  ppu (tick_interrupts plat ctx) = ppu ctx.
Proof.
  destruct (tick_interrupts_cases plat ctx)
    as [-> | [-> | (vector & bit & _ & _ & _ & ->)]]; reflexivity.
Qed.

(** Without a PPU a tick is the cycle count, the IME promotion and the
    interrupt block, and then at most [stopped] set by the event poll. *)
Lemma gb_tick_no_ppu (w : World) n :
  ppu (w_ctx w) = None ->
  let c1 := tick_interrupts (w_plat w)
              (tick_ime_pending (gb_add_cycles (w_ctx w) n)) in
  w_ctx (gb_tick w n) = c1 \/ w_ctx (gb_tick w n) = set_stopped true c1.
Proof.
  intros Hppu c1. unfold gb_tick. fold c1.
  assert (Hppu1 : ppu c1 = None).
  { unfold c1. rewrite tick_interrupts_ppu. unfold tick_ime_pending.
    destruct (ime_pending _); exact Hppu. }
  unfold tick_ppu. cbn [w_ctx]. rewrite Hppu1.
  unfold tick_poll. cbn [w_ctx w_plat poll_counter].
  destruct GB_HAS_SDL2; [ | left; reflexivity].
  destruct (_ >=? 4096); [ | left; reflexivity].
  destruct (gb_platform_poll_events (w_plat w)) as [plat running].
  destruct running; [left | right]; reflexivity.
Qed.

Lemma gb_tick_no_ppu_fields (w : World) n :
  ppu (w_ctx w) = None ->
  let c1 := tick_interrupts (w_plat w)
              (tick_ime_pending (gb_add_cycles (w_ctx w) n)) in
  ppu (w_ctx (gb_tick w n)) = None
  /\ io (w_ctx (gb_tick w n)) = io c1
  /\ halted (w_ctx (gb_tick w n)) = halted c1
  /\ cycles (w_ctx (gb_tick w n)) = u32 (cycles (w_ctx w) + n).
Proof.
  intros Hppu c1.
  assert (Hppu1 : ppu c1 = None).
  { unfold c1. rewrite tick_interrupts_ppu. unfold tick_ime_pending.
    destruct (ime_pending _); exact Hppu. }
  assert (Hcyc : cycles c1 = u32 (cycles (w_ctx w) + n)).
  { unfold c1.
    destruct (tick_interrupts_frame (w_plat w)
                (tick_ime_pending (gb_add_cycles (w_ctx w) n)))
      as (_ & _ & _ & ->).
    unfold tick_ime_pending. destruct (ime_pending _); reflexivity. }
  destruct (gb_tick_no_ppu w n Hppu) as [-> | ->]; fold c1;
    repeat split; assumption || reflexivity.
Qed.

(** With nothing requested and enabled the interrupt block does nothing. *)
Lemma tick_interrupts_idle plat (ctx : GBContext PPU) :
  Z.land (rd (io ctx) IO_SIZE) (rd (io ctx) 0x0F) = 0 ->
  tick_interrupts plat ctx = ctx.
Proof.
  intros Hidle. unfold tick_interrupts.
  destruct (ime ctx); [ | reflexivity].
  rewrite (Z.land_comm (rd (io ctx) 0x0F)). unfold IO_SIZE in Hidle.
  rewrite Hidle. reflexivity.
Qed.

Lemma gb_halt_iter_idle (w : World) :
  ppu (w_ctx w) = None ->
  Z.land (rd (io (w_ctx w)) IO_SIZE) (rd (io (w_ctx w)) 0x0F) = 0 ->
  gb_halt_iter w = (gb_tick w 4, false)
  /\ ppu (w_ctx (gb_tick w 4)) = None
  /\ io (w_ctx (gb_tick w 4)) = io (w_ctx w)
  /\ halted (w_ctx (gb_tick w 4)) = halted (w_ctx w)
  /\ cycles (w_ctx (gb_tick w 4)) = u32 (cycles (w_ctx w) + 4).
Proof.
  intros Hppu Hidle.
  destruct (gb_tick_no_ppu_fields w 4 Hppu) as (Hp & Hio & Hh & Hc).
  assert (Hc0 : tick_interrupts (w_plat w)
                  (tick_ime_pending (gb_add_cycles (w_ctx w) 4))
                = tick_ime_pending (gb_add_cycles (w_ctx w) 4)).
  { apply tick_interrupts_idle. unfold tick_ime_pending.
    destruct (ime_pending _); exact Hidle. }
  rewrite Hc0 in Hio, Hh.
  assert (Hio' : io (w_ctx (gb_tick w 4)) = io (w_ctx w)).
  { rewrite Hio. unfold tick_ime_pending.
    destruct (ime_pending _); reflexivity. }
  assert (Hh' : halted (w_ctx (gb_tick w 4)) = halted (w_ctx w)).
  { rewrite Hh. unfold tick_ime_pending.
    destruct (ime_pending _); reflexivity. }
  repeat split; try assumption.
  unfold gb_halt_iter. rewrite Hio', Hidle, Hp. reflexivity.
Qed.

Lemma gb_halt_loop_idle (fuel : nat) :
  forall (w : World) (j : Z),
    0 <= j <= Z.of_nat fuel ->
    ppu (w_ctx w) = None ->
    halted (w_ctx w) = true ->
    Z.land (rd (io (w_ctx w)) IO_SIZE) (rd (io (w_ctx w)) 0x0F) = 0 ->
    exists w',
      gb_halt_loop fuel w (4 * j) = Some w'
      /\ halted (w_ctx w') = true
      /\ io (w_ctx w') = io (w_ctx w)
      /\ u32 (cycles (w_ctx w')) = u32 (cycles (w_ctx w) + 4 * j).
Proof.
  induction fuel as [ | fuel IH]; intros w j Hj Hppu Hh Hidle.
  - assert (j = 0) as -> by lia. cbn. rewrite andb_false_r.
    exists w. rewrite Z.add_0_r. repeat split; auto.
  - cbn [gb_halt_loop]. rewrite Hh. cbn [andb].
    destruct (Z.gtb_spec (4 * j) 0) as [Hpos | Hzero].
    + destruct (gb_halt_iter_idle w Hppu Hidle)
        as (-> & Hp & Hio & Hh' & Hc).
      replace (4 * j - 4) with (4 * (j - 1)) by lia.
      destruct (IH (gb_tick w 4) (j - 1) ltac:(lia) Hp
                  ltac:(rewrite Hh'; exact Hh)
                  ltac:(rewrite Hio; exact Hidle))
        as (w' & Hloop & Hhw & Hiow & Hcw).
      exists w'. repeat split; try assumption.
      * rewrite Hiow. exact Hio.
      * rewrite Hcw, Hc, u32_add_idemp. f_equal. lia.
    + assert (j = 0) as -> by lia.
      exists w. rewrite Z.add_0_r. repeat split; auto.
Qed.

(** X24.  HALT with nothing to wait for.  Without a PPU and with no
    interrupt both requested and enabled, [gb_halt] spends its whole
    budget: it returns after exactly 70224 cycles with the CPU still
    halted and the I/O registers as they were. *)
Theorem gb_halt_spends_budget (fuel : nat) (w : World) :
  17556 <= Z.of_nat fuel ->
  ppu (w_ctx w) = None ->
  Z.land (rd (io (w_ctx w)) IO_SIZE) (rd (io (w_ctx w)) 0x0F) = 0 ->
  exists w',
    gb_halt fuel w = Some w'
    /\ halted (w_ctx w') = true
    /\ io (w_ctx w') = io (w_ctx w)
    /\ u32 (cycles (w_ctx w') - cycles (w_ctx w)) = 70224.
Proof.
  intros Hfuel Hppu Hidle. unfold gb_halt.
  destruct (gb_halt_loop_idle fuel
              (with_ctx w (set_halted true (w_ctx w))) 17556
              ltac:(lia) Hppu eq_refl Hidle)
    as (w' & Hloop & Hh & Hio & Hc).
  change (4 * 17556) with 70224 in Hloop, Hc.
  exists w'. repeat split; try assumption.
  cbn [with_ctx w_ctx cycles set_halted] in Hc.
  unfold u32 in *.
  rewrite <- Zminus_mod_idemp_l, Hc, Zminus_mod_idemp_l.
  replace (cycles (w_ctx w) + 70224 - cycles (w_ctx w)) with 70224 by lia.
  reflexivity.
Qed.

(** X25.  HALT with an interrupt already requested and enabled.  Without
    a PPU, [gb_halt] returns after a single tick of four cycles with
    [halted] cleared, whether or not IME lets the interrupt be taken. *)
Theorem gb_halt_wakes_at_once (fuel : nat) (w : World) :
  1 <= Z.of_nat fuel ->
  ppu (w_ctx w) = None ->
  nonzero (Z.land (rd (io (w_ctx w)) IO_SIZE) (rd (io (w_ctx w)) 0x0F))
  = true ->
  exists w',
    gb_halt fuel w = Some w'
    /\ halted (w_ctx w') = false
    /\ cycles (w_ctx w') = u32 (cycles (w_ctx w) + 4).
Proof.
  intros Hfuel Hppu Hreq. unfold gb_halt.
  destruct fuel as [ | fuel]; [lia | ]. clear Hfuel.
  set (w0 := with_ctx w (set_halted true (w_ctx w))).
  assert (Hppu0 : ppu (w_ctx w0) = None) by exact Hppu.
  destruct (gb_tick_no_ppu_fields w0 4 Hppu0) as (Hp & Hio & Hh & Hc).
  cbn zeta in Hio, Hh.
  change (cycles (w_ctx w0)) with (cycles (w_ctx w)) in Hc.
  set (c0 := tick_ime_pending (gb_add_cycles (w_ctx w0) 4)) in *.
  assert (Hio0 : io c0 = io (w_ctx w)).
  { unfold c0, tick_ime_pending. destruct (ime_pending _); reflexivity. }
  cbn [gb_halt_loop]. change (halted (w_ctx w0)) with true.
  cbn [andb]. change (70224 >? 0) with true. cbv iota.
  unfold gb_halt_iter.
  destruct (tick_interrupts_cases (w_plat w0) c0)
    as [Hcase | [Hcase | (vector & bit & _ & _ & _ & Hcase)]];
    rewrite Hcase in Hio, Hh.
  - (* no dispatch: the pending request ends the loop *)
    rewrite Hio, Hio0, Hreq.
    eexists. split; [reflexivity | ]. split; [reflexivity | exact Hc].
  - rewrite Hio. cbn [io set_halted set_ime]. rewrite Hio0, Hreq.
    eexists. split; [reflexivity | ]. split; [reflexivity | exact Hc].
  - (* dispatched: [halted] was cleared by the interrupt block *)
    cbn [halted set_pc set_io set_halted] in Hh.
    destruct (nonzero (Z.land (rd (io (w_ctx (gb_tick w0 4))) IO_SIZE) _)).
    + eexists. split; [reflexivity | ]. split; [reflexivity | exact Hc].
    + rewrite Hp.
      destruct fuel; cbn [gb_halt_loop]; rewrite Hh; cbn [andb];
        (eexists; split; [reflexivity | ]; split; [exact Hh | exact Hc]).
Qed.

Lemma gb_write8_dma_no_ppu (ctx : GBContext PPU) v :
  ppu ctx = None -> ppu (gb_write8 ctx 0xFF46 v) = None.
Proof.
  intros Hppu.
  change (gb_write8 ctx 0xFF46 v)
    with (match ppu ctx with
          | Some p => ppu_write_register p ctx 0xFF46 v
          | None => set_io (wr (io ctx) (0xFF46 - IO_START) v) ctx
          end).
  rewrite Hppu. exact Hppu.
Qed.

Lemma gb_dispatch_no_ppu plat (ctx : GBContext PPU) addr :
  ppu ctx = None -> ppu (gb_dispatch plat ctx addr) = None.
Proof.
  intros Hppu. unfold gb_dispatch, gb_interpret, gb_ret, gb_pop16.
  repeat match goal with
         | |- context [if ?b then _ else _] => destruct b
         end; cbn [ppu set_pc set_sp set_a]; try assumption;
    apply gb_write8_dma_no_ppu; exact Hppu.
Qed.

(** X26.  Without a PPU no frame ever completes: [gb_frame_complete] is
    false and stays false through ticks and steps, so [gb_run_frame] runs
    out of any fuel. *)
Theorem gb_run_frame_needs_ppu (fuel : nat) (w : World) :
  ppu (w_ctx w) = None ->
  gb_frame_complete (w_ctx w) = false
  /\ gb_run_frame fuel w = None.
Proof.
  intros Hppu.
  split; [unfold gb_frame_complete; rewrite Hppu; reflexivity | ].
  unfold gb_run_frame.
  assert (Hloop : gb_run_frame_loop fuel w = None); [ | rewrite Hloop; reflexivity].
  revert w Hppu. induction fuel as [ | fuel IH]; intros w Hppu.
  - cbn. unfold gb_frame_complete. rewrite Hppu. reflexivity.
  - cbn [gb_run_frame_loop]. unfold gb_frame_complete at 1. rewrite Hppu.
    apply IH.
    destruct (halted (w_ctx w)).
    + apply (gb_tick_no_ppu_fields w 4 Hppu).
    + unfold gb_step. cbn [snd with_ctx w_ctx].
      pose proof (gb_dispatch_no_ppu (w_plat w) (w_ctx w) (pc (w_ctx w)) Hppu)
        as Hd.
      destruct (ime_pending _); exact Hd.
Qed.

End NoPpuFacts.

(** ** Reading what was loaded *)

Lemma rd_replicate_zero n i : rd (replicate n 0) i = 0.
Proof.
  unfold rd. destruct (replicate n 0 !! Z.to_nat i) as [y | ] eqn:Hy;
    [ | reflexivity].
  apply lookup_replicate in Hy. destruct Hy as [-> _]. reflexivity.
Qed.

Section LoadMore.
Context {E : Env}.

Lemma gb_read8_eram plat (ctx : GBContext PPU) x :
  0xA000 <= x <= 0xBFFF ->
  gb_read8 plat ctx x
  = if ram_enabled ctx then
      match eram ctx with
      | Some e =>
          if ram_bank ctx * 0x2000 + (x - 0xA000) <? eram_size ctx
          then rd e (ram_bank ctx * 0x2000 + (x - 0xA000))
          else 0xFF
      | None => 0xFF
      end
    else 0xFF.
Proof.
  intros Hx. rewrite gb_read8_fix. unfold gb_read8_body. unfold_map.
  zcmp; reflexivity.
Qed.

(** X27.  After a successful load of an image that holds at least bank 0,
    bus reads of the ROM range return the bytes of the image: those of
    bank 0 below 0x4000, and above it those of the selected bank, or 0xFF
    beyond the end of the image. *)
Theorem load_then_read plat (ctx : GBContext PPU) (data : list Z) y :
  heap_alloc (Z.of_nat (length data)) = true ->
  ROM_BANK_SIZE <= Z.of_nat (length data) ->
  0 <= y <= 0x7FFF ->
  snd (gb_context_load_rom ctx data) = true
  /\ gb_read8 plat (fst (gb_context_load_rom ctx data)) y
     = (if y <=? 0x3FFF then rd data y
        else
          let offset := rom_bank ctx * 0x4000 + (y - 0x4000) in
          if offset <? Z.of_nat (length data) then rd data offset else 0xFF).
Proof.
  intros Halloc Hlen Hy.
  assert (Hload : snd (gb_context_load_rom ctx data) = true
                  /\ rom (fst (gb_context_load_rom ctx data)) = Some data
                  /\ rom_size (fst (gb_context_load_rom ctx data))
                     = Z.of_nat (length data)
                  /\ rom_bank (fst (gb_context_load_rom ctx data))
                     = rom_bank ctx).
  { unfold gb_context_load_rom. rewrite Halloc. cbn [negb fst snd].
    destruct (_ >=? 0x148); [ | repeat split; reflexivity].
    match goal with
    | |- context [if ?b >? 0 then _ else _] => destruct (b >? 0)
    end; repeat split; reflexivity. }
  destruct Hload as (Hok & Hrom & Hsize & Hbank).
  split; [exact Hok | ].
  rewrite gb_read8_fix. unfold gb_read8_body. unfold_map.
  rewrite Hrom, Hsize, Hbank.
  destruct (Z.leb_spec y 16383); [reflexivity | ].
  destruct (Z.leb_spec y 32767); [reflexivity | lia].
Qed.

(** X28.  External RAM after a load.  On a context that had none, with
    the latch set, a read of the ERAM range returns 0 where the loader
    has allocated ERAM (it is zero-filled) and 0xFF where it has not: no
    RAM in the header, allocation failed, or beyond the allocated size. *)
Theorem loaded_eram_reads plat (ctx : GBContext PPU) (data : list Z) x :
  eram ctx = None -> 0 <= ram_bank ctx ->
  heap_alloc (Z.of_nat (length data)) = true ->
  Z.of_nat (length data) < 0x148 \/ 0x14A <= Z.of_nat (length data) ->
  0xA000 <= x <= 0xBFFF ->
  let loaded := fst (gb_context_load_rom ctx data) in
  gb_read8 plat (gb_write8 loaded 0x0000 0x0A) x
  = if is_Some_b (eram loaded)
       && (ram_bank ctx * 0x2000 + (x - 0xA000) <? eram_size loaded)
    then 0 else 0xFF.
Proof.
  intros Hnone Hbank Halloc _ Hx loaded.
  assert (Hload : (eram loaded = None
                   \/ eram loaded
                      = Some (replicate (Z.to_nat (eram_size loaded)) 0))
                  /\ ram_bank loaded = ram_bank ctx).
  { unfold loaded, gb_context_load_rom. rewrite Halloc. cbn [negb fst snd].
    destruct (_ >=? 0x148); [ | split; [left; exact Hnone | reflexivity]].
    match goal with
    | |- context [if ?b >? 0 then _ else _] =>
        destruct (b >? 0); [destruct (heap_alloc b) | ]
    end; split; try reflexivity; cbn [eram eram_size set_eram set_eram_size];
      auto. }
  clearbody loaded.
  assert (Hon : gb_write8 loaded 0 10 = set_ram_enabled true loaded)
    by reflexivity.
  rewrite Hon, gb_read8_eram by exact Hx.
  cbn [ram_enabled set_ram_enabled eram ram_bank eram_size].
  destruct Hload as ([Her | Her] & Hrb); rewrite Her, ?Hrb; cbn [is_Some_b andb].
  - reflexivity.
  - destruct (_ <? _); [apply rd_replicate_zero | reflexivity].
Qed.

End LoadMore.

(** ** The further properties at concrete inputs *)

Ltac in_range := unfold is_u8, is_u16; simpl; lia.

Ltac blank_allocated :=
  unfold buffers_allocated, video_allocated; vm_compute; intuition discriminate.

(** 0x12FF + 0x0001 = 0x1300. *)
Lemma add8_adc8_word_witness :
  a (gb_add8 (E := stub_env) (set_a 0xFF blank_ctx) 0x01)
  + 256 * a (gb_adc8 (E := stub_env)
               (set_a 0x12 (gb_add8 (E := stub_env) (set_a 0xFF blank_ctx) 0x01))
               0x00)
  = 0x1300.
Proof.
  exact (proj1 (add8_adc8_word (E := stub_env) blank_ctx 0xFF 0x12 0x01 0x00
                  ltac:(in_range) ltac:(in_range) ltac:(in_range)
                  ltac:(in_range))).
Defined.

(** 0x1300 - 0x0001 = 0x12FF. *)
Lemma sub8_sbc8_word_witness :
  a (gb_sub8 (E := stub_env) (set_a 0x00 blank_ctx) 0x01)
  + 256 * a (gb_sbc8 (E := stub_env)
               (set_a 0x13 (gb_sub8 (E := stub_env) (set_a 0x00 blank_ctx) 0x01))
               0x00)
  = 0x12FF.
Proof.
  exact (proj1 (sub8_sbc8_word (E := stub_env) blank_ctx 0x00 0x13 0x01 0x00
                  ltac:(in_range) ltac:(in_range) ltac:(in_range)
                  ltac:(in_range))).
Defined.

Lemma add8_sub8_restores_witness :
  a (gb_sub8 (E := stub_env)
       (gb_add8 (E := stub_env) (set_a 0x3A blank_ctx) 0xC6) 0xC6) = 0x3A.
Proof.
  exact (proj1 (add8_sub8_restores (E := stub_env) (set_a 0x3A blank_ctx) 0xC6
                  ltac:(in_range) ltac:(in_range))).
Defined.

Lemma cp8_compares_witness :
  a (gb_cp8 (E := stub_env) (set_a 0x05 blank_ctx) 0x07) = 0x05
  /\ f_z (gb_cp8 (E := stub_env) (set_a 0x05 blank_ctx) 0x07) = false
  /\ f_c (gb_cp8 (E := stub_env) (set_a 0x05 blank_ctx) 0x07) = true
  /\ f_n (gb_cp8 (E := stub_env) (set_a 0x05 blank_ctx) 0x07) = true.
Proof.
  exact (proj1 (cp8_compares (E := stub_env) (set_a 0x05 blank_ctx) 0x07
                  ltac:(in_range) ltac:(in_range))).
Defined.

(** 19 + 28 = 47. *)
Lemma daa_after_addition_witness :
  a (gb_daa (E := stub_env)
       (gb_add8 (E := stub_env) (set_a 0x19 blank_ctx) 0x28)) = 0x47.
Proof.
  exact (proj1 (proj1 (daa_after_addition (E := stub_env)
                         (set_a 0x19 blank_ctx) 0x28
                         ltac:(in_range) ltac:(in_range) eq_refl eq_refl))).
Defined.

(** 42 - 15 = 27. *)
Lemma daa_after_subtraction_witness :
  a (gb_daa (E := stub_env)
       (gb_sub8 (E := stub_env) (set_a 0x42 blank_ctx) 0x15)) = 0x27.
Proof.
  exact (proj1 (proj1 (daa_after_subtraction (E := stub_env)
                         (set_a 0x42 blank_ctx) 0x15
                         ltac:(in_range) ltac:(in_range) eq_refl eq_refl))).
Defined.

Lemma inc8_dec8_inverse_witness :
  fst (gb_dec8 (E := stub_env) blank_ctx
         (fst (gb_inc8 (E := stub_env) blank_ctx 0xFF))) = 0xFF.
Proof.
  exact (proj1 (inc8_dec8_inverse (E := stub_env) blank_ctx blank_ctx 0xFF
                  ltac:(in_range))).
Defined.

Lemma swap_involution_witness :
  fst (gb_swap (E := stub_env) blank_ctx
         (fst (gb_swap (E := stub_env) blank_ctx 0xA5))) = 0xA5.
Proof.
  exact (proj1 (swap_involution (E := stub_env) blank_ctx blank_ctx 0xA5
                  ltac:(in_range))).
Defined.

Lemma rlc_rrc_inverse_witness :
  fst (gb_rrc (E := stub_env) blank_ctx
         (fst (gb_rlc (E := stub_env) blank_ctx 0x81))) = 0x81.
Proof.
  exact (proj1 (rlc_rrc_inverse (E := stub_env) blank_ctx blank_ctx 0x81
                  ltac:(in_range))).
Defined.

Lemma rl_rr_inverse_witness :
  fst (gb_rr (E := stub_env) (snd (gb_rl (E := stub_env) blank_ctx 0x81))
         (fst (gb_rl (E := stub_env) blank_ctx 0x81))) = 0x81.
Proof.
  exact (proj1 (rl_rr_inverse (E := stub_env) blank_ctx 0x81 ltac:(in_range))).
Defined.

Lemma accumulator_rotations_witness :
  a (gb_rrca (E := stub_env) (gb_rlca (E := stub_env) blank_ctx))
  = a blank_ctx.
Proof.
  exact (proj1 (accumulator_rotations (E := stub_env) blank_ctx
                  ltac:(in_range))).
Defined.

(** 0x81 is -127: halved and rounded down it is -64, 0xC0. *)
Lemma shifts_arithmetic_witness :
  s8 (fst (gb_sra (E := stub_env) blank_ctx 0x81)) = -64.
Proof.
  exact (proj1 (proj2 (proj2 (shifts_arithmetic (E := stub_env) blank_ctx 0x81
                                ltac:(in_range))))).
Defined.

Lemma bit_tests_witness :
  f_z (gb_bit (E := stub_env) blank_ctx 7 0x7F) = true.
Proof.
  exact (proj1 (bit_tests (E := stub_env) blank_ctx 7 0x7F ltac:(lia))).
Defined.

Lemma logic_on_self_witness :
  a (gb_xor8 (E := stub_env) blank_ctx (a blank_ctx)) = 0.
Proof.
  exact (proj1 (proj2 (proj2 (logic_on_self (E := stub_env) blank_ctx
                                ltac:(in_range))))).
Defined.

(** A write to work RAM leaves the CPU state and bank 0 alone. *)
Lemma gb_write8_frame_witness :
  cpu_and_rom (gb_write8 (E := stub_env) rom_ctx 0xC000 0x55)
  = cpu_and_rom rom_ctx
  /\ gb_read8 (E := stub_env) tt
       (gb_write8 (E := stub_env) rom_ctx 0xC000 0x55) 0x0100
     = gb_read8 (E := stub_env) tt rom_ctx 0x0100.
Proof.
  apply (gb_write8_frame (E := stub_env) tt rom_ctx 0xC000 0x55 0x0100).
  - left. reflexivity.
  - lia.
Defined.

(** Bank 2 of the three-bank image reads 0x22. *)
Lemma rom_bank_select_witness :
  gb_read8 (E := stub_env) tt
    (gb_write8 (E := stub_env) rom_ctx 0x2000 0x02) 0x4000 = 0x22.
Proof.
  rewrite (rom_bank_select (E := stub_env) tt rom_ctx 0x2000 0x02 0x4000
             ltac:(lia) ltac:(in_range) ltac:(lia)).
  vm_compute. reflexivity.
Defined.

Lemma eram_latch_witness :
  gb_read8 (E := stub_env) tt
    (gb_write8 (E := stub_env)
       (gb_write8 (E := stub_env) eram_ctx 0x0000 0x0A) 0xA010 0x77) 0xA010
  = 0x77.
Proof.
  assert (Hlen : Z.of_nat (length (replicate (Z.to_nat 0x2000) 0))
                 = eram_size eram_ctx)
    by (vm_compute; reflexivity).
  exact (proj1 (proj2 (proj2
           (eram_latch (E := stub_env) tt eram_ctx _ 0xA010 0x77 eq_refl Hlen
              ltac:(lia) ltac:(simpl; lia) ltac:(simpl; lia))))).
Defined.

Lemma unmapped_access_witness :
  gb_read8 (E := stub_env) tt blank_ctx 0xFEA0 = 0xFF.
Proof.
  exact (proj1 (unmapped_access (E := stub_env) tt blank_ctx 0xFEA0 0x00
                  eq_refl)).
Defined.

Lemma video_io_read_after_write_witness :
  gb_read8 (E := stub_env) tt
    (gb_write8 (E := stub_env) blank_ctx 0x8000 0x3C) 0x8000 = 0x3C.
Proof.
  apply (video_io_read_after_write (E := stub_env) tt blank_ctx 0x8000 0x3C).
  - blank_allocated.
  - blank_allocated.
  - left. lia.
Defined.

Lemma echo_mirrors_witness :
  gb_read8 (E := stub_env) tt
    (gb_write8 (E := stub_env) blank_ctx 0xE123 0x42) 0xC123 = 0x42.
Proof.
  assert (Hal : buffers_allocated blank_ctx) by blank_allocated.
  exact (proj1 (proj2 (proj2
           (echo_mirrors (E := stub_env) tt blank_ctx 0xE123 0x42
              ltac:(lia) Hal)))).
Defined.

(** The build without SDL: no key pressed. *)
Lemma joypad_read_witness :
  gb_read8 (E := stub_env) tt blank_ctx 0xFF00 mod 16 = 0xF.
Proof.
  exact (proj2 (joypad_read (E := stub_env) tt blank_ctx
                  ltac:(unfold is_u8; vm_compute; intuition discriminate))).
Defined.

Lemma call_then_ret_witness :
  pc (gb_ret (E := stub_env) tt (gb_call (E := stub_env) tt blank_ctx 0x0150))
  = pc blank_ctx
  /\ sp (gb_ret (E := stub_env) tt
           (gb_call (E := stub_env) tt blank_ctx 0x0150))
     = sp blank_ctx.
Proof.
  assert (Hal : buffers_allocated blank_ctx) by blank_allocated.
  destruct (call_then_ret (E := stub_env) tt blank_ctx 0x0150
              ltac:(lia) ltac:(in_range) ltac:(in_range) Hal eq_refl eq_refl)
    as ((_ & _ & Hpc & Hsp) & _).
  split; assumption.
Defined.

(** Timer and joypad requested, all enabled: the timer is taken and only
    its bit is cleared. *)
Lemma tick_interrupts_priority_witness :
  pc (tick_interrupts (E := stub_env) tt irq_ctx) = 0x50
  /\ rd (io (tick_interrupts (E := stub_env) tt irq_ctx)) 0x0F = 0x10.
Proof.
  assert (Hal : buffers_allocated irq_ctx) by blank_allocated.
  assert (Hlow : forall j, 0 <= j < 2 ->
            Z.testbit (Z.land (rd (io irq_ctx) 0x0F) (rd (io irq_ctx) 0x80)) j
            = false).
  { intros j Hj. assert (Hc : j = 0 \/ j = 1) by lia.
    destruct Hc as [-> | ->]; reflexivity. }
  destruct (tick_interrupts_priority (E := stub_env) tt irq_ctx 2
              eq_refl Hal ltac:(unfold is_u8; vm_compute; intuition discriminate)
              ltac:(lia) eq_refl Hlow)
    as (Hpc & _ & _ & Hif & _).
  split; [exact Hpc | exact Hif].
Defined.

Lemma gb_halt_spends_budget_witness :
  exists w',
    gb_halt (Z.to_nat 17556) (stub_world blank_ctx) = Some w'
    /\ halted (w_ctx w') = true
    /\ io (w_ctx w') = io (w_ctx (stub_world blank_ctx))
    /\ u32 (cycles (w_ctx w') - cycles (w_ctx (stub_world blank_ctx)))
       = 70224.
Proof.
  apply (gb_halt_spends_budget (E := stub_env)).
  - lia.
  - reflexivity.
  - reflexivity.
Defined.

Lemma gb_halt_wakes_at_once_witness :
  exists w',
    gb_halt 1 (stub_world vblank_ctx) = Some w'
    /\ halted (w_ctx w') = false
    /\ cycles (w_ctx w') = u32 (cycles (w_ctx (stub_world vblank_ctx)) + 4).
Proof.
  apply (gb_halt_wakes_at_once (E := stub_env)).
  - lia.
  - reflexivity.
  - reflexivity.
Defined.

Lemma gb_run_frame_needs_ppu_witness :
  gb_run_frame 1000 (stub_world blank_ctx) = None.
Proof.
  exact (proj2 (gb_run_frame_needs_ppu (E := stub_env) 1000
                  (stub_world blank_ctx) eq_refl)).
Defined.

(** Bank 1 of the three-bank image reads 0x11 after the load. *)
Lemma load_then_read_witness :
  gb_read8 (E := stub_env) tt
    (fst (gb_context_load_rom (E := stub_env) blank_ctx three_bank_rom))
    0x4000 = 0x11.
Proof.
  destruct (load_then_read (E := stub_env) tt blank_ctx three_bank_rom 0x4000
              eq_refl ltac:(vm_compute; discriminate) ltac:(lia))
    as (_ & Hread).
  rewrite Hread. vm_compute. reflexivity.
Defined.

(** The 32 KiB of ERAM of the MBC3 header read as zero. *)
Lemma loaded_eram_reads_witness :
  gb_read8 (E := stub_env) tt
    (gb_write8 (E := stub_env)
       (fst (gb_context_load_rom (E := stub_env) blank_ctx mbc3_rom))
       0x0000 0x0A) 0xA000 = 0.
Proof.
  rewrite (loaded_eram_reads (E := stub_env) tt blank_ctx mbc3_rom 0xA000
             eq_refl ltac:(simpl; lia) eq_refl
             ltac:(right; vm_compute; discriminate) ltac:(lia)).
  vm_compute. reflexivity.
Defined.
